(** * ISignReal: the signing service of [app.py]

    A shallow embedding of the Flask application in [src/app.py]: the
    metadata extractor, the manifest generator, the [/download/<filename>]
    handler and the [/sign] handler, over an explicit world (file system,
    application log, clock readings) and an exception monad.

    A Python [str] is a [string] here, one character for each code point (up
    to 255); file contents and what a child process prints are strings of
    bytes, and the latter becomes text by decoding. *)

From Stdlib Require Import String Ascii List ZArith Lia Bool.
From stdpp Require Import base option list gmap strings pretty.

Local Open Scope Z_scope.

(** ** Python string operations *)

Module Str.

(** [s.startswith(p)] *)
Definition startswith (s p : string) : bool := String.prefix p s.

(** [s.endswith(suf)]: the last [len(suf)] characters of [s] are [suf]. *)
Definition endswith (s suf : string) : bool :=
  Nat.leb (String.length suf) (String.length s) &&
  String.eqb
    (String.substring (String.length s - String.length suf)
                      (String.length suf) s) suf.

(** [sub in s] *)
Fixpoint contains (sub s : string) : bool :=
  String.prefix sub s ||
  match s with
  | EmptyString => false
  | String _ s' => contains sub s'
  end.

(** [s.replace(old, new)]: every non-overlapping occurrence, left to right.
    [skip] counts the characters of an occurrence still to be dropped. *)
Fixpoint replace_go (old new : string) (skip : nat) (s : string) : string :=
  match s with
  | EmptyString =>
      match old with EmptyString => new | _ => EmptyString end
  | String c s' =>
      match skip with
      | S k => replace_go old new k s'
      | O =>
          match old with
          | EmptyString => new +:+ String c (replace_go old new O s')
          | String _ old' =>
              if String.prefix old s
              then new +:+ replace_go old new (String.length old') s'
              else String c (replace_go old new O s')
          end
      end
  end.

Definition replace (s old new : string) : string := replace_go old new O s.

(** [sep.join(l)] *)
Definition join (sep : string) (l : list string) : string :=
  String.concat sep l.

End Str.

(** [os.path.join(a, b)] on POSIX. *)
Definition path_join (a b : string) : string :=
  if Str.startswith b "/" then b
  else if String.eqb a "" || Str.endswith a "/" then a +:+ b
  else a +:+ "/" +:+ b.

(** ** Python values the handlers observe *)

(** A value read from a property list, or [None].  The handlers look at a
    non-string value only through [bool(v)], [str(v)] and [jsonify], so any
    other plist value (integer, real, date, data, array, nested dict) is
    carried with its type name, its truth value, its [str] text and, when
    [json] cannot serialise it, the name of the type [json] stops at ([bytes]
    for a [data] value, or for an array that holds one). *)
Inductive pyval :=
| PyNone
| PyStr (s : string)
| PyOther (tyname : string) (truth : bool) (text : string)
          (unserializable : option string).

Definition truthy (v : pyval) : bool :=
  match v with
  | PyNone => false
  | PyStr s => negb (String.eqb s "")
  | PyOther _ t _ _ => t
  end.

(** [str(v)], as an f-string formats it. *)
Definition py_str (v : pyval) : string :=
  match v with
  | PyNone => "None"
  | PyStr s => s
  | PyOther _ _ text _ => text
  end.

(** The type at which [json.dumps] raises, if it does. *)
Definition json_error (v : pyval) : option string :=
  match v with
  | PyOther _ _ _ e => e
  | _ => None
  end.

(** [a or b] *)
Definition py_or (a b : pyval) : pyval := if truthy a then a else b.

(** What [plistlib.load] returns: a dictionary at top level, or another
    object (which has no [get]). *)
Inductive plist_root :=
| PlistDict (d : gmap string pyval)
| PlistOther (tyname : string).

(** [d.get(k)] *)
Definition dict_get (d : gmap string pyval) (k : string) : pyval :=
  default PyNone (d !! k).

(** ** Exceptions *)

Inductive exn :=
| HTTPException (code : Z)
| CalledProcessError (cmd : list string) (returncode : Z) (output : string)
| PyException (cls : string) (msg : string).

Definition http_name (code : Z) : string :=
  if code =? 400 then "Bad Request"
  else if code =? 404 then "Not Found"
  else if code =? 413 then "Request Entity Too Large"
  else if code =? 416 then "Requested Range Not Satisfiable"
  else if code =? 500 then "Internal Server Error"
  else "Unknown Error".

Definition http_description (code : Z) : string :=
  if code =? 400 then
    "The browser (or proxy) sent a request that this server could not understand."
  else if code =? 404 then
    "The requested URL was not found on the server. If you entered the URL manually please check your spelling and try again."
  else if code =? 413 then
    "The data value transmitted exceeds the capacity limit."
  else if code =? 416 then
    "The server cannot provide the requested range."
  else if code =? 500 then
    "The server encountered an internal error and was unable to complete your request. Either the server is overloaded or there is an error in the application."
  else "".

(** [str(e)]; the text of a [CalledProcessError] stands for Python's, which
    prints the command as a list. *)
Definition exn_str (e : exn) : string :=
  match e with
  | HTTPException code =>
      pretty code +:+ " " +:+ http_name code +:+ ": " +:+ http_description code
  | CalledProcessError cmd rc _ =>
      "Command '" +:+ Str.join " " cmd +:+
      "' returned non-zero exit status " +:+ pretty rc +:+ "."
  | PyException _ msg => msg
  end.

Inductive result (A : Type) :=
| Ok (a : A)
| Raise (e : exn).
Arguments Ok {A} a.
Arguments Raise {A} e.

(** ** The world *)

Inductive node :=
| File (content : string)
| Dir.

Inductive level := DEBUG | WARNING | ERROR.

Record World := mkWorld {
  fs : gmap string node;          (* the file system, by absolute path *)
  log : list (level * string);    (* app.logger, oldest entry first *)
  ticks : nat                     (* readings of time.time() so far *)
}.

#[local] Set Warnings "-register-all".

(** A directory tree as [extractall] lays it out, every directory with its
    entries in [os.listdir] order. *)
Inductive tree :=
| TFile (content : string)
| TDir (entries : list (string * tree)).

(** What the child process did: exit status, the bytes of its combined stdout
    and stderr, and the file it left at its [-o] path, if any. *)
Record proc_result := mkProc {
  returncode : Z;
  output : string;
  outfile : option string
}.

(** The collaborators of the application: libraries, the operating system
    and the external signing executable. *)
Record Env := mkEnv {
  clock : nat → Z;                       (* int(time.time()) at the n-th reading *)
  tmp_names : list string;               (* tempfile's random name sequence *)
  scratch : string;                      (* the TemporaryDirectory of the extractor *)
  write_fault : string → option exn;     (* creating or writing this path raises *)
  rmtree_fault : string → option exn;    (* shutil.rmtree of this path raises *)
  unzip : string → exn + list (string * tree);  (* ZipFile(...).extractall *)
  plist_load : string → exn + plist_root;       (* plistlib.load *)
  zsign_installed : bool;                (* ./zsign can be executed *)
  zsign : list string → gmap string node → proc_result;
  mb_repr : nat → string;                (* str(round(size / (1024*1024), 2)) *)
  write_partial : string → option nat;   (* how far a write that raises got *)
  decode : string → string + string      (* the locale's decoding of bytes:
                                            the text ([inr]), or the message
                                            of the UnicodeDecodeError *)
}.

(** [write_fault E p] is the exception, if any, that the operating system
    raises when the program opens [p] for writing and writes to it, for a
    reason that lies outside the file system of the model (permissions,
    quota, a full device, a name it refuses).  When it raises,
    [write_partial E p] tells where: [None] in [open], which leaves the path
    as it was; [Some k] after [open(p, 'w')] has created or truncated the
    file and [k] characters were written. *)

(** ** The monad: state passing over [World], with exceptions *)

Definition M (A : Type) : Type := World → result A * World.

Definition ret {A} (a : A) : M A := λ w, (Ok a, w).

Definition bind {A B} (m : M A) (k : A → M B) : M B :=
  λ w, match m w with
       | (Ok a, w') => k a w'
       | (Raise e, w') => (Raise e, w')
       end.

Definition raise {A} (e : exn) : M A := λ w, (Raise e, w).

(** [try: body  except Exception as e: handler(e)] *)
Definition try_except {A} (body : M A) (handler : exn → M A) : M A :=
  λ w, match body w with
       | (Ok a, w') => (Ok a, w')
       | (Raise e, w') => handler e w'
       end.

(** [try: body  finally: fin]; an exception of [fin] replaces the outcome of
    [body]. *)
Definition try_finally {A} (body : M A) (fin : M unit) : M A :=
  λ w, match body w with
       | (r, w') =>
           match fin w' with
           | (Ok _, w'') => (r, w'')
           | (Raise e, w'') => (Raise e, w'')
           end
       end.

#[global] Instance M_ret : MRet M := @ret.
#[global] Instance M_bind : MBind M := λ A B k m, bind m k.

(** ** Requests and responses *)

(** werkzeug's [FileStorage]; [bool(f)] is [bool(f.filename)]. *)
Record FileStorage := mkFile {
  filename : string;
  stream : string
}.

(** [request.files] and [request.form] are MultiDicts: [get] returns the
    first value stored under the key. *)
Record Request := mkRequest {
  files : list (string * FileStorage);
  form : list (string * string);
  url_root : string
}.

Definition multidict_get {V} (d : list (string * V)) (k : string) : option V :=
  snd <$> List.find (λ kv, String.eqb (fst kv) k) d.

Inductive json :=
| JStr (s : string)
| JBool (b : bool)
| JVal (v : pyval)
| JMegabytes (size : nat)        (* round(size / (1024*1024), 2) *)
| JObj (fields : list (string * json)).

Inductive body :=
| Json (fields : list (string * json))
| SendFile (content : string) (as_attachment : bool)
           (mimetype : option string) (download_name : string)
| ErrorPage.

Record Response := mkResponse {
  status : Z;
  payload : body
}.

(** [jsonify(d), code] *)
Definition jsonify (code : Z) (d : list (string * json)) : Response :=
  mkResponse code (Json d).

(** ** Operating system and library calls

    The file system is a map from absolute paths to nodes.  A path is a key:
    the model does not resolve [..] or symbolic links and does not ask for
    the parent of a path to exist.  The program writes below [/tmp], which
    [tempfile.gettempdir()] vouches for, and below its own working directory;
    only a bundle identifier with a slash in it could name another parent,
    and the properties of publication exclude it. *)

(** [os.path.basename(p)]: what follows the last slash. *)
Fixpoint after_last_slash (s : string) : option string :=
  match s with
  | EmptyString => None
  | String c s' =>
      match after_last_slash s' with
      | Some t => Some t
      | None => if Ascii.eqb c "/" then Some s' else None
      end
  end.

Definition basename (p : string) : string := default p (after_last_slash p).

(** What werkzeug's [make_conditional], which [send_file] applies, makes of
    the conditional headers of the request ([If-None-Match],
    [If-Modified-Since], [If-Range], [Range]) and of the file: they do not
    apply, the validators match, a range of the file can be served, or the
    range asked for cannot. *)
Inductive conditional :=
| WholeFile
| NotModified
| PartialContent (first count : nat)
| RangeNotSatisfiable.

Section OS.
Context (E : Env).

(** [app.logger.debug(msg)], [.warning(msg)], [.error(msg)] *)
Definition logger (lv : level) (msg : string) : M unit :=
  λ w, (Ok tt, mkWorld (fs w) (log w ++ [(lv, msg)]) (ticks w)).

(** [int(time.time())] *)
Definition time_now : M Z :=
  λ w, (Ok (clock E (ticks w)), mkWorld (fs w) (log w) (S (ticks w))).

(** [os.path.exists(p)] *)
Definition path_exists (p : string) : M bool :=
  λ w, (Ok (bool_decide (is_Some (fs w !! p))), w).

(** Reading and replacing the file system of the world. *)
Definition set_fs (f : gmap string node) : M unit :=
  λ w, (Ok tt, mkWorld f (log w) (ticks w)).

Definition get_fs : M (gmap string node) := λ w, (Ok (fs w), w).

(** The [OSError]s of a missing path, of a file used as a directory and of a
    directory used as a file. *)
Definition errno2 (p : string) : exn :=
  PyException "FileNotFoundError"
    ("[Errno 2] No such file or directory: '" +:+ p +:+ "'").
Definition errno20 (p : string) : exn :=
  PyException "NotADirectoryError" ("[Errno 20] Not a directory: '" +:+ p +:+ "'").
Definition errno21 (p : string) : exn :=
  PyException "IsADirectoryError" ("[Errno 21] Is a directory: '" +:+ p +:+ "'").

(** [open(p, 'w')], the write of [content] and the close: the file at [p] is
    created or replaced.  [open] raises on a directory; a write that raises
    after [open] leaves the file truncated, with what was written. *)
Definition write_file (p content : string) : M unit :=
  f ← get_fs;
  match f !! p with
  | Some Dir => raise (errno21 p)
  | _ =>
      match write_fault E p with
      | Some e =>
          match write_partial E p with
          | Some k => set_fs (<[p := File (String.substring 0 k content)]> f)
          | None => ret tt
          end;;
          raise e
      | None => set_fs (<[p := File content]> f)
      end
  end.

(** Read the file at [p]. *)
Definition read_file (p : string) : M string :=
  f ← get_fs;
  match f !! p with
  | Some (File c) => ret c
  | Some Dir => raise (errno21 p)
  | None => raise (errno2 p)
  end.

(** [tempfile.gettempdir()], taken to be [/tmp]: a directory that exists and
    can be written to, or [tempfile] would have chosen another. *)
Definition gettempdir : string := "/tmp".

(** [p] is [d] or lies below it. *)
Definition under (d p : string) : bool :=
  String.eqb p d || Str.startswith p (d +:+ "/").

(** Nothing is at [d].  In a file system, where what lies below a path that
    does not exist does not exist either, this is [f !! d = None]; the map
    has no such law of its own, so the paths below [d] are looked at too. *)
Definition vacant (f : gmap string node) (d : string) : Prop :=
  map_Forall (λ p _, under d p = false) f.

(** The characters of [tempfile]'s random names: lower-case letters, digits
    and the underscore. *)
Definition name_char (c : ascii) : bool :=
  let n := nat_of_ascii c in
  (Nat.leb 97 n && Nat.leb n 122) || (Nat.leb 48 n && Nat.leb n 57)
  || Nat.eqb n 95.

Definition is_name (n : string) : bool :=
  forallb name_char (list_ascii_of_string n).

(** [tempfile.mkdtemp(prefix=prefix)]: [os.mkdir] of the first name of the
    random sequence that is not taken.  An entry of the sequence with
    another character is no name that [tempfile] draws, and is passed
    over. *)
Definition mkdtemp (prefix : string) : M string :=
  f ← get_fs;
  match List.find (λ n, is_name n
                        && bool_decide (vacant f (path_join gettempdir (prefix +:+ n))))
                  (tmp_names E) with
  | None =>
      raise (PyException "FileExistsError"
               "[Errno 17] No usable temporary directory name found")
  | Some n =>
      let d := path_join gettempdir (prefix +:+ n) in
      match write_fault E d with
      | Some e => raise e
      | None => set_fs (<[d := Dir]> f);; ret d
      end
  end.

(** [shutil.rmtree(d)]; a failing call is taken to leave the tree as it was. *)
Definition rmtree (d : string) : M unit :=
  match rmtree_fault E d with
  | Some e => raise e
  | None => f ← get_fs; set_fs (filter (λ kv, under d (fst kv) = false) f)
  end.

(** [FileStorage.save(dst)] *)
Definition save (f : FileStorage) (dst : string) : M unit :=
  write_file dst (stream f).

(** [shutil.copy2(src, dst)]: into [dst] under the name of [src] when [dst]
    is a directory. *)
Definition copy2 (src dst : string) : M unit :=
  f ← get_fs;
  let dst :=
    match f !! dst with
    | Some Dir => path_join dst (basename src)
    | _ => dst
    end in
  c ← read_file src; write_file dst c.

(** [os.path.getsize(p)] *)
Definition getsize (p : string) : M nat :=
  f ← get_fs;
  match f !! p with
  | Some (File c) => ret (String.length c)
  | Some Dir => ret 4096%nat     (* st_size of a directory; not asked for here *)
  | None => raise (errno2 p)
  end.

(** [subprocess.check_output(cmd, stderr=subprocess.STDOUT, text=True)];
    the child writes, if anything, the file named after [-o].  With
    [text=True] its output is decoded when the pipe has been read to its end,
    before the exit status is looked at: output that does not decode raises
    the [UnicodeDecodeError] whatever the status. *)
Definition check_output (cmd : list string) : M string :=
  if negb (zsign_installed E) then raise (errno2 (List.hd "" cmd))
  else
    f ← get_fs;
    let r := zsign E cmd f in
    match outfile r with
    | Some c => set_fs (<[List.nth 8 cmd "" := File c]> f)
    | None => ret tt
    end;;
    match decode E (output r) with
    | inl msg => raise (PyException "UnicodeDecodeError" msg)
    | inr text =>
        if returncode r =? 0 then ret text
        else raise (CalledProcessError cmd (returncode r) text)
    end.

(** [abort(code)] *)
Definition abort {A} (code : Z) : M A := raise (HTTPException code).

(** [send_file(path, as_attachment=.., mimetype=.., download_name=..)]: the
    file is opened and the response made conditional on the request. *)
Definition send_file (cond : conditional) (p : string) (as_attachment : bool)
    (mimetype : option string) (download_name : string) : M Response :=
  c ← read_file p;
  match cond with
  | WholeFile =>
      ret (mkResponse 200 (SendFile c as_attachment mimetype download_name))
  | NotModified =>
      ret (mkResponse 304 (SendFile "" as_attachment mimetype download_name))
  | PartialContent first count =>
      ret (mkResponse 206 (SendFile (String.substring first count c)
                             as_attachment mimetype download_name))
  | RangeNotSatisfiable => abort 416
  end.

End OS.

(** ** The application *)

Definition ZSIGN_PATH : string := "./zsign".

Definition nl : string := String (ascii_of_nat 10) EmptyString.
Definition quoted (s : string) : string :=
  String (ascii_of_nat 34) s +:+ String (ascii_of_nat 34) EmptyString.

(** [generate_manifest(bundle_id, app_name, ipa_url)]: the f-string, line by
    line. *)
Definition generate_manifest (bundle_id app_name ipa_url : string) : string :=
  Str.join nl [
    "<?xml version=" +:+ quoted "1.0" +:+ " encoding=" +:+ quoted "UTF-8" +:+ "?>";
    "<!DOCTYPE plist PUBLIC " +:+ quoted "-//Apple//DTD PLIST 1.0//EN" +:+ " "
      +:+ quoted "http://www.apple.com/DTDs/PropertyList-1.0.dtd" +:+ ">";
    "<plist version=" +:+ quoted "1.0" +:+ ">";
    "<dict>";
    "  <key>items</key>";
    "  <array>";
    "    <dict>";
    "      <key>assets</key>";
    "      <array>";
    "        <dict>";
    "          <key>kind</key>";
    "          <string>software-package</string>";
    "          <key>url</key>";
    "          <string>" +:+ ipa_url +:+ "</string>";
    "        </dict>";
    "      </array>";
    "      <key>metadata</key>";
    "      <dict>";
    "        <key>bundle-identifier</key>";
    "        <string>" +:+ bundle_id +:+ "</string>";
    "        <key>bundle-version</key>";
    "        <string>1.0</string>";
    "        <key>kind</key>";
    "        <string>software</string>";
    "        <key>title</key>";
    "        <string>" +:+ app_name +:+ "</string>";
    "      </dict>";
    "    </dict>";
    "  </array>";
    "</dict>";
    "</plist>"
  ].

(** The entry called [name] of a directory listing. *)
Definition tree_child (entries : list (string * tree)) (name : string)
    : option tree :=
  snd <$> List.find (λ kv, String.eqb (fst kv) name) entries.

(** [os.listdir(p)], [p] being the node [t] of the extracted tree. *)
Definition listdir (p : string) (t : option tree) : result (list string) :=
  match t with
  | Some (TDir entries) => Ok (List.map fst entries)
  | Some (TFile _) => Raise (errno20 p)
  | None => Raise (errno2 p)
  end.

(** [open(p, 'rb')] of the file [name] inside the node [t]; [p] is the full
    path. *)
Definition open_in (p : string) (t : option tree) (name : string)
    : result string :=
  match t with
  | Some (TDir entries) =>
      match tree_child entries name with
      | Some (TFile c) => Ok c
      | Some (TDir _) => Raise (errno21 p)
      | None => Raise (errno2 p)
      end
  | Some (TFile _) => Raise (errno20 p)
  | None => Raise (errno2 p)
  end.

Section App.
Context (E : Env).

(** The body of [extract_bundle_and_name] once the archive is read.  The
    temporary directory is private to the call and released when the
    with-block ends, so its content is kept as the tree that [extractall]
    produced instead of being written into the shared file system. *)
Definition extract_from (archive : string) : result (pyval * pyval) :=
  let tmpdir := scratch E in
  match unzip E archive with
  | inl e => Raise e
  | inr root =>
      let payload_path := path_join tmpdir "Payload" in
      let payload := tree_child root "Payload" in
      match listdir payload_path payload with
      | Raise e => Raise e
      | Ok names =>
          let apps := List.filter (λ d, Str.endswith d ".app") names in
          match apps with
          | [] => Raise (PyException "Exception" "No .app folder found in Payload")
          | app0 :: _ =>
              let app_path := path_join payload_path app0 in
              let info_plist_path := path_join app_path "Info.plist" in
              let app_node :=
                match payload with
                | Some (TDir entries) => tree_child entries app0
                | _ => None
                end in
              match open_in info_plist_path app_node "Info.plist" with
              | Raise e => Raise e
              | Ok f =>
                  match plist_load E f with
                  | inl e => Raise e
                  | inr (PlistOther ty) =>
                      Raise (PyException "AttributeError"
                               ("'" +:+ ty +:+ "' object has no attribute 'get'"))
                  | inr (PlistDict plist) =>
                      let bundle_id := dict_get plist "CFBundleIdentifier" in
                      let app_name :=
                        py_or (py_or (dict_get plist "CFBundleDisplayName")
                                     (dict_get plist "CFBundleName"))
                              (PyStr "UnknownApp") in
                      Ok (bundle_id, app_name)
                  end
              end
          end
      end
  end.

(** [extract_bundle_and_name(ipa_path)] *)
Definition extract_bundle_and_name (ipa_path : string) : M (pyval * pyval) :=
  archive ← read_file ipa_path;
  match extract_from archive with
  | Ok r => ret r
  | Raise e => raise e
  end.

(** [download_file(filename)], the view function of [/download/<filename>];
    [cond] is what the request's conditional headers come to. *)
Definition download_file (cond : conditional) (filename : string) : M Response :=
  try_except
    (let file_path := path_join "/tmp" filename in
     found ← path_exists file_path;
     (if negb found then
        logger ERROR ("File not found: " +:+ file_path);;
        abort 404
      else ret tt);;
     if Str.endswith filename ".plist" then
       logger DEBUG ("Serving manifest file: " +:+ file_path);;
       send_file cond file_path false (Some "text/xml") filename
     else if Str.endswith filename ".ipa" then
       logger DEBUG ("Serving IPA file: " +:+ file_path);;
       send_file cond file_path true None filename
     else
       logger ERROR ("Invalid file type requested: " +:+ filename);;
       abort 400)
    (λ e,
       logger ERROR ("Download error: " +:+ exn_str e);;
       abort 500).

(** [handle_file_too_large], registered for 413. *)
Definition handle_file_too_large (e : exn) : M Response :=
  logger ERROR "File upload too large";;
  ret (jsonify 413 [("error", JStr "File too large. Maximum allowed size is 1GB.")]).

(** [handle_internal_error], registered for 500. *)
Definition handle_internal_error (e : exn) : M Response :=
  logger ERROR ("Internal server error: " +:+ exn_str e);;
  ret (jsonify 500 [("error", JStr "Internal server error occurred. Please try again with a smaller file or contact support.")]).

(** What Flask makes of a view function: a returned response is sent; a
    raised [HTTPException] goes to the handler registered for its code or
    becomes the default page of that code; any other exception is an
    internal server error. *)
Definition flask (view : M Response) (w : World) : Response * World :=
  match view w with
  | (Ok r, w') => (r, w')
  | (Raise e, w') =>
      let handled :=
        match e with
        | HTTPException code =>
            if code =? 413 then handle_file_too_large e
            else if code =? 500 then handle_internal_error e
            else ret (mkResponse code ErrorPage)
        | _ => handle_internal_error (HTTPException 500)
        end in
      match handled w' with
      | (Ok r, w'') => (r, w'')
      | (Raise _, w'') => (mkResponse 500 ErrorPage, w'')
      end
  end.

(** The [<filename>] of the route is a path segment: one character at least,
    and no slash. *)
Definition routed (filename : string) : bool :=
  negb (String.eqb filename "") && negb (Str.contains "/" filename).

(** [GET /download/<filename>]: a path that the rule does not match is
    answered 404 by the routing, before any view function. *)
Definition get_download (cond : conditional) (filename : string) (w : World)
    : Response * World :=
  if routed filename then flask (download_file cond filename) w
  else (mkResponse 404 ErrorPage, w).

End App.

Section Sign.
Context (E : Env).

(** [bool(f)] of an uploaded file or [None]. *)
Definition file_truthy (f : option FileStorage) : bool :=
  match f with
  | Some f => negb (String.eqb (filename f) "")
  | None => false
  end.

(** [bool(s)] of a form value or [None]. *)
Definition str_truthy (s : option string) : bool :=
  match s with
  | Some s => negb (String.eqb s "")
  | None => false
  end.

(** [not f or not f.filename or f.filename == ''] *)
Definition not_selected (f : option FileStorage) : bool :=
  match f with
  | None => true
  | Some f' =>
      negb (file_truthy f) || String.eqb (filename f') "" || String.eqb (filename f') ""
  end.

(** The argument list [cmd] of the signing executable. *)
Definition zsign_cmd (p12_path password provision_path output_path ipa_path : string)
    : list string :=
  [ZSIGN_PATH; "-k"; p12_path; "-p"; password; "-m"; provision_path;
   "-o"; output_path; ipa_path].

(** The message of line 250:
    [f"Running zsign command: {' '.join(cmd[:-1])} [password hidden] {cmd[-1]}"] *)
Definition zsign_log_message (cmd : list string) : string :=
  "Running zsign command: " +:+ Str.join " " (List.removelast cmd)
  +:+ " [password hidden] " +:+ List.last cmd "".

(** Lines 277 to 280: the base URL of the returned links. *)
Definition https_base (url_root : string) : string :=
  if Str.startswith url_root "http://"
  then Str.replace url_root "http://" "https://"
  else url_root.

(** The [finally] clause: remove the working directory, if it is there. *)
Definition cleanup (tmpdir_path : string) : M unit :=
  found ← path_exists tmpdir_path;
  if negb (String.eqb tmpdir_path "") && found then
    try_except
      (rmtree E tmpdir_path;;
       logger DEBUG ("Cleaned up temporary directory: " +:+ tmpdir_path))
      (λ cleanup_error,
         logger WARNING
           ("Failed to cleanup temporary directory: " +:+ exn_str cleanup_error))
  else ret tt.

(** The outer [except Exception as e] clause; [tmpdir_path] is [None] until
    [mkdtemp] has returned. *)
Definition unexpected (tmpdir_path : option string) (e : exn) : M Response :=
  logger ERROR ("Unexpected error in sign_ipa: " +:+ exn_str e);;
  match tmpdir_path with
  | Some d =>
      found ← path_exists d;
      if negb (String.eqb d "") && found then
        try_except
          (rmtree E d;;
           logger DEBUG ("Cleaned up temporary directory after error: " +:+ d))
          (λ cleanup_error,
             logger WARNING
               ("Failed to cleanup temporary directory after error: "
                +:+ exn_str cleanup_error))
      else ret tt
  | None => ret tt
  end;;
  ret (jsonify 500 [("error", JStr "Unexpected error occurred");
                    ("details", JStr (exn_str e))]).

(** [jsonify] of a dictionary that holds the plist values [vs], given in the
    order in which the serialiser meets them (Flask sorts the keys of every
    dictionary): the first value it cannot serialise makes it raise. *)
Fixpoint json_check (vs : list pyval) : option exn :=
  match vs with
  | [] => None
  | v :: vs' =>
      match json_error v with
      | Some ty =>
          Some (PyException "TypeError"
                  ("Object of type " +:+ ty +:+ " is not JSON serializable"))
      | None => json_check vs'
      end
  end.

Definition jsonify_values (vs : list pyval) (r : Response) : M Response :=
  match json_check vs with
  | Some e => raise e
  | None => ret r
  end.

(** Lines 259 to 311: publish the signed archive and the manifest and answer. *)
Definition publish (req : Request) (bundle_id app_name : pyval)
    (output_path : string) : M Response :=
  t1 ← time_now E;
  let signed_filename := "signed_" +:+ py_str bundle_id +:+ "_" +:+ pretty t1 +:+ ".ipa" in
  let permanent_path := path_join "/tmp" signed_filename in
  copy2 E output_path permanent_path;;
  logger DEBUG ("Signed IPA saved to: " +:+ permanent_path);;
  size ← getsize permanent_path;
  logger DEBUG ("Signed IPA size: " +:+ mb_repr E size +:+ " MB");;
  t2 ← time_now E;
  let manifest_filename := "manifest_" +:+ py_str bundle_id +:+ "_" +:+ pretty t2 +:+ ".plist" in
  let permanent_manifest_path := path_join "/tmp" manifest_filename in
  let base_url := https_base (url_root req) in
  let direct_ipa_url := base_url +:+ "download/" +:+ signed_filename in
  let local_manifest_url := base_url +:+ "download/" +:+ manifest_filename in
  logger DEBUG ("Using local URLs for OTA - Base URL: " +:+ base_url);;
  let manifest_content :=
    generate_manifest (py_str bundle_id) (py_str app_name) direct_ipa_url in
  write_file E permanent_manifest_path manifest_content;;
  let itms_services_url :=
    "itms-services://?action=download-manifest&url=" +:+ local_manifest_url in
  logger DEBUG ("Local OTA URLs - IPA: " +:+ direct_ipa_url +:+ ", Manifest: "
                +:+ local_manifest_url);;
  logger DEBUG ("ITMS services URL: " +:+ itms_services_url);;
  jsonify_values [bundle_id; app_name]
    (jsonify 200
       [("success", JBool true);
        ("message", JStr "App signed successfully! Use the OTA link to install on your iOS device.");
        ("itms_services_url", JStr itms_services_url);
        ("manifest_url", JStr local_manifest_url);
        ("ipa_url", JStr direct_ipa_url);
        ("app_info", JObj [("name", JVal app_name);
                           ("bundle_id", JVal bundle_id);
                           ("size_mb", JMegabytes size)]);
        ("note", JStr "OTA installation works locally. For production use, deploy this app to get valid HTTPS certificates.")]).

(** Lines 223 to 231: save the uploads.  A [return] inside a nested [try] is
    an [inr] here and below. *)
Definition stage_uploads (ipa p12 provision : FileStorage)
    (ipa_path p12_path provision_path : string) : M (unit + Response) :=
  logger DEBUG "Saving uploaded files...";;
  try_except
    (save E ipa ipa_path;;
     save E p12 p12_path;;
     save E provision provision_path;;
     logger DEBUG "Files saved successfully";;
     mret (inl tt))
    (λ save_error,
       logger ERROR ("Failed to save uploaded files: " +:+ exn_str save_error);;
       mret (inr (jsonify 500 [("error", JStr "Failed to save uploaded files");
                               ("details", JStr (exn_str save_error))]))).

(** Lines 234 to 238: read the metadata of the staged archive. *)
Definition extract_stage (ipa_path : string) : M (pyval * pyval + Response) :=
  try_except
    (info ← extract_bundle_and_name E ipa_path;
     logger DEBUG ("Extracted app info: " +:+ py_str (snd info) +:+ " ("
                   +:+ py_str (fst info) +:+ ")");;
     mret (inl info))
    (λ e,
       mret (inr (jsonify 500 [("error", JStr "Failed to extract bundle id and app name");
                               ("details", JStr (exn_str e))]))).

(** Lines 250 to 257: log the invocation and run the signing executable.
    With [text=True] the captured output is a [str], so [error_msg] is
    [e.output]. *)
Definition sign_stage (cmd : list string) : M (unit + Response) :=
  logger DEBUG (zsign_log_message cmd);;
  try_except
    (result ← check_output E cmd;
     logger DEBUG ("zsign output: " +:+ result);;
     mret (inl tt))
    (λ e,
       match e with
       | CalledProcessError _ rc out =>
           logger ERROR ("zsign failed with exit code " +:+ pretty rc +:+ ": " +:+ out);;
           let error_msg := out in
           mret (inr (jsonify 500 [("error", JStr "Signing failed");
                                   ("details", JStr error_msg)]))
       | _ => raise e
       end).

(** Lines 216 to 311, the body of the inner [try]: stage, extract, sign,
    publish. *)
Definition staged (req : Request) (ipa p12 provision : FileStorage)
    (password tmpdir_path : string) : M Response :=
  let ipa_path := path_join tmpdir_path "input.ipa" in
  let p12_path := path_join tmpdir_path "cert.p12" in
  let provision_path := path_join tmpdir_path "profile.mobileprovision" in
  let output_path := path_join tmpdir_path "signed.ipa" in
  saved ← stage_uploads ipa p12 provision ipa_path p12_path provision_path;
  match saved with
  | inr response => mret response
  | inl _ =>
      extracted ← extract_stage ipa_path;
      match extracted with
      | inr response => mret response
      | inl (bundle_id, app_name) =>
          let cmd := zsign_cmd p12_path password provision_path output_path
                               ipa_path in
          signed ← sign_stage cmd;
          match signed with
          | inr response => mret response
          | inl _ => publish req bundle_id app_name output_path
          end
      end
  end.

(** Lines 182 to 209: the checks made before anything is created.  [inl] is
    an early [return], [inr] the validated fields. *)
Definition validate (req : Request)
    : result (Response + FileStorage * FileStorage * FileStorage * string) :=
  let ipa := multidict_get (files req) "ipa" in
  let p12 := multidict_get (files req) "p12" in
  let provision := multidict_get (files req) "provision" in
  let password := multidict_get (form req) "password" in
  match files req with
  | [] => Ok (inl (jsonify 400 [("error", JStr "No files uploaded")]))
  | _ =>
  if negb (file_truthy ipa && file_truthy p12 && file_truthy provision
           && str_truthy password) then
    Ok (inl (jsonify 400 [("error", JStr "Missing one or more required fields")]))
  else if not_selected ipa then
    Ok (inl (jsonify 400 [("error", JStr "No IPA file selected")]))
  else if not_selected p12 then
    Ok (inl (jsonify 400 [("error", JStr "No P12 certificate selected")]))
  else if not_selected provision then
    Ok (inl (jsonify 400 [("error", JStr "No provisioning profile selected")]))
  else
    match ipa, p12, provision, password with
    | Some ipa, Some p12, Some provision, Some password =>
        if negb (Str.endswith (filename ipa) ".ipa") then
          Ok (inl (jsonify 400 [("error", JStr "IPA file must have .ipa extension")]))
        else if negb (Str.endswith (filename p12) ".p12") then
          Ok (inl (jsonify 400 [("error", JStr "Certificate must have .p12 extension")]))
        else if negb (Str.endswith (filename provision) ".mobileprovision") then
          Ok (inl (jsonify 400 [("error",
                 JStr "Provisioning profile must have .mobileprovision extension")]))
        else Ok (inr (ipa, p12, provision, password))
    | _, _, _, _ =>
        Raise (PyException "AttributeError"
                 "'NoneType' object has no attribute 'filename'")
    end
  end.

(** [sign_ipa()], the view function of [POST /sign].  The outer [try] is
    split where [tmpdir_path] is assigned: its [except] clause sees [None]
    for an exception raised before the assignment and the directory after. *)
Definition sign_ipa (req : Request) : M Response :=
  logger DEBUG "Received sign request";;
  match validate req with
  | Raise e => unexpected None e
  | Ok (inl response) => ret response
  | Ok (inr (ipa, p12, provision, password)) =>
      created ← try_except
        (d ← mkdtemp E "ios_signer_"; ret (inr d))
        (λ e, response ← unexpected None e; ret (inl response));
      match created with
      | inl response => ret response
      | inr tmpdir_path =>
          try_except
            (logger DEBUG ("Created temporary directory: " +:+ tmpdir_path);;
             try_finally
               (staged req ipa p12 provision password tmpdir_path)
               (cleanup tmpdir_path))
            (unexpected (Some tmpdir_path))
      end
  end.

(** [POST /sign] *)
Definition post_sign (req : Request) (w : World) : Response * World :=
  flask (sign_ipa req) w.

End Sign.

Module Demo.
Definition info : gmap string pyval :=
  {[ "CFBundleIdentifier" := PyStr "com.example.demo";
     "CFBundleDisplayName" := PyStr "Demo" ]}.

Definition info_other : gmap string pyval :=
  {[ "CFBundleIdentifier" := PyStr "com.example.other";
     "CFBundleName" := PyStr "Other" ]}.

(** Three archives: one application, two applications, no Payload. *)
Definition unzip (a : string) : exn + list (string * tree) :=
  if String.eqb a "PK-demo" then
    inr [("Payload", TDir [("Demo.app", TDir [("Info.plist", TFile "bplist-demo")])])]
  else if String.eqb a "PK-two" then
    inr [("Payload",
          TDir [("README.txt", TFile "read me");
                ("Demo.app", TDir [("Info.plist", TFile "bplist-demo")]);
                ("Other.app", TDir [("Info.plist", TFile "bplist-other")])])]
  else if String.eqb a "PK-empty" then inr []
  else inl (PyException "BadZipFile" "File is not a zip file").

Definition plist_load (c : string) : exn + plist_root :=
  if String.eqb c "bplist-demo" then inr (PlistDict info)
  else if String.eqb c "bplist-other" then inr (PlistDict info_other)
  else inl (PyException "InvalidFileException" "Invalid file").

(** The signing executable accepts one password. *)
Definition zsign (cmd : list string) (f : gmap string node) : proc_result :=
  if String.eqb (List.nth 4 cmd "") "hunter2"
  then mkProc 0 ">>> Signed OK!" (Some "PK-signed")
  else mkProc 255 ">>> Wrong password" None.

(** A decoder that stops at the byte 255, which no UTF-8 text contains. *)
Definition decode (bytes : string) : string + string :=
  match String.index 0 (String (ascii_of_nat 255) EmptyString) bytes with
  | Some i =>
      inl ("'utf-8' codec can't decode byte 0xff in position " +:+ pretty i
           +:+ ": invalid start byte")
  | None => inr bytes
  end.

Definition E : Env :=
  mkEnv (λ n, 1700000000 + Z.of_nat n) ["abc12345"; "zzz"] "/tmp/tmpq1w2e3r4"
        (λ _, None) (λ _, None) unzip plist_load true zsign
        (λ n, pretty n) (λ _, None) decode.

(** The same collaborators, with a [shutil.rmtree] that always fails. *)
Definition E_stuck : Env :=
  mkEnv (clock E) (tmp_names E) (scratch E) (write_fault E)
        (λ _, Some (PyException "PermissionError" "[Errno 13] Permission denied"))
        (Demo.unzip) (Demo.plist_load) (zsign_installed E) (Demo.zsign) (mb_repr E)
        (write_partial E) (Demo.decode).

Definition upload (archive password : string) : Request :=
  mkRequest [("ipa", mkFile "app.ipa" archive); ("p12", mkFile "cert.p12" "p12-bytes");
             ("provision", mkFile "dev.mobileprovision" "profile-bytes")]
            [("password", password)] "http://signer.example/".

Definition req : Request := upload "PK-demo" "hunter2".
Definition req_not_zip : Request := upload "garbage" "hunter2".

Definition w0 : World := mkWorld {[ "/tmp" := Dir ]} [] 0.

(** The certificate uploaded as [cert.pfx]. *)
Definition req_pfx : Request :=
  mkRequest [("ipa", mkFile "app.ipa" "PK-demo"); ("p12", mkFile "cert.pfx" "p12-bytes");
             ("provision", mkFile "dev.mobileprovision" "profile-bytes")]
            [("password", "hunter2")] "http://signer.example/".

(** The password field sent empty, and not sent. *)
Definition req_empty_password : Request := upload "PK-demo" "".
Definition req_no_password : Request :=
  mkRequest (files req_empty_password) [] (url_root req_empty_password).
End Demo.

(** ** Reading a manifest back

    What an XML property list says, in the subset the manifest uses: the XML
    declaration and the document type of a property list, both optional; the
    [plist] element around exactly one value; the elements [dict], [array],
    [key] and [string]; white space between elements; in character data the
    five predefined entities, line ends normalised to a line feed, and
    nothing that XML does not allow there (a control character, the sequence
    that closes a CDATA section).  A string is read as the characters of a
    Python [str], one code point each.  This is the reference against which
    the text of [generate_manifest] is read: it accepts no text that is not a
    property list, and it refuses some that are (comments, character
    references, other elements). *)

Module PlistReader.

Inductive plist :=
| PString (s : string)
| PArray (items : list plist)
| PDict (entries : list (string * plist)).







(** A character that may stand in character data as it is: a tab, a line
    feed, or any character from the space on.  The other characters below the
    space are not allowed in XML 1.0, but for the carriage return, which does
    not stand as it is. *)
Definition text_char (c : ascii) : bool :=
  let n := nat_of_ascii c in
  Nat.eqb n 9 || Nat.eqb n 10 || Nat.leb 32 n.

Definition LF : ascii := ascii_of_nat 10.
Definition CR : ascii := ascii_of_nat 13.

(** Character data as the parser reports it: entities resolved, a carriage
    return (with the line feed that follows it, if one does) turned into a
    line feed.  [None] on a stray ampersand, on the sequence []]>] and on a
    character that is not allowed. *)
Fixpoint decode_go (skip : nat) (s : string) : option string :=
  match s with
  | EmptyString => Some EmptyString
  | String c s' =>
      match skip with
      | S k => decode_go k s'
      | O =>
          if Ascii.eqb c "&" then
            if String.prefix "amp;" s' then String "&" <$> decode_go 4 s'
            else if String.prefix "lt;" s' then String "<" <$> decode_go 3 s'
            else if String.prefix "gt;" s' then String ">" <$> decode_go 3 s'
            else if String.prefix "apos;" s' then String "'" <$> decode_go 5 s'
            else if String.prefix "quot;" s' then
              String (ascii_of_nat 34) <$> decode_go 5 s'
            else None
          else if String.prefix "]]>" (String c s') then None
          else if Ascii.eqb c CR then
            if String.prefix (String LF EmptyString) s' then decode_go O s'
            else String LF <$> decode_go O s'
          else if text_char c then String c <$> decode_go O s'
          else None
      end
  end.

Definition decode (s : string) : option string := decode_go O s.












End PlistReader.


(** ** The upload to transfer.sh *)

(** The network side of [upload_to_transfersh]: [requests.put] answers with a
    status code and a body, or raises; the flag tells whether the exception is
    a [requests.exceptions.RequestException].  [str.strip] is taken from the
    library as it is. *)
Record Net := mkNet {
  http_put : string → string → Z → bool * exn + Z * string;
  str_strip : string → string
}.

(** [upload_to_transfersh(file_path, filename=None)].  Only [requests.put]
    raises a [RequestException], so that [except] clause is applied where the
    call is made; every other exception reaches [except Exception]. *)
Definition upload_to_transfersh (N : Net) (file_path : string)
    (filename : option string) : M (option string * option string) :=
  try_except
    (file_size ← getsize file_path;
     logger DEBUG ("Uploading file " +:+ file_path +:+ " (" +:+ pretty file_size
                   +:+ " bytes) to transfer.sh");;
     let filename :=
       match filename with
       | Some n => if String.eqb n "" then basename file_path else n
       | None => basename file_path
       end in
     let timeout := if 100 * 1024 * 1024 <? Z.of_nat file_size then 300 else 120 in
     f ← read_file file_path;
     let upload_url := "https://transfer.sh/" +:+ filename in
     match http_put N upload_url f timeout with
     | inr (status_code, text) =>
         if negb (status_code =? 200) then
           logger ERROR ("Transfer.sh upload failed with status "
                         +:+ pretty status_code +:+ ": " +:+ text);;
           mret (None, Some ("Upload service returned error " +:+ pretty status_code))
         else
           let download_url := str_strip N text in
           logger DEBUG ("Transfer.sh upload successful: " +:+ download_url);;
           mret (Some download_url, None)
     | inl (true, e) =>
         logger ERROR ("Network error during upload: " +:+ exn_str e);;
         mret (None, Some ("Network error: " +:+ exn_str e))
     | inl (false, e) => raise e
     end)
    (λ e,
       logger ERROR ("Unexpected error during upload: " +:+ exn_str e);;
       mret (None, Some ("Upload error: " +:+ exn_str e))).

(** * The vocabulary of the specification *)

(** One of the four fields is absent from the request. *)
Definition field_missing (req : Request) : Prop :=
  multidict_get (files req) "ipa" = None
  ∨ multidict_get (files req) "p12" = None
  ∨ multidict_get (files req) "provision" = None
  ∨ multidict_get (form req) "password" = None.

(** An uploaded file does not carry the suffix of its field. *)
Definition suffix_wrong (req : Request) : Prop :=
  (∃ f, multidict_get (files req) "ipa" = Some f
        ∧ Str.endswith (filename f) ".ipa" = false)
  ∨ (∃ f, multidict_get (files req) "p12" = Some f
          ∧ Str.endswith (filename f) ".p12" = false)
  ∨ (∃ f, multidict_get (files req) "provision" = Some f
          ∧ Str.endswith (filename f) ".mobileprovision" = false).

(** A 400 answer whose body is a JSON object with an error message. *)
Definition bad_request (r : Response) : Prop :=
  ∃ msg, r = jsonify 400 [("error", JStr msg)].

(** The file system once the three uploads are saved in [d]. *)
Definition staged_fs (d : string) (ipa p12 provision : FileStorage)
    (f : gmap string node) : gmap string node :=
  <[path_join d "profile.mobileprovision" := File (stream provision)]>
    (<[path_join d "cert.p12" := File (stream p12)]>
       (<[path_join d "input.ipa" := File (stream ipa)]> f)).

(** The command line of the request. *)
Definition signing_cmd (d password : string) : list string :=
  zsign_cmd (path_join d "cert.p12") password
            (path_join d "profile.mobileprovision")
            (path_join d "signed.ipa") (path_join d "input.ipa").

(** The file system the child process leaves behind. *)
Definition after_zsign (r : proc_result) (out : string)
    (f : gmap string node) : gmap string node :=
  match outfile r with
  | Some c => <[out := File c]> f
  | None => f
  end.

(** The request is valid, its working directory is [d] and its three uploads
    are saved there. *)
Definition uploads_staged (E : Env) (req : Request) (w : World) (d : string)
    (ipa p12 provision : FileStorage) (password : string) : Prop :=
  validate req = Ok (inr (ipa, p12, provision, password))
  ∧ fst (mkdtemp E "ios_signer_" w) = Ok d
  ∧ write_fault E (path_join d "input.ipa") = None
  ∧ write_fault E (path_join d "cert.p12") = None
  ∧ write_fault E (path_join d "profile.mobileprovision") = None.

(** Every path outside the working directories [/tmp/ios_signer_*] holds what
    it held: nothing was published, changed or removed there. *)
Definition untouched_outside_workdirs (f f' : gmap string node) : Prop :=
  ∀ p, Str.startswith p "/tmp/ios_signer_" = false → f' !! p = f !! p.

(** The first entry of the Payload listing whose name ends in [.app]. *)
Definition first_app (entries : list (string * tree)) : option (string * tree) :=
  List.find (λ kv, Str.endswith (fst kv) ".app") entries.

(** The dictionary of [Info.plist] inside the node [t], when the file is
    there and [plistlib] reads a dictionary from it. *)
Definition metadata_of (E : Env) (t : tree) : option (gmap string pyval) :=
  match t with
  | TDir entries =>
      match tree_child entries "Info.plist" with
      | Some (TFile c) =>
          match plist_load E c with
          | inr (PlistDict d) => Some d
          | _ => None
          end
      | _ => None
      end
  | TFile _ => None
  end.

(** What the extractor returns for the dictionary [d]. *)
Definition metadata_fields (d : gmap string pyval) : pyval * pyval :=
  (dict_get d "CFBundleIdentifier",
   py_or (py_or (dict_get d "CFBundleDisplayName") (dict_get d "CFBundleName"))
         (PyStr "UnknownApp")).

(** The entry is a directory whose name ends in [.app]. *)
Definition is_app_dir (kv : string * tree) : bool :=
  Str.endswith (fst kv) ".app"
  && match snd kv with TDir _ => true | TFile _ => false end.

(** The four causes of an extraction error. *)
Inductive extraction_failure (E : Env) (archive : string) : Prop :=
| cannot_be_opened e :
    unzip E archive = inl e → extraction_failure E archive
| payload_absent root :
    unzip E archive = inr root →
    (∀ entries, tree_child root "Payload" ≠ Some (TDir entries)) →
    extraction_failure E archive
| no_app_directory root entries :
    unzip E archive = inr root →
    tree_child root "Payload" = Some (TDir entries) →
    (∀ kv, In kv entries → is_app_dir kv = false) →
    extraction_failure E archive
| metadata_missing_or_malformed root entries name t :
    unzip E archive = inr root →
    tree_child root "Payload" = Some (TDir entries) →
    first_app entries = Some (name, t) →
    metadata_of E t = None →
    extraction_failure E archive.

(** The archive staged at [ipa_path] makes the extractor fail: there is no
    file to open at that path, or the file has one of the four causes. *)
Definition extraction_fails_on (E : Env) (f : gmap string node)
    (ipa_path : string) : Prop :=
  match f !! ipa_path with
  | Some (File archive) => extraction_failure E archive
  | _ => True
  end.

(** The collaborators of [E] with another behaviour of [shutil.rmtree]. *)
Definition with_rmtree_fault (E : Env) (g : string → option exn) : Env :=
  mkEnv (clock E) (tmp_names E) (scratch E) (write_fault E) g
        (unzip E) (plist_load E) (zsign_installed E) (zsign E) (mb_repr E)
        (write_partial E) (decode E).

(** Nothing that exists disappears. *)
Definition grows (w w' : World) : Prop :=
  ∀ p, is_Some (fs w !! p) → is_Some (fs w' !! p).

(** The log is only appended to. *)
Definition log_extends (w w' : World) : Prop :=
  ∃ l, log w' = log w ++ l.

(** What a computation returns, when it returns. *)
Definition returns {A} (m : M A) (P : A → Prop) : Prop :=
  ∀ w a w', m w = (Ok a, w') → P a.

(** A field of a JSON response. *)
Definition json_field (k : string) (r : Response) : option json :=
  match payload r with
  | Json fields => multidict_get fields k
  | _ => None
  end.

(** The three links of the response, over the base URL of the request. *)
Definition install_links (req : Request) (r : Response) : Prop :=
  ∃ signed_filename manifest_filename,
    let base_url := https_base (url_root req) in
    json_field "ipa_url" r
    = Some (JStr (base_url +:+ "download/" +:+ signed_filename))
    ∧ json_field "manifest_url" r
      = Some (JStr (base_url +:+ "download/" +:+ manifest_filename))
    ∧ json_field "itms_services_url" r
      = Some (JStr ("itms-services://?action=download-manifest&url="
                    +:+ base_url +:+ "download/" +:+ manifest_filename)).

(** A stage goes on, or returns a 500 answer. *)
Definition early_or_staged (r : unit + Response) : Prop :=
  match r with inl _ => True | inr r => status r = 500 end.

(** [respects R m]: whatever the outcome, [m] takes the world to one related
    to it by [R]. *)
Definition respects (R : relation World) {A} (m : M A) : Prop :=
  ∀ w, R w (snd (m w)).

(** Lines 260 and 272: the names of the two artifacts. *)
Definition signed_name (bundle_id : pyval) (t : Z) : string :=
  "signed_" +:+ py_str bundle_id +:+ "_" +:+ pretty t +:+ ".ipa".

Definition manifest_name (bundle_id : pyval) (t : Z) : string :=
  "manifest_" +:+ py_str bundle_id +:+ "_" +:+ pretty t +:+ ".plist".

(** The first of the three saves that fails, in the order of the code. *)
Definition first_save_fault (E : Env) (d : string) : option exn :=
  match write_fault E (path_join d "input.ipa") with
  | Some e => Some e
  | None =>
      match write_fault E (path_join d "cert.p12") with
      | Some e => Some e
      | None => write_fault E (path_join d "profile.mobileprovision")
      end
  end.

(** The bytes are text in the encoding of the locale. *)
Definition decodes (E : Env) (bytes : string) : bool :=
  match decode E bytes with
  | inr _ => true
  | inl _ => false
  end.

(** The request reaches the signing stage, and the signing executable exits
    with status 0, having printed text and left [signed] at its output
    path. *)
Definition signed_ok (E : Env) (req : Request) (w : World) (d : string)
    (ipa p12 provision : FileStorage) (password : string)
    (bundle_id app_name : pyval) (signed : string) : Prop :=
  uploads_staged E req w d ipa p12 provision password
  ∧ extract_from E (stream ipa) = Ok (bundle_id, app_name)
  ∧ zsign_installed E = true
  ∧ returncode (zsign E (signing_cmd d password)
                  (staged_fs d ipa p12 provision (<[d := Dir]> (fs w)))) = 0
  ∧ decodes E (output (zsign E (signing_cmd d password)
                         (staged_fs d ipa p12 provision (<[d := Dir]> (fs w)))))
    = true
  ∧ outfile (zsign E (signing_cmd d password)
               (staged_fs d ipa p12 provision (<[d := Dir]> (fs w))))
    = Some signed.

(** No directory is in the way of a file of the working directory. *)
Definition no_dir (f : gmap string node) (d : string) : Prop :=
  ∀ x, x ≠ "" → Str.startswith x "/" = false → f !! path_join d x ≠ Some Dir.

(** ** Outcomes of a request *)

(** The answer of the handler registered for 500. *)
Definition internal_error : Response :=
  jsonify 500 [("error", JStr "Internal server error occurred. Please try again with a smaller file or contact support.")].

(** The answer that serves the file content [c]: all of it, none of it when
    the client has it already, the range asked for; a range that cannot be
    served is an exception inside the [try] of [download_file], like every
    other. *)
Definition file_response (cond : conditional) (c : string)
    (as_attachment : bool) (mimetype : option string) (download_name : string)
    : Response :=
  match cond with
  | WholeFile =>
      mkResponse 200 (SendFile c as_attachment mimetype download_name)
  | NotModified =>
      mkResponse 304 (SendFile "" as_attachment mimetype download_name)
  | PartialContent first count =>
      mkResponse 206 (SendFile (String.substring first count c)
                        as_attachment mimetype download_name)
  | RangeNotSatisfiable => internal_error
  end.

(** The answer of [GET /download/<filename>] in the file system [f]. *)
Definition download_answer (cond : conditional) (filename : string)
    (f : gmap string node) : Response :=
  if negb (routed filename) then mkResponse 404 ErrorPage
  else
    match f !! path_join "/tmp" filename with
    | Some (File c) =>
        if Str.endswith filename ".plist"
        then file_response cond c false (Some "text/xml") filename
        else if Str.endswith filename ".ipa"
        then file_response cond c true None filename
        else internal_error
    | _ => internal_error
    end.

(** The answer of a successful request. *)
Definition success_response (req : Request) (bundle_id app_name : pyval)
    (t1 t2 : Z) (size : nat) : Response :=
  let base_url := https_base (url_root req) in
  let direct_ipa_url := base_url +:+ "download/" +:+ signed_name bundle_id t1 in
  let local_manifest_url :=
    base_url +:+ "download/" +:+ manifest_name bundle_id t2 in
  jsonify 200
    [("success", JBool true);
     ("message", JStr "App signed successfully! Use the OTA link to install on your iOS device.");
     ("itms_services_url",
      JStr ("itms-services://?action=download-manifest&url=" +:+ local_manifest_url));
     ("manifest_url", JStr local_manifest_url);
     ("ipa_url", JStr direct_ipa_url);
     ("app_info", JObj [("name", JVal app_name);
                        ("bundle_id", JVal bundle_id);
                        ("size_mb", JMegabytes size)]);
     ("note", JStr "OTA installation works locally. For production use, deploy this app to get valid HTTPS certificates.")].

(** The manifest written by a successful request. *)
Definition published_manifest (req : Request) (bundle_id app_name : pyval)
    (t1 : Z) : string :=
  generate_manifest (py_str bundle_id) (py_str app_name)
    (https_base (url_root req) +:+ "download/" +:+ signed_name bundle_id t1).

(** What [open(p, 'w')] and the write of [content] come to when [before] is at
    [p]: the exception, if any, and what is at [p] afterwards. *)
Definition write_outcome (E : Env) (p content : string) (before : option node)
    : option exn * option node :=
  match before with
  | Some Dir => (Some (errno21 p), before)
  | _ =>
      match write_fault E p with
      | None => (None, Some (File content))
      | Some e =>
          (Some e,
           match write_partial E p with
           | Some k => Some (File (String.substring 0 k content))
           | None => before
           end)
      end
  end.

(** The outcome of the publication, once the signed archive is copied: the
    manifest is written, then the answer is serialised. *)
Definition publication (E : Env) (req : Request) (bundle_id app_name : pyval)
    (t1 t2 : Z) (size : nat) (before : option node) : result Response :=
  match fst (write_outcome E (path_join "/tmp" (manifest_name bundle_id t2))
               (published_manifest req bundle_id app_name t1) before) with
  | Some e => Raise e
  | None =>
      match json_check [bundle_id; app_name] with
      | Some e => Raise e
      | None => Ok (success_response req bundle_id app_name t1 t2 size)
      end
  end.

(** The answer of [POST /sign] for the outcome [rs] of its staged body. *)
Definition answer_of (rs : result Response) : Response :=
  match rs with
  | Ok r => r
  | Raise e => jsonify 500 [("error", JStr "Unexpected error occurred");
                            ("details", JStr (exn_str e))]
  end.

(** The file system when the signing executable has written its output. *)
Definition signed_fs (d : string) (ipa p12 provision : FileStorage)
    (signed : string) (f : gmap string node) : gmap string node :=
  <[path_join d "signed.ipa" := File signed]> (staged_fs d ipa p12 provision f).

(** The file system when a write of [content] at [p] has failed: untouched
    when the file could not be opened, and otherwise with the part that was
    written in place of what was there. *)
Definition failed_write (E : Env) (p content : string)
    (f : gmap string node) : gmap string node :=
  match write_partial E p with
  | Some k => <[p := File (String.substring 0 k content)]> f
  | None => f
  end.

(** The uploads saved up to the first save that fails. *)
Definition partly_staged_fs (E : Env) (d : string)
    (ipa p12 provision : FileStorage) (f : gmap string node)
    : gmap string node :=
  match write_fault E (path_join d "input.ipa") with
  | Some _ => failed_write E (path_join d "input.ipa") (stream ipa) f
  | None =>
      let f1 := <[path_join d "input.ipa" := File (stream ipa)]> f in
      match write_fault E (path_join d "cert.p12") with
      | Some _ => failed_write E (path_join d "cert.p12") (stream p12) f1
      | None =>
          failed_write E (path_join d "profile.mobileprovision")
            (stream provision)
            (<[path_join d "cert.p12" := File (stream p12)]> f1)
      end
  end.

(** What the publication of a request whose signing succeeds leaves behind,
    whatever becomes of the manifest and of the answer. *)
Definition published (E : Env) (req : Request) (w : World) (d : string)
    (ipa p12 provision : FileStorage) (bundle_id app_name : pyval)
    (signed : string) (f2 : gmap string node) : Prop :=
  let t1 := clock E (ticks w) in
  let t2 := clock E (S (ticks w)) in
  let perm := path_join "/tmp" (signed_name bundle_id t1) in
  let manifest := path_join "/tmp" (manifest_name bundle_id t2) in
  f2 !! perm = Some (File signed)
  ∧ f2 !! manifest
    = snd (write_outcome E manifest
             (published_manifest req bundle_id app_name t1) (fs w !! manifest))
  ∧ ∀ p, p ≠ perm → p ≠ manifest →
         f2 !! p = signed_fs d ipa p12 provision signed (<[d := Dir]> (fs w)) !! p.

(** ** Collaborators that fail *)

Module Cases.

Definition no_space : exn :=
  PyException "OSError" "[Errno 28] No space left on device".

(** The collaborators of [Demo.E] with other parts: writes that fail, no
    signing executable, another signing executable, no free temporary name,
    another clock, other archives. *)
Definition with_write_fault (g : string → option exn) (k : string → option nat)
    : Env :=
  mkEnv (clock Demo.E) (tmp_names Demo.E) (scratch Demo.E) g
        (rmtree_fault Demo.E) Demo.unzip Demo.plist_load true Demo.zsign
        (mb_repr Demo.E) k Demo.decode.

Definition with_zsign (installed : bool)
    (z : list string → gmap string node → proc_result) (c : nat → Z) : Env :=
  mkEnv c (tmp_names Demo.E) (scratch Demo.E) (write_fault Demo.E)
        (rmtree_fault Demo.E) Demo.unzip Demo.plist_load installed z
        (mb_repr Demo.E) (write_partial Demo.E) Demo.decode.

Definition with_archives (u : string → exn + list (string * tree))
    (l : string → exn + plist_root) : Env :=
  mkEnv (clock Demo.E) (tmp_names Demo.E) (scratch Demo.E) (write_fault Demo.E)
        (rmtree_fault Demo.E) u l true Demo.zsign
        (mb_repr Demo.E) (write_partial Demo.E) Demo.decode.

(** The device is full when the manifest is written: the file is created and
    stays empty. *)
Definition E_manifest_fault : Env :=
  with_write_fault
    (λ p, if Str.startswith p "/tmp/manifest_" then Some no_space else None)
    (λ _, Some 0%nat).

Definition E_save_fault : Env :=
  with_write_fault
    (λ p, if Str.endswith p "/cert.p12" then Some no_space else None)
    (λ _, Some 0%nat).





Definition E_no_names : Env :=
  mkEnv (clock Demo.E) [] (scratch Demo.E) (write_fault Demo.E)
        (rmtree_fault Demo.E) Demo.unzip Demo.plist_load true Demo.zsign
        (mb_repr Demo.E) (write_partial Demo.E) Demo.decode.

(** A clock that stands still, and a signing executable whose output shows
    which archive it was given. *)
Definition zsign_stamp (cmd : list string) (f : gmap string node) : proc_result :=
  match f !! List.last cmd "" with
  | Some (File c) => mkProc 0 ">>> Signed OK!" (Some ("signed:" +:+ c))
  | _ => mkProc 255 ">>> Can't open input" None
  end.

Definition E_same_second : Env := with_zsign true zsign_stamp (λ _, 1700000000).

Definition E_stamp : Env := with_zsign true zsign_stamp (clock Demo.E).

(** An archive with two applications, the first without its [Info.plist]. *)
Definition E_first_app_broken : Env :=
  with_archives
    (λ _, inr [("Payload",
                TDir [("Broken.app", TDir [("README.txt", TFile "read me")]);
                      ("Demo.app", TDir [("Info.plist", TFile "bplist-demo")])])])
    Demo.plist_load.

(** An archive whose bundle identifier is a [data] value. *)
Definition bytes_id : pyval :=
  PyOther "bytes" true "b'com.example.demo'" (Some "bytes").

Definition E_bytes_id : Env :=
  with_archives Demo.unzip
    (λ _, inr (PlistDict {[ "CFBundleIdentifier" := bytes_id;
                            "CFBundleName" := PyStr "Demo" ]})).

Definition demo_ipa : FileStorage := mkFile "app.ipa" "PK-demo".
Definition demo_ipa_two : FileStorage := mkFile "app.ipa" "PK-two".
Definition demo_p12 : FileStorage := mkFile "cert.p12" "p12-bytes".
Definition demo_provision : FileStorage :=
  mkFile "dev.mobileprovision" "profile-bytes".
Definition demo_dir : string := "/tmp/ios_signer_abc12345".

End Cases.

(** * Properties *)

#[local] Arguments String.append !s1 s2 / : simpl nomatch.

(** ** Strings *)

Lemma prefix_nil (s : string) : String.prefix "" s = true.
Proof. by destruct s. Qed.

Lemma prefix_cons (a b : ascii) (s t : string) :
  String.prefix (String a s) (String b t)
  = if ascii_dec a b then String.prefix s t else false.
Proof. reflexivity. Qed.

Lemma prefix_refl (s : string) : String.prefix s s = true.
Proof.
  induction s as [|c s IH]; simpl; [done|].
  destruct (ascii_dec c c); [exact IH | congruence].
Qed.

Lemma prefix_app_r (p a b : string) :
  String.prefix p a = true → String.prefix p (a +:+ b) = true.
Proof.
  revert a. induction p as [|c p IH]; intros a H.
  - by destruct (a +:+ b).
  - destruct a as [|c' a]; simpl in *; [done|].
    destruct (ascii_dec c c'); [by apply IH | done].
Qed.

Lemma prefix_app (s t : string) : String.prefix s (s +:+ t) = true.
Proof. apply prefix_app_r, prefix_refl. Qed.

Lemma contains_refl (s : string) : Str.contains s s = true.
Proof.
  destruct s as [|c s]; [done|].
  change (String.prefix (String c s) (String c s) || Str.contains (String c s) s = true).
  by rewrite prefix_refl.
Qed.

Lemma contains_app_l (sub a t : string) :
  Str.contains sub t = true → Str.contains sub (a +:+ t) = true.
Proof.
  intros H. induction a as [|c a IH]; simpl; [done|].
  rewrite IH. apply orb_true_r.
Qed.

Lemma contains_app_r (sub a b : string) :
  Str.contains sub a = true → Str.contains sub (a +:+ b) = true.
Proof.
  induction a as [|c a IH]; simpl.
  - rewrite orb_false_r. destruct sub; simpl; [|done].
    intros _. destruct b; done.
  - intros [H|H]%orb_true_iff.
    + apply orb_true_iff. left.
      by apply (prefix_app_r sub (String c a) b).
    + rewrite (IH H). apply orb_true_r.
Qed.

Lemma join_contains (sep x : string) (l : list string) :
  In x l → Str.contains x (Str.join sep l) = true.
Proof.
  unfold Str.join. induction l as [|y l IH]; [done|].
  intros [->|H].
  - destruct l; simpl; [apply contains_refl|].
    apply contains_app_r, contains_refl.
  - destruct l as [|z l]; [done|].
    change (String.concat sep (y :: z :: l))
      with (y +:+ sep +:+ String.concat sep (z :: l)).
    by apply contains_app_l, contains_app_l, IH.
Qed.

Lemma append_assoc (a b c : string) : (a +:+ b) +:+ c = a +:+ (b +:+ c).
Proof. induction a as [|x a IH]; simpl; congruence. Qed.

Lemma append_inj_l (a b c : string) : a +:+ b = a +:+ c → b = c.
Proof. induction a as [|x a IH]; simpl; [done|]. intros [=]. auto. Qed.

Lemma length_append (a b : string) :
  String.length (a +:+ b) = (String.length a + String.length b)%nat.
Proof. induction a as [|c a IH]; simpl; [done|]. by rewrite IH. Qed.

Lemma substring_all (s : string) : String.substring 0 (String.length s) s = s.
Proof. induction s as [|c s IH]; simpl; [done|]. by rewrite IH. Qed.

Lemma substring_skip (a s : string) (m : nat) :
  String.substring (String.length a) m (a +:+ s) = String.substring 0 m s.
Proof. induction a as [|c a IH]; simpl; [done|]. apply IH. Qed.

Lemma substring_tail (n : nat) (s : string) :
  (n ≤ String.length s)%nat →
  ∃ y, s = y +:+ String.substring n (String.length s - n) s.
Proof.
  revert s. induction n as [|n IH]; intros s Hn.
  - exists "". rewrite Nat.sub_0_r. by rewrite substring_all.
  - destruct s as [|c s]; simpl in *; [lia|].
    destruct (IH s ltac:(lia)) as [y Hy]. exists (String c y).
    simpl. by rewrite <- Hy.
Qed.

Lemma endswith_app (a suf : string) : Str.endswith (a +:+ suf) suf = true.
Proof.
  unfold Str.endswith. rewrite length_append.
  replace (String.length a + String.length suf - String.length suf)%nat
    with (String.length a) by lia.
  rewrite substring_skip, substring_all, String.eqb_refl, andb_true_r.
  apply Nat.leb_le. lia.
Qed.

Lemma endswith_inv (s suf : string) :
  Str.endswith s suf = true → ∃ y, s = y +:+ suf.
Proof.
  unfold Str.endswith. intros [Hle Heq]%andb_true_iff.
  apply Nat.leb_le in Hle. apply String.eqb_eq in Heq.
  destruct (substring_tail (String.length s - String.length suf) s ltac:(lia))
    as [y Hy].
  exists y.
  replace (String.length s - (String.length s - String.length suf))%nat
    with (String.length suf) in Hy by lia.
  by rewrite Heq in Hy.
Qed.

Lemma list_ascii_app (a b : string) :
  list_ascii_of_string (a +:+ b)
  = (list_ascii_of_string a ++ list_ascii_of_string b)%list.
Proof. induction a as [|c a IH]; simpl; [done|]. by rewrite IH. Qed.

(** A name that ends in [.ipa] does not end in [.plist]. *)
Lemma ipa_is_not_plist (a : string) : Str.endswith (a +:+ ".ipa") ".plist" = false.
Proof.
  destruct (Str.endswith (a +:+ ".ipa") ".plist") eqn:H; [|done].
  apply endswith_inv in H as [y Hy].
  apply (f_equal (λ s, List.rev (list_ascii_of_string s))) in Hy.
  rewrite !list_ascii_app, !rev_app_distr in Hy. simpl in Hy. done.
Qed.

(** ** The download handler *)

Ltac unfold_M :=
  unfold mbind, M_bind, mret, M_ret, bind, ret, raise, abort, try_except,
    try_finally, logger, path_exists, get_fs, set_fs in *.

(** The view function either sends a file or aborts with 500: the aborts with
    404 and 400, and the 416 of a range that cannot be served, are raised
    inside the [try] and caught by its [except Exception]. *)
Lemma download_file_outcome (cond : conditional) (filename : string) (w : World) :
  ∃ w', fs w' = fs w ∧
    let served c as_attachment mimetype :=
      match cond with
      | RangeNotSatisfiable => Raise (HTTPException 500)
      | _ => Ok (file_response cond c as_attachment mimetype filename)
      end in
    download_file cond filename w =
      (match fs w !! path_join "/tmp" filename with
       | Some (File c) =>
           if Str.endswith filename ".plist" then served c false (Some "text/xml")
           else if Str.endswith filename ".ipa" then served c true None
           else Raise (HTTPException 500)
       | _ => Raise (HTTPException 500)
       end, w').
Proof.
  unfold download_file, send_file, read_file. unfold_M. simpl.
  destruct (fs w !! path_join "/tmp" filename) as [[c|]|] eqn:Hf.
  - rewrite bool_decide_eq_true_2 by eauto. simpl.
    destruct (Str.endswith filename ".plist"); simpl.
    { rewrite Hf. destruct cond; simpl; eexists; (split; [|reflexivity]); done. }
    destruct (Str.endswith filename ".ipa"); simpl.
    { rewrite Hf. destruct cond; simpl; eexists; (split; [|reflexivity]); done. }
    eexists; (split; [|reflexivity]); done.
  - rewrite bool_decide_eq_true_2 by eauto. simpl.
    destruct (Str.endswith filename ".plist"); simpl.
    { rewrite Hf. eexists; (split; [|reflexivity]); done. }
    destruct (Str.endswith filename ".ipa"); simpl.
    { rewrite Hf. eexists; (split; [|reflexivity]); done. }
    eexists; (split; [|reflexivity]); done.
  - rewrite bool_decide_eq_false_2 by (intros [? ?]; done). simpl.
    eexists; (split; [|reflexivity]); done.
Qed.

Lemma get_download_run (cond : conditional) (filename : string) (w : World) :
  fst (get_download cond filename w) = download_answer cond filename (fs w)
  ∧ fs (snd (get_download cond filename w)) = fs w.
Proof.
  unfold get_download, download_answer.
  destruct (routed filename); [|done]. simpl. unfold flask.
  destruct (download_file_outcome cond filename w) as (w' & Hfs & ->).
  destruct (fs w !! path_join "/tmp" filename) as [[c|]|]; [|done..].
  destruct (Str.endswith filename ".plist").
  { by destruct cond. }
  destruct (Str.endswith filename ".ipa"); [|done].
  by destruct cond.
Qed.

(** C2 (the code answers 500 where the claim says 404 and 400): a request
    that reaches the view function [download_file] is served the existing
    file whose name ends in .plist inline as text/xml, and the one whose name
    ends in .ipa as an attachment under its name; every other request that
    reaches it, among them one for a file that does not exist and one for a
    name with another suffix, gets the 500 of [handle_internal_error].  (A
    name with a slash never reaches the view function: the routing answers
    404.) *)
Theorem download_serves_or_answers_500 :
  (∀ (cond : conditional) (filename : string) (w : World),
     fst (get_download cond filename w) =
       if negb (routed filename) then mkResponse 404 ErrorPage
       else
         match fs w !! path_join "/tmp" filename with
         | Some (File c) =>
             if Str.endswith filename ".plist"
             then file_response cond c false (Some "text/xml") filename
             else if Str.endswith filename ".ipa"
             then file_response cond c true None filename
             else internal_error
         | _ => internal_error
         end)
  ∧ (∀ c as_attachment mimetype name,
       file_response WholeFile c as_attachment mimetype name
       = mkResponse 200 (SendFile c as_attachment mimetype name))
  ∧ status (fst (get_download WholeFile "missing.ipa" Demo.w0)) = 500
  ∧ status (fst (get_download WholeFile "notes.txt"
                   (mkWorld {[ "/tmp/notes.txt" := File "hello" ]} [] 0))) = 500.
Proof.
  split; [|split_and!; reflexivity].
  intros cond filename w. apply get_download_run.
Qed.

(** ** Validation *)

Ltac answer_400 := eexists; split; [reflexivity | eexists; reflexivity].

Lemma validate_rejects (req : Request) :
  field_missing req ∨ suffix_wrong req →
  ∃ r, validate req = Ok (inl r) ∧ bad_request r.
Proof.
  unfold validate, field_missing, suffix_wrong, bad_request.
  generalize (multidict_get (files req) "ipa")
             (multidict_get (files req) "p12")
             (multidict_get (files req) "provision")
             (multidict_get (form req) "password").
  intros ipa p12 provision password H.
  destruct (files req) as [|? ?]; [answer_400|].
  destruct ipa as [ipa|], p12 as [p12|], provision as [provision|],
           password as [password|]; simpl;
    rewrite ?andb_false_r; simpl; try answer_400.
  destruct (String.eqb (filename ipa) ""), (String.eqb (filename p12) ""),
           (String.eqb (filename provision) ""), (String.eqb password "");
    simpl; try answer_400.
  destruct (Str.endswith (filename ipa) ".ipa") eqn:Hi; simpl; [|answer_400].
  destruct (Str.endswith (filename p12) ".p12") eqn:Hp; simpl; [|answer_400].
  destruct (Str.endswith (filename provision) ".mobileprovision") eqn:Hm;
    simpl; [|answer_400].
  exfalso.
  destruct H as [[?|[?|[?|?]]]|[(f&?&?)|[(f&?&?)|(f&?&?)]]];
    simplify_eq; congruence.
Qed.

Lemma validate_without_password (req : Request) :
  str_truthy (multidict_get (form req) "password") = false →
  validate req
  = Ok (inl (jsonify 400
               [("error",
                 JStr match files req with
                      | [] => "No files uploaded"
                      | _ => "Missing one or more required fields"
                      end)])).
Proof.
  unfold validate. intros ->.
  destruct (files req) as [|? ?]; [done|].
  by rewrite !andb_false_r.
Qed.

Lemma sign_ipa_early_return (E : Env) (req : Request) (r : Response) (w : World) :
  validate req = Ok (inl r) →
  post_sign E req w
  = (r, mkWorld (fs w) (log w ++ [(DEBUG, "Received sign request")]) (ticks w)).
Proof.
  intros H. unfold post_sign, flask, sign_ipa. unfold_M. simpl. by rewrite H.
Qed.

(** C3: a request that lacks one of the four fields, or whose file names do
    not end in .ipa, .p12 and .mobileprovision (compared as they are, so
    [App.IPA] is refused), is answered 400 with a JSON error body, and the
    file system after the request is the file system before it: no working
    directory was created and nothing was written. *)
Theorem sign_rejects_invalid_without_effect (E : Env) (req : Request) (w : World) :
  field_missing req ∨ suffix_wrong req →
  bad_request (fst (post_sign E req w))
  ∧ fs (snd (post_sign E req w)) = fs w
  ∧ Str.endswith "App.IPA" ".ipa" = false.
Proof.
  intros H. destruct (validate_rejects req H) as (r & Hv & Hr).
  rewrite (sign_ipa_early_return E req r w Hv). done.
Qed.

Lemma sign_rejects_invalid_without_effect_witness :
  suffix_wrong Demo.req_pfx
  ∧ fst (post_sign Demo.E Demo.req_pfx Demo.w0)
    = jsonify 400 [("error", JStr "Certificate must have .p12 extension")]
  ∧ fs (snd (post_sign Demo.E Demo.req_pfx Demo.w0)) = fs Demo.w0.
Proof.
  assert (Hbad : suffix_wrong Demo.req_pfx).
  { right; left. exists (mkFile "cert.pfx" "p12-bytes"). split; reflexivity. }
  split; [exact Hbad|]. split; [reflexivity|].
  exact (proj1 (proj2 (sign_rejects_invalid_without_effect
                         Demo.E Demo.req_pfx Demo.w0 (or_intror Hbad)))).
Defined.

(** C9: a request whose password field is present but empty is answered 400,
    and with the very answer the same request gets without the field. *)
Theorem sign_rejects_empty_password (E : Env) (req : Request) (w : World) :
  multidict_get (form req) "password" = Some "" →
  bad_request (fst (post_sign E req w))
  ∧ fst (post_sign E req w)
    = fst (post_sign E (mkRequest (files req) [] (url_root req)) w).
Proof.
  intros H.
  assert (H1 : str_truthy (multidict_get (form req) "password") = false)
    by (by rewrite H).
  rewrite (sign_ipa_early_return E req _ w (validate_without_password req H1)).
  rewrite (sign_ipa_early_return E (mkRequest (files req) [] (url_root req)) _ w
             (validate_without_password
                (mkRequest (files req) [] (url_root req)) eq_refl)).
  split; [by eexists|done].
Qed.

Lemma sign_rejects_empty_password_witness :
  multidict_get (form Demo.req_empty_password) "password" = Some ""
  ∧ fst (post_sign Demo.E Demo.req_empty_password Demo.w0)
    = jsonify 400 [("error", JStr "Missing one or more required fields")]
  ∧ fst (post_sign Demo.E Demo.req_empty_password Demo.w0)
    = fst (post_sign Demo.E Demo.req_no_password Demo.w0).
Proof.
  split; [reflexivity|]. split; [reflexivity|].
  exact (proj2 (sign_rejects_empty_password Demo.E Demo.req_empty_password
                  Demo.w0 eq_refl)).
Defined.

(** ** Paths *)

Lemma prefix_app_inv (p a b : string) :
  String.prefix (p +:+ a) b = true → String.prefix p b = true.
Proof.
  revert b. induction p as [|c p IH]; intros b H; [by destruct b|].
  destruct b as [|c' b]; simpl in *; [done|].
  destruct (ascii_dec c c'); [by apply IH | done].
Qed.

(** A relative name joined to [d] lies below [d], textually. *)
Lemma path_join_prefix (d b : string) :
  Str.startswith b "/" = false → String.prefix d (path_join d b) = true.
Proof.
  intros H. unfold path_join. rewrite H.
  destruct (_ || _); apply prefix_app.
Qed.

Lemma path_join_inj (d b b' : string) :
  Str.startswith b "/" = false → Str.startswith b' "/" = false →
  path_join d b = path_join d b' → b = b'.
Proof.
  intros H H'. unfold path_join. rewrite H, H'.
  destruct (_ || _); intros Heq.
  - by apply append_inj_l in Heq.
  - apply append_inj_l in Heq. by injection Heq.
Qed.

Lemma path_join_ne_self (d x : string) :
  Str.startswith x "/" = false → x ≠ "" → path_join d x ≠ d.
Proof.
  intros Hx Hne Heq. apply (f_equal String.length) in Heq.
  unfold path_join in Heq. rewrite Hx in Heq.
  destruct x as [|c x]; [done|].
  destruct (_ || _); rewrite !length_append in Heq; simpl in Heq; lia.
Qed.

(** [mkdtemp] names its directory [/tmp/<prefix><name>]. *)
Lemma tmp_path (pre n : string) :
  Str.startswith pre "/" = false → pre ≠ "" →
  path_join gettempdir (pre +:+ n) = "/tmp/" +:+ pre +:+ n.
Proof.
  intros H Hne. unfold path_join, gettempdir.
  destruct pre as [|c pre]; [done|].
  replace (Str.startswith (String c pre +:+ n) "/") with false; [done|].
  unfold Str.startswith in *. change (String c pre +:+ n) with (String c (pre +:+ n)).
  rewrite prefix_cons in *.
  destruct (ascii_dec _ c); [by rewrite prefix_nil in H | done].
Qed.

(** What lies below a working directory starts with [/tmp/ios_signer_]. *)
Lemma under_workdir (n p : string) :
  under ("/tmp/ios_signer_" +:+ n) p = true →
  Str.startswith p "/tmp/ios_signer_" = true.
Proof.
  unfold under, Str.startswith. intros [H|H]%orb_true_iff.
  - apply String.eqb_eq in H as ->. apply prefix_app.
  - rewrite append_assoc in H. by apply prefix_app_inv in H.
Qed.

(** ** Running the primitives *)

Lemma write_file_ok (E : Env) (p c : string) (w : World) :
  fs w !! p ≠ Some Dir →
  write_fault E p = None →
  write_file E p c w = (Ok tt, mkWorld (<[p := File c]> (fs w)) (log w) (ticks w)).
Proof.
  intros Hp H. unfold write_file. unfold_M. simpl. rewrite H.
  by destruct (fs w !! p) as [[?|]|].
Qed.

(** A write that raises leaves [p] as it was, or holding the start of the
    content. *)
Lemma write_file_fault (E : Env) (p c : string) (e : exn) (w : World) :
  fs w !! p ≠ Some Dir →
  write_fault E p = Some e →
  write_file E p c w
  = (Raise e,
     mkWorld match write_partial E p with
             | Some k => <[p := File (String.substring 0 k c)]> (fs w)
             | None => fs w
             end (log w) (ticks w)).
Proof.
  intros Hp H. unfold write_file. unfold_M. simpl. rewrite H.
  destruct (fs w !! p) as [[?|]|]; try done;
    destruct (write_partial E p); simpl; by destruct w.
Qed.

Lemma under_refl (d : string) : under d d = true.
Proof. unfold under. by rewrite String.eqb_refl. Qed.

Lemma vacant_lookup (f : gmap string node) (d p : string) :
  vacant f d → under d p = true → f !! p = None.
Proof.
  intros Hv Hu. destruct (f !! p) as [x|] eqn:Hp; [|done].
  specialize (Hv p x Hp). simpl in Hv. congruence.
Qed.

Lemma mkdtemp_inv (E : Env) (pre d : string) (w w' : World) :
  mkdtemp E pre w = (Ok d, w') →
  (∃ n, is_name n = true ∧ d = path_join gettempdir (pre +:+ n))
  ∧ vacant (fs w) d
  ∧ write_fault E d = None
  ∧ w' = mkWorld (<[d := Dir]> (fs w)) (log w) (ticks w).
Proof.
  unfold mkdtemp. unfold_M. simpl.
  destruct (List.find _ (tmp_names E)) as [n|] eqn:Hfind; [|done].
  apply List.find_some in Hfind as [_ [Hn Hfree%bool_decide_eq_true]%andb_true_iff].
  destruct (write_fault E _) eqn:Hw; [done|].
  intros [= <- <-]. eauto 8.
Qed.

(** A working directory is named without a slash at its end, so that what is
    joined to it lies below it. *)
Lemma workdir_no_slash (n : string) :
  is_name n = true → Str.endswith ("/tmp/ios_signer_" +:+ n) "/" = false.
Proof.
  intros Hn. destruct (Str.endswith _ "/") eqn:H; [|done].
  apply endswith_inv in H as [y Hy].
  apply (f_equal (λ s, List.rev (list_ascii_of_string s))) in Hy.
  rewrite !list_ascii_app, !rev_app_distr in Hy.
  unfold is_name in Hn. rewrite forallb_forall in Hn.
  destruct (List.rev (list_ascii_of_string n)) as [|c l] eqn:Hrev.
  - simpl in Hy. done.
  - simpl in Hy. injection Hy as -> _.
    specialize (Hn "/"%char). rewrite in_rev, Hrev in Hn.
    specialize (Hn (or_introl eq_refl)). done.
Qed.

Lemma workdir_child (n x : string) :
  is_name n = true → Str.startswith x "/" = false →
  path_join ("/tmp/ios_signer_" +:+ n) x = "/tmp/ios_signer_" +:+ n +:+ "/" +:+ x
  ∧ under ("/tmp/ios_signer_" +:+ n) (path_join ("/tmp/ios_signer_" +:+ n) x) = true.
Proof.
  intros Hn Hx.
  assert (Heq : path_join ("/tmp/ios_signer_" +:+ n) x
                = ("/tmp/ios_signer_" +:+ n) +:+ "/" +:+ x).
  { unfold path_join. rewrite Hx, (workdir_no_slash n Hn). reflexivity. }
  split; [by rewrite Heq, <- !append_assoc|].
  rewrite Heq. unfold under, Str.startswith.
  rewrite <- append_assoc, prefix_app. apply orb_true_r.
Qed.

Lemma no_dir_insert (f : gmap string node) (d p c : string) :
  no_dir f d → no_dir (<[p := File c]> f) d.
Proof.
  intros H x Hx Hs. destruct (decide (p = path_join d x)) as [->|Hne].
  - by rewrite lookup_insert_eq.
  - rewrite lookup_insert_ne by done. by apply H.
Qed.

Lemma mkdtemp_fs (E : Env) (pre : string) (w : World) l t :
  mkdtemp E pre (mkWorld (fs w) l t)
  = (fst (mkdtemp E pre w),
     mkWorld (fs (snd (mkdtemp E pre w))) l t).
Proof.
  unfold mkdtemp. unfold_M. simpl.
  destruct (List.find _ (tmp_names E)); [|done].
  by destruct (write_fault E _).
Qed.

Lemma lookup_rmtree (f : gmap string node) (d p : string) :
  filter (λ kv, under d (fst kv) = false) f !! p
  = if under d p then None else f !! p.
Proof.
  destruct (under d p) eqn:Hu.
  - apply map_lookup_filter_None. right. intros x _. simpl. congruence.
  - destruct (f !! p) as [x|] eqn:Hp.
    + by apply map_lookup_filter_Some.
    + apply map_lookup_filter_None. by left.
Qed.

(** The [finally] clause never raises.  It leaves every path outside the
    working directory alone and only ever removes; it removes the directory
    unless [rmtree] fails, and then logs the failure. *)
Lemma cleanup_run (E : Env) (d : string) (w : World) :
  d ≠ "" →
  ∃ w', cleanup E d w = (Ok tt, w')
  ∧ (∀ p, under d p = false → fs w' !! p = fs w !! p)
  ∧ (∀ p, fs w' !! p = fs w !! p ∨ fs w' !! p = None)
  ∧ (rmtree_fault E d = None → is_Some (fs w !! d) →
       ∀ p, under d p = true → fs w' !! p = None)
  ∧ (∀ e, rmtree_fault E d = Some e → is_Some (fs w !! d) →
       fs w' = fs w
       ∧ log w' = log w ++ [(WARNING,
            "Failed to cleanup temporary directory: " +:+ exn_str e)])
  ∧ (∃ l, log w' = log w ++ l).
Proof.
  intros Hd%String.eqb_neq.
  unfold cleanup, rmtree. unfold_M. simpl. rewrite Hd. simpl.
  destruct (decide (is_Some (fs w !! d))) as [Hex|Hex].
  - rewrite (bool_decide_eq_true_2 _ Hex).
    destruct (rmtree_fault E d) as [e|] eqn:Hf; simpl.
    + eexists; split; [done|]. simpl. split_and!; eauto; try done.
      intros e' [= <-] _. done.
    + eexists; split; [done|]. simpl. split_and!; eauto; try done.
      * intros p Hp. by rewrite lookup_rmtree, Hp.
      * intros p. rewrite lookup_rmtree. destruct (under d p); auto.
      * intros _ _ p Hp. by rewrite lookup_rmtree, Hp.
  - rewrite (bool_decide_eq_false_2 _ Hex).
    eexists; split; [done|]. split_and!; eauto; try done.
    exists []. by rewrite app_nil_r.
Qed.

(** The outer [except] clause never raises and answers 500, whatever its own
    cleanup does. *)
Lemma unexpected_run (E : Env) (o : option string) (e : exn) (w : World) :
  ∃ w', unexpected E o e w
        = (Ok (jsonify 500 [("error", JStr "Unexpected error occurred");
                            ("details", JStr (exn_str e))]), w')
  ∧ (∀ p, (∀ d, o = Some d → under d p = false) → fs w' !! p = fs w !! p)
  ∧ (∀ p, fs w' !! p = fs w !! p ∨ fs w' !! p = None)
  ∧ (∃ l, log w' = log w ++ l).
Proof.
  unfold unexpected, rmtree. unfold_M. simpl.
  destruct o as [d|]; simpl.
  2: { eexists; split; [done|]. simpl. split_and!; eauto. }
  destruct (negb (String.eqb d "") && _); simpl.
  2: { eexists; split; [done|]. simpl. split_and!; eauto. }
  destruct (rmtree_fault E d) as [e'|]; simpl.
  { eexists; split; [done|]. simpl. split_and!; eauto.
    rewrite <- app_assoc. eauto. }
  eexists; split; [done|]. simpl. split_and!.
  - intros p Hp. by rewrite lookup_rmtree, (Hp d eq_refl).
  - intros p. rewrite lookup_rmtree. destruct (under d p); auto.
  - rewrite <- app_assoc. eauto.
Qed.

(** ** What a computation may do to the world

    The staged body of [sign_ipa] only logs, reads the clock and creates or
    overwrites files: it respects every preorder that these three steps
    respect. *)

Section Respects.
Context (R : relation World) `{!PreOrder R}.
Hypothesis R_log : ∀ w entry,
  R w (mkWorld (fs w) (log w ++ [entry]) (ticks w)).
Hypothesis R_tick : ∀ w, R w (mkWorld (fs w) (log w) (S (ticks w))).
Hypothesis R_write : ∀ w p x,
  R w (mkWorld (<[p := x]> (fs w)) (log w) (ticks w)).

Lemma respects_ret {A} (a : A) : respects R (mret a).
Proof. intros w. reflexivity. Qed.

Lemma respects_raise {A} (e : exn) : respects R (@raise A e).
Proof. intros w. reflexivity. Qed.

Lemma respects_bind {A B} (m : M A) (k : A → M B) :
  respects R m → (∀ a, respects R (k a)) → respects R (m ≫= k).
Proof.
  intros Hm Hk w. unfold_M. specialize (Hm w).
  destruct (m w) as [[a|e] w']; simpl in *; [|done].
  etrans; [exact Hm | apply Hk].
Qed.

Lemma respects_try_except {A} (body : M A) (handler : exn → M A) :
  respects R body → (∀ e, respects R (handler e)) →
  respects R (try_except body handler).
Proof.
  intros Hm Hk w. unfold_M. specialize (Hm w).
  destruct (body w) as [[a|e] w']; simpl in *; [done|].
  etrans; [exact Hm | apply Hk].
Qed.

Lemma respects_logger (lv : level) (msg : string) : respects R (logger lv msg).
Proof. intros w. apply R_log. Qed.

Lemma respects_time_now (E : Env) : respects R (time_now E).
Proof. intros w. apply R_tick. Qed.

Lemma respects_read_file (p : string) : respects R (read_file p).
Proof.
  intros w. unfold read_file. unfold_M. simpl.
  destruct (fs w !! p) as [[?|]|]; reflexivity.
Qed.

Lemma respects_getsize (p : string) : respects R (getsize p).
Proof.
  intros w. unfold getsize. unfold_M. simpl.
  destruct (fs w !! p) as [[?|]|]; reflexivity.
Qed.

Lemma respects_extract (E : Env) (p : string) :
  respects R (extract_bundle_and_name E p).
Proof.
  apply respects_bind; [apply respects_read_file|].
  intros a. destruct (extract_from E a);
    [apply respects_ret | apply respects_raise].
Qed.

Lemma respects_write_file (E : Env) (p c : string) :
  respects R (write_file E p c).
Proof.
  intros w. unfold write_file. unfold_M. simpl.
  destruct (fs w !! p) as [[?|]|]; try reflexivity;
    (destruct (write_fault E p); [destruct (write_partial E p)|]); simpl;
    first [reflexivity | apply R_write].
Qed.

Lemma respects_check_output (E : Env) (cmd : list string) :
  respects R (check_output E cmd).
Proof.
  intros w. unfold check_output. unfold_M.
  destruct (zsign_installed E); simpl; [|reflexivity].
  destruct (outfile _); simpl; destruct (decode E _); simpl;
    try destruct (_ =? 0); simpl;
    first [reflexivity | apply R_write].
Qed.

Lemma respects_get_fs : respects R get_fs.
Proof. intros w. reflexivity. Qed.

Lemma respects_jsonify_values (vs : list pyval) (r : Response) :
  respects R (jsonify_values vs r).
Proof.
  unfold jsonify_values. destruct (json_check vs);
    [apply respects_raise | apply respects_ret].
Qed.

Ltac respects_step :=
  first
    [ apply respects_ret | apply respects_raise | apply respects_logger
    | apply respects_get_fs | apply respects_jsonify_values
    | apply respects_time_now | apply respects_read_file
    | apply respects_getsize | apply respects_extract
    | apply respects_write_file | apply respects_check_output
    | apply respects_bind; [|intros ?]
    | apply respects_try_except; [|intros ?]
    | case_match ].

Lemma publish_respects (E : Env) (req : Request) (bundle_id app_name : pyval)
    (output_path : string) :
  respects R (publish E req bundle_id app_name output_path).
Proof. unfold publish, copy2. repeat respects_step. Qed.

Lemma sign_attempt_respects (E : Env) (cmd : list string) :
  respects R
    (try_except
       (result ← check_output E cmd;
        logger DEBUG ("zsign output: " +:+ result);;
        mret (inl tt))
       (λ e,
          match e with
          | CalledProcessError _ rc out =>
              logger ERROR ("zsign failed with exit code " +:+ pretty rc
                            +:+ ": " +:+ out);;
              mret (inr (jsonify 500 [("error", JStr "Signing failed");
                                      ("details", JStr out)]))
          | _ => raise e
          end)).
Proof. repeat respects_step. Qed.

Lemma staged_respects (E : Env) (req : Request)
    (ipa p12 provision : FileStorage) (password d : string) :
  respects R (staged E req ipa p12 provision password d).
Proof.
  unfold staged, stage_uploads, extract_stage, sign_stage, save.
  repeat first [apply publish_respects | respects_step].
Qed.

End Respects.

#[local] Instance grows_preorder : PreOrder grows.
Proof.
  split; [by intros w p | intros w1 w2 w3 H12 H23 p Hp; by apply H23, H12].
Qed.

#[local] Instance log_extends_preorder : PreOrder log_extends.
Proof.
  split.
  - intros w. exists []. by rewrite app_nil_r.
  - intros w1 w2 w3 [l1 H1] [l2 H2]. exists (l1 ++ l2).
    by rewrite H2, H1, app_assoc.
Qed.

Lemma staged_grows (E : Env) (req : Request) (ipa p12 provision : FileStorage)
    (password d : string) :
  respects grows (staged E req ipa p12 provision password d).
Proof.
  apply (staged_respects grows).
  - by intros w entry p Hp.
  - by intros w p Hp.
  - intros w p x q Hq. simpl. destruct (decide (p = q)) as [->|Hne].
    + rewrite lookup_insert_eq. eauto.
    + by rewrite lookup_insert_ne.
Qed.

Lemma log_extends_steps :
  (∀ w entry, log_extends w (mkWorld (fs w) (log w ++ [entry]) (ticks w)))
  ∧ (∀ w, log_extends w (mkWorld (fs w) (log w) (S (ticks w))))
  ∧ (∀ w p x, log_extends w (mkWorld (<[p := x]> (fs w)) (log w) (ticks w))).
Proof.
  split_and!; intros; eexists; simpl; first [done | by rewrite app_nil_r].
Qed.

(** ** The stages of [sign_ipa], one by one *)

Lemma bind_run {A B} (m : M A) (k : A → M B) (w w' : World) (a : A) :
  m w = (Ok a, w') → (m ≫= k) w = k a w'.
Proof. intros H. unfold_M. by rewrite H. Qed.

Lemma bind_raise_run {A B} (m : M A) (k : A → M B) (w w' : World) (e : exn) :
  m w = (Raise e, w') → (m ≫= k) w = (Raise e, w').
Proof. intros H. unfold_M. by rewrite H. Qed.


Lemma stage_uploads_ok (E : Env) (ipa p12 provision : FileStorage)
    (d : string) (w : World) :
  no_dir (fs w) d →
  write_fault E (path_join d "input.ipa") = None →
  write_fault E (path_join d "cert.p12") = None →
  write_fault E (path_join d "profile.mobileprovision") = None →
  stage_uploads E ipa p12 provision (path_join d "input.ipa")
    (path_join d "cert.p12") (path_join d "profile.mobileprovision") w
  = (Ok (inl tt),
     mkWorld (staged_fs d ipa p12 provision (fs w))
       (log w ++ [(DEBUG, "Saving uploaded files...");
                  (DEBUG, "Files saved successfully")])
       (ticks w)).
Proof.
  intros Hd H1 H2 H3. unfold stage_uploads, save.
  erewrite (bind_run (logger _ _)); [|reflexivity].
  unfold try_except.
  erewrite bind_run; [|apply write_file_ok; [by apply Hd | done]].
  erewrite bind_run;
    [|apply write_file_ok; [by apply (no_dir_insert _ _ _ _ Hd) | done]].
  erewrite bind_run;
    [|apply write_file_ok;
      [by apply (no_dir_insert _ _ _ _ (no_dir_insert _ _ _ _ Hd)) | done]].
  unfold_M. simpl. by rewrite <- app_assoc.
Qed.

Lemma staged_fs_input (d : string) (ipa p12 provision : FileStorage)
    (f : gmap string node) :
  staged_fs d ipa p12 provision f !! path_join d "input.ipa"
  = Some (File (stream ipa)).
Proof.
  unfold staged_fs.
  do 2 (rewrite lookup_insert_ne by (intros Heq%path_join_inj; done)).
  by rewrite lookup_insert_eq.
Qed.

Lemma extract_stage_run (E : Env) (p c : string) (w : World) :
  fs w !! p = Some (File c) →
  extract_stage E p w
  = match extract_from E c with
    | Ok info =>
        (Ok (inl info),
         mkWorld (fs w)
           (log w ++ [(DEBUG, "Extracted app info: " +:+ py_str (snd info)
                              +:+ " (" +:+ py_str (fst info) +:+ ")")])
           (ticks w))
    | Raise e =>
        (Ok (inr (jsonify 500
                    [("error", JStr "Failed to extract bundle id and app name");
                     ("details", JStr (exn_str e))])), w)
    end.
Proof.
  intros H. unfold extract_stage, extract_bundle_and_name, read_file.
  unfold_M. simpl. rewrite H. by destruct (extract_from E c).
Qed.



(** [sign_ipa] from the creation of the working directory on: the staged
    body, then the [finally] clause, then, for an exception, the outer
    [except] clause. *)
Lemma sign_ipa_created (E : Env) (req : Request) (w : World)
    (ipa p12 provision : FileStorage) (password d : string) :
  validate req = Ok (inr (ipa, p12, provision, password)) →
  fst (mkdtemp E "ios_signer_" w) = Ok d →
  let w1 := mkWorld (<[d := Dir]> (fs w))
              (log w ++ [(DEBUG, "Received sign request");
                         (DEBUG, "Created temporary directory: " +:+ d)])
              (ticks w) in
  let run := staged E req ipa p12 provision password d w1 in
  let w3 := snd (cleanup E d (snd run)) in
  d ≠ ""
  ∧ fs w !! d = None
  ∧ (∃ n, d = "/tmp/ios_signer_" +:+ n)
  ∧ post_sign E req w
    = match fst run with
      | Ok r => (r, w3)
      | Raise e =>
          (jsonify 500 [("error", JStr "Unexpected error occurred");
                        ("details", JStr (exn_str e))],
           snd (unexpected E (Some d) e w3))
      end.
Proof.
  intros Hv Hd w1 run w3.
  destruct (mkdtemp E "ios_signer_" w) as [r wd] eqn:Hmk. simpl in Hd. subst r.
  destruct (mkdtemp_inv _ _ _ _ _ Hmk) as ((n & _ & Hn) & Hvac & _ & ->).
  rewrite tmp_path in Hn by done.
  assert (Hne : d ≠ "") by (by subst d).
  split; [done|].
  split; [by apply (vacant_lookup _ d), under_refl|].
  split; [exists n; exact Hn|].
  unfold post_sign, flask, sign_ipa.
  unfold mbind, M_bind, bind, logger. cbv beta iota. rewrite Hv.
  unfold try_except, try_finally, mret, M_ret, ret. cbv beta iota.
  rewrite (mkdtemp_fs E "ios_signer_" w), Hmk. cbn [fst snd fs log ticks].
  rewrite <- app_assoc. cbn [app]. fold w1. fold run.
  subst w3. destruct run as [rs w2]. cbn [fst snd].
  destruct (cleanup_run E d w2 Hne) as (w3 & -> & _). cbn [fst snd].
  destruct rs as [r|e]; [done|].
  by destruct (unexpected_run E (Some d) e w3) as (w4 & -> & _).
Qed.

(** The working directory is new: no directory is in the way of its files. *)
Lemma created_no_dir (E : Env) (d : string) (w w1 : World) :
  fst (mkdtemp E "ios_signer_" w) = Ok d →
  fs w1 = <[d := Dir]> (fs w) →
  no_dir (fs w1) d.
Proof.
  intros Hd Hfs x Hx Hs.
  destruct (mkdtemp E "ios_signer_" w) as [r wd] eqn:Hmk. simpl in Hd. subst r.
  destruct (mkdtemp_inv _ _ _ _ _ Hmk) as ((n & Hname & Hn) & Hvac & _).
  rewrite tmp_path in Hn by done. subst d.
  rewrite Hfs, lookup_insert_ne by (by apply not_eq_sym, path_join_ne_self).
  rewrite (vacant_lookup _ _ _ Hvac); [done|].
  by apply workdir_child.
Qed.

Lemma staged_extract_failure (E : Env) (req : Request)
    (ipa p12 provision : FileStorage) (password d : string) (e : exn)
    (w : World) :
  no_dir (fs w) d →
  write_fault E (path_join d "input.ipa") = None →
  write_fault E (path_join d "cert.p12") = None →
  write_fault E (path_join d "profile.mobileprovision") = None →
  extract_from E (stream ipa) = Raise e →
  ∃ l, staged E req ipa p12 provision password d w
       = (Ok (jsonify 500
                [("error", JStr "Failed to extract bundle id and app name");
                 ("details", JStr (exn_str e))]),
          mkWorld (staged_fs d ipa p12 provision (fs w)) l (ticks w)).
Proof.
  intros Hnd H1 H2 H3 He. unfold staged.
  unfold mbind, M_bind, bind. rewrite stage_uploads_ok by done.
  cbv beta iota.
  rewrite (extract_stage_run E _ (stream ipa)) by apply staged_fs_input.
  rewrite He. eauto.
Qed.


(** An entry logged at the start of a computation is still in the log at its
    end. *)
Lemma logged_stays {A B} (lv : level) (msg : string) (m : M A) (k : A → M B)
    (w : World) :
  respects log_extends m → (∀ a, respects log_extends (k a)) →
  In (lv, msg) (log (snd (((logger lv msg ≫= λ _, m) ≫= k) w))).
Proof.
  intros Hm Hk. unfold_M. simpl.
  match goal with |- context [m ?w1] =>
    destruct (Hm w1) as [l Hl]; destruct (m w1) as [[a|e] w2] end;
    simpl in *.
  - destruct (Hk a w2) as [l' Hl']. rewrite Hl', Hl.
    apply in_or_app. left. apply in_or_app. left. apply in_or_app. right.
    by left.
  - rewrite Hl. apply in_or_app. left. apply in_or_app. right. by left.
Qed.

Lemma staged_logs_invocation (E : Env) (req : Request)
    (ipa p12 provision : FileStorage) (password d : string)
    (info : pyval * pyval) (w : World) :
  no_dir (fs w) d →
  write_fault E (path_join d "input.ipa") = None →
  write_fault E (path_join d "cert.p12") = None →
  write_fault E (path_join d "profile.mobileprovision") = None →
  extract_from E (stream ipa) = Ok info →
  In (DEBUG, zsign_log_message (signing_cmd d password))
     (log (snd (staged E req ipa p12 provision password d w))).
Proof.
  intros Hnd H1 H2 H3 He. unfold staged.
  rewrite (bind_run _ _ _ _ _ (stage_uploads_ok E ipa p12 provision d w Hnd H1 H2 H3)).
  cbv beta iota.
  match goal with |- context [extract_stage E ?p ≫= ?k] =>
    match goal with |- context [(extract_stage E p ≫= k) ?w1] =>
      pose proof (extract_stage_run E p (stream ipa) w1
                    (staged_fs_input d ipa p12 provision (fs w))) as Hx
    end
  end.
  rewrite He in Hx. rewrite (bind_run _ _ _ _ _ Hx).
  destruct info as [bundle_id app_name]. cbv beta iota.
  fold (signing_cmd d password). unfold sign_stage.
  destruct log_extends_steps as (Hlog & Htick & Hwrite).
  apply logged_stays.
  - apply (sign_attempt_respects log_extends); assumption.
  - intros [[]|r];
      [apply (publish_respects log_extends); assumption
      | apply (respects_ret log_extends)].
Qed.

(** A path that does not start with [/tmp/ios_signer_] is neither a working
    directory nor below one. *)
Lemma outside_workdir (n x p : string) :
  Str.startswith p "/tmp/ios_signer_" = false →
  Str.startswith x "/" = false →
  p ≠ "/tmp/ios_signer_" +:+ n
  ∧ p ≠ path_join ("/tmp/ios_signer_" +:+ n) x
  ∧ under ("/tmp/ios_signer_" +:+ n) p = false.
Proof.
  intros Hp Hx. split_and!.
  - intros ->. unfold Str.startswith in Hp. by rewrite prefix_app in Hp.
  - intros ->. unfold Str.startswith in Hp.
    pose proof (path_join_prefix ("/tmp/ios_signer_" +:+ n) x Hx) as Hpre.
    unfold path_join in *. rewrite Hx in *.
    destruct (_ || _); rewrite append_assoc in Hp; by rewrite prefix_app in Hp.
  - destruct (under _ p) eqn:Hu; [|done].
    apply under_workdir in Hu. congruence.
Qed.

(** The staged files and the output of the signing executable all live below
    the working directory. *)
Lemma staged_fs_outside (n p : string) (ipa p12 provision : FileStorage)
    (r : proc_result) (f : gmap string node) :
  Str.startswith p "/tmp/ios_signer_" = false →
  let d := "/tmp/ios_signer_" +:+ n in
  staged_fs d ipa p12 provision (<[d := Dir]> f) !! p = f !! p
  ∧ after_zsign r (path_join d "signed.ipa")
      (staged_fs d ipa p12 provision (<[d := Dir]> f)) !! p = f !! p.
Proof.
  intros Hp d.
  assert (Hx : ∀ x, Str.startswith x "/" = false → path_join d x ≠ p).
  { intros x Hx Heq.
    by destruct (outside_workdir n x p Hp Hx) as (_ & Hne & _). }
  assert (Hd : d ≠ p).
  { intros Heq. by destruct (outside_workdir n "x" p Hp eq_refl) as (Hne & _). }
  assert (Hs : staged_fs d ipa p12 provision (<[d := Dir]> f) !! p = f !! p).
  { unfold staged_fs. by rewrite !lookup_insert_ne by (by auto). }
  split; [done|]. unfold after_zsign. destruct (outfile r); [|done].
  by rewrite lookup_insert_ne by (by auto).
Qed.

(** ** The signing invocation in the log *)

(** C1 (the code does not redact): whatever the staged paths and the
    password, the message logged for the signing invocation contains the
    password, since [cmd[:-1]] still holds it; every request that reaches the
    signing stage leaves that message in the log; and in the demonstration
    request the log of [POST /sign] shows the password [hunter2] in clear. *)
Theorem zsign_log_message_reveals_password :
  (∀ p12_path password provision_path output_path ipa_path : string,
     Str.contains password
       (zsign_log_message
          (zsign_cmd p12_path password provision_path output_path ipa_path))
     = true)
  ∧ (∀ E req w d ipa p12 provision password info,
       uploads_staged E req w d ipa p12 provision password →
       extract_from E (stream ipa) = Ok info →
       In (DEBUG, zsign_log_message (signing_cmd d password))
          (log (snd (post_sign E req w))))
  ∧ In (DEBUG,
        "Running zsign command: ./zsign -k /tmp/ios_signer_abc12345/cert.p12 -p hunter2 -m /tmp/ios_signer_abc12345/profile.mobileprovision -o /tmp/ios_signer_abc12345/signed.ipa [password hidden] /tmp/ios_signer_abc12345/input.ipa")
       (log (snd (post_sign Demo.E Demo.req Demo.w0))).
Proof.
  split_and!.
  - intros. unfold zsign_log_message.
    apply contains_app_l, contains_app_r, join_contains.
    simpl. tauto.
  - intros E req w d ipa p12 provision password info
      (Hv & Hd & H1 & H2 & H3) He.
    destruct (sign_ipa_created E req w ipa p12 provision password d Hv Hd)
      as (Hne & _ & _ & ->).
    match goal with |- context [staged ?x1 ?x2 ?x3 ?x4 ?x5 ?x6 ?x7 ?x8] =>
      pose proof (staged_logs_invocation x1 x2 x3 x4 x5 x6 x7 info x8
                    (created_no_dir x1 x7 w x8 Hd eq_refl) H1 H2 H3 He) as Hin;
      destruct (staged x1 x2 x3 x4 x5 x6 x7 x8) as [rs w2]
    end.
    simpl in *.
    destruct (cleanup_run E d w2 Hne) as (w3 & -> & _ & _ & _ & _ & l & Hl).
    simpl. destruct rs as [r|e]; simpl.
    + rewrite Hl. apply in_or_app. by left.
    + destruct (unexpected_run E (Some d) e w3) as (w4 & -> & _ & _ & l' & Hl').
      simpl. rewrite Hl', Hl. apply in_or_app. left. apply in_or_app. by left.
  - vm_compute. tauto.
Qed.

(** ** The metadata extractor *)

Lemma endswith_eqb (a b suf : string) :
  Str.endswith a suf = true → Str.endswith b suf = false →
  String.eqb b a = false.
Proof. intros Ha Hb. apply String.eqb_neq. intros ->. congruence. Qed.

Lemma first_app_listing (entries : list (string * tree)) :
  match first_app entries with
  | None => List.filter (λ d, Str.endswith d ".app") (List.map fst entries) = []
  | Some (name, t) =>
      Str.endswith name ".app" = true
      ∧ In (name, t) entries
      ∧ tree_child entries name = Some t
      ∧ ∃ others, List.filter (λ d, Str.endswith d ".app") (List.map fst entries)
                  = name :: others
  end.
Proof.
  unfold first_app, tree_child.
  induction entries as [|[k v] entries IH]; simpl; [done|].
  destruct (Str.endswith k ".app") eqn:Hk; simpl.
  - rewrite String.eqb_refl. simpl. eauto 6.
  - destruct (List.find _ entries) as [[name t]|]; [|done].
    destruct IH as (Hn & Hin & Hc & others & Ho).
    rewrite (endswith_eqb name k ".app") by done. eauto 6.
Qed.

(** The extractor, read off the first [.app] entry of the listing. *)
Lemma extract_from_payload (E : Env) (archive : string)
    (root entries : list (string * tree)) :
  unzip E archive = inr root →
  tree_child root "Payload" = Some (TDir entries) →
  match first_app entries with
  | None =>
      extract_from E archive
      = Raise (PyException "Exception" "No .app folder found in Payload")
  | Some (name, t) =>
      match metadata_of E t with
      | Some d => extract_from E archive = Ok (metadata_fields d)
      | None => ∃ e, extract_from E archive = Raise e
      end
  end.
Proof.
  intros Hz Hp. unfold extract_from. rewrite Hz, Hp. simpl.
  pose proof (first_app_listing entries) as Hf.
  destruct (first_app entries) as [[name t]|]; [|by rewrite Hf].
  destruct Hf as (_ & _ & Hc & others & ->). rewrite Hc.
  unfold metadata_of, open_in.
  destruct t as [c|es]; [eauto|].
  destruct (tree_child es "Info.plist") as [[c|?]|]; eauto.
  destruct (plist_load E c) as [e|[d|ty]]; eauto.
Qed.

Lemma extraction_fails_iff (E : Env) (archive : string) :
  (∃ e, extract_from E archive = Raise e) ↔ extraction_failure E archive.
Proof.
  split.
  - intros [e He].
    destruct (unzip E archive) as [e'|root] eqn:Hz;
      [by eapply cannot_be_opened|].
    destruct (tree_child root "Payload") as [[c|entries]|] eqn:Hp.
    1,3: eapply payload_absent; [done|]; intros ?; by rewrite Hp.
    pose proof (extract_from_payload E archive root entries Hz Hp) as Hx.
    pose proof (first_app_listing entries) as Hf.
    destruct (first_app entries) as [[name t]|] eqn:Hfirst.
    + destruct (metadata_of E t) eqn:Hm; [congruence|].
      by eapply metadata_missing_or_malformed.
    + eapply no_app_directory; [done..|].
      intros [k v] Hin. unfold is_app_dir. simpl.
      destruct (Str.endswith k ".app") eqn:Hk; [|done].
      exfalso. unfold first_app in Hfirst.
      eapply List.find_none in Hfirst; [|exact Hin]. simpl in Hfirst.
      congruence.
  - intros [e Hz|root Hz Hp|root entries Hz Hp Hno|root entries name t Hz Hp Hf Hm].
    + unfold extract_from. rewrite Hz. eauto.
    + unfold extract_from. rewrite Hz. simpl.
      destruct (tree_child root "Payload") as [[c|entries]|]; simpl; eauto.
      by destruct (Hp entries).
    + pose proof (extract_from_payload E archive root entries Hz Hp) as Hx.
      pose proof (first_app_listing entries) as Hf.
      destruct (first_app entries) as [[name t]|]; [|eauto].
      destruct Hf as (Hn & Hin & _). specialize (Hno _ Hin).
      unfold is_app_dir in Hno. simpl in Hno. rewrite Hn in Hno.
      destruct t as [c|es]; [|done]. simpl in Hx. done.
    + pose proof (extract_from_payload E archive root entries Hz Hp) as Hx.
      by rewrite Hf, Hm in Hx.
Qed.

(** ** Failures after staging *)

(** The published artifacts are named outside the working directories. *)
Lemma artifact_paths_outside_workdirs (bundle_id : pyval) (t : Z) :
  Str.startswith (path_join "/tmp" ("signed_" +:+ py_str bundle_id +:+ "_"
                                    +:+ pretty t +:+ ".ipa"))
                 "/tmp/ios_signer_" = false
  ∧ Str.startswith (path_join "/tmp" ("manifest_" +:+ py_str bundle_id +:+ "_"
                                      +:+ pretty t +:+ ".plist"))
                   "/tmp/ios_signer_" = false.
Proof. split; reflexivity. Qed.

Lemma failure_after_staging (E : Env) (req : Request) (w : World) (d : string)
    (ipa p12 provision : FileStorage) (password : string)
    (rs : result Response) (f2 : gmap string node) :
  validate req = Ok (inr (ipa, p12, provision, password)) →
  fst (mkdtemp E "ios_signer_" w) = Ok d →
  (∀ w1, fs w1 = <[d := Dir]> (fs w) →
     ∃ l t, staged E req ipa p12 provision password d w1
            = (rs, mkWorld f2 l t)) →
  (∀ p, Str.startswith p "/tmp/ios_signer_" = false → f2 !! p = fs w !! p) →
  fst (post_sign E req w)
  = match rs with
    | Ok response => response
    | Raise e => jsonify 500 [("error", JStr "Unexpected error occurred");
                              ("details", JStr (exn_str e))]
    end
  ∧ untouched_outside_workdirs (fs w) (fs (snd (post_sign E req w))).
Proof.
  intros Hv Hd Hrun Hf2.
  destruct (sign_ipa_created E req w ipa p12 provision password d Hv Hd)
    as (Hne & _ & [n Hn] & ->).
  edestruct Hrun as (l & t & ->); [done|]. cbn [fst snd].
  destruct (cleanup_run E d (mkWorld f2 l t) Hne) as (w3 & -> & Hframe & _).
  cbn [fst snd].
  assert (Hout : ∀ p, Str.startswith p "/tmp/ios_signer_" = false →
                      fs w3 !! p = fs w !! p).
  { intros p Hp. rewrite Hframe; simpl; [by apply Hf2|].
    subst d. by apply (outside_workdir n "x" p). }
  destruct rs as [r|e]; cbn [fst snd]; [done|].
  split; [done|].
  destruct (unexpected_run E (Some d) e w3) as (w4 & -> & Hframe' & _).
  intros p Hp. cbn [fst snd]. rewrite Hframe'; [by apply Hout|].
  intros ? [= <-]. subst d. by apply (outside_workdir n "x" p).
Qed.




Lemma extract_bundle_and_name_fails_iff (E : Env) (ipa_path : string) (w : World) :
  (∃ e, fst (extract_bundle_and_name E ipa_path w) = Raise e)
  ↔ extraction_fails_on E (fs w) ipa_path.
Proof.
  unfold extract_bundle_and_name, extraction_fails_on, read_file. unfold_M.
  simpl. destruct (fs w !! ipa_path) as [[archive|]|]; simpl.
  - rewrite <- extraction_fails_iff.
    destruct (extract_from E archive) as [r|e]; simpl.
    + split; intros [e He]; done.
    + split; eauto.
  - split; eauto.
  - split; eauto.
Qed.

(** C5: the extractor raises exactly when the archive cannot be opened, the
    Payload directory is absent, no directory ending in [.app] is listed in
    it, or the [Info.plist] of the first [.app] entry is missing or is not a
    well-formed dictionary; and a request staged with such an archive is
    answered 500 with the extraction-failure message, every path outside the
    working directories, the artifacts among them, being as it was. *)
Theorem extraction_failure_answers_500 (E : Env) :
  (∀ ipa_path w,
     (∃ e, fst (extract_bundle_and_name E ipa_path w) = Raise e)
     ↔ extraction_fails_on E (fs w) ipa_path)
  ∧ (∀ req w d ipa p12 provision password,
       uploads_staged E req w d ipa p12 provision password →
       extraction_failure E (stream ipa) →
       (∃ details,
          fst (post_sign E req w)
          = jsonify 500
              [("error", JStr "Failed to extract bundle id and app name");
               ("details", JStr details)])
       ∧ untouched_outside_workdirs (fs w) (fs (snd (post_sign E req w)))).
Proof.
  split; [apply extract_bundle_and_name_fails_iff|].
  intros req w d ipa p12 provision password (Hv & Hd & H1 & H2 & H3) Hfail.
  apply extraction_fails_iff in Hfail as [e He].
  destruct (sign_ipa_created E req w ipa p12 provision password d Hv Hd)
    as (_ & _ & [n Hn] & _).
  assert (fst (post_sign E req w)
          = jsonify 500
              [("error", JStr "Failed to extract bundle id and app name");
               ("details", JStr (exn_str e))]
          ∧ untouched_outside_workdirs (fs w) (fs (snd (post_sign E req w))))
    as [Hr Hu]; [|eauto].
  eapply (failure_after_staging E req w d ipa p12 provision password
            (Ok _) (staged_fs d ipa p12 provision (<[d := Dir]> (fs w))));
    [done..| |].
  - intros w1 Hw1.
    destruct (staged_extract_failure E req ipa p12 provision password d e
                w1 (created_no_dir E d w w1 Hd Hw1) H1 H2 H3 He) as [l Hl].
    rewrite Hl, Hw1. eauto.
  - intros p Hp. subst d.
    by apply (staged_fs_outside n p ipa p12 provision (mkProc 0 "" None)).
Qed.

Lemma extraction_failure_answers_500_witness :
  extraction_failure Demo.E "garbage"
  ∧ (∃ e, fst (extract_bundle_and_name Demo.E "/tmp/upload.ipa"
                 (mkWorld {[ "/tmp/upload.ipa" := File "garbage" ]} [] 0))
          = Raise e)
  ∧ (∃ details,
       fst (post_sign Demo.E Demo.req_not_zip Demo.w0)
       = jsonify 500
           [("error", JStr "Failed to extract bundle id and app name");
            ("details", JStr details)])
  ∧ untouched_outside_workdirs (fs Demo.w0)
      (fs (snd (post_sign Demo.E Demo.req_not_zip Demo.w0))).
Proof.
  assert (Hfail : extraction_failure Demo.E "garbage").
  { apply (cannot_be_opened Demo.E "garbage"
             (PyException "BadZipFile" "File is not a zip file")).
    reflexivity. }
  split; [exact Hfail|]. split.
  { apply (proj1 (extraction_failure_answers_500 Demo.E)
             "/tmp/upload.ipa"
             (mkWorld {[ "/tmp/upload.ipa" := File "garbage" ]} [] 0)).
    exact Hfail. }
  apply (proj2 (extraction_failure_answers_500 Demo.E)
           Demo.req_not_zip Demo.w0 "/tmp/ios_signer_abc12345"
           (mkFile "app.ipa" "garbage") (mkFile "cert.p12" "p12-bytes")
           (mkFile "dev.mobileprovision" "profile-bytes") "hunter2").
  - unfold uploads_staged. split_and!; reflexivity.
  - exact Hfail.
Defined.

(** ** The working directory *)

(** C6: once the working directory [d] is created, whatever the outcome of
    the later stages (success, a failing stage, an unexpected exception) the
    directory and everything below it are gone after the request, unless
    [shutil.rmtree] itself fails; such a failure is logged as a warning, and
    the response is the same whatever [shutil.rmtree] does. *)
Theorem working_directory_released (E : Env) (req : Request) (w : World)
    (ipa p12 provision : FileStorage) (password d : string) :
  validate req = Ok (inr (ipa, p12, provision, password)) →
  fst (mkdtemp E "ios_signer_" w) = Ok d →
  (rmtree_fault E d = None →
     ∀ p, under d p = true → fs (snd (post_sign E req w)) !! p = None)
  ∧ (∀ e, rmtree_fault E d = Some e →
       In (WARNING, "Failed to cleanup temporary directory: " +:+ exn_str e)
          (log (snd (post_sign E req w))))
  ∧ (∀ g, fst (post_sign (with_rmtree_fault E g) req w)
          = fst (post_sign E req w)).
Proof.
  intros Hv Hd.
  destruct (sign_ipa_created E req w ipa p12 provision password d Hv Hd)
    as (Hne & Hfree & [n Hn] & Heq).
  split_and!.
  - intros Hok p Hp. rewrite Heq.
    match goal with |- context [staged ?a ?b ?c ?d ?e ?f ?g ?h] =>
      set (run := staged a b c d e f g h) end.
    assert (Hex : is_Some (fs (snd run) !! d)).
    { apply (staged_grows E req ipa p12 provision password d). simpl.
      rewrite lookup_insert_eq. eauto. }
    destruct (cleanup_run E d (snd run) Hne) as (w3 & Hc & _ & _ & Hrm & _).
    rewrite Hc. simpl. specialize (Hrm Hok Hex p Hp).
    destruct (fst run) as [r|e]; simpl; [done|].
    destruct (unexpected_run E (Some d) e w3) as (w4 & -> & _ & Hshrink & _).
    simpl. destruct (Hshrink p) as [-> | ->]; done.
  - intros e Hfault. rewrite Heq.
    match goal with |- context [staged ?a ?b ?c ?d ?e ?f ?g ?h] =>
      set (run := staged a b c d e f g h) end.
    assert (Hex : is_Some (fs (snd run) !! d)).
    { apply (staged_grows E req ipa p12 provision password d). simpl.
      rewrite lookup_insert_eq. eauto. }
    destruct (cleanup_run E d (snd run) Hne)
      as (w3 & Hc & _ & _ & _ & Hwarn & _).
    rewrite Hc. simpl. destruct (Hwarn e Hfault Hex) as [_ Hlog].
    destruct (fst run) as [r|e']; simpl.
    + rewrite Hlog. apply in_or_app. right. by left.
    + destruct (unexpected_run E (Some d) e' w3) as (w4 & Hu & _ & _ & l & Hl).
      rewrite Hu. simpl. rewrite Hl, Hlog. apply in_or_app. left. apply in_or_app. right.
      by left.
  - intros g.
    destruct (sign_ipa_created (with_rmtree_fault E g) req w ipa p12 provision
                password d Hv Hd) as (_ & _ & _ & Heq').
    rewrite Heq, Heq'.
    change (staged (with_rmtree_fault E g)) with (staged E).
    by destruct (fst (staged E req ipa p12 provision password d _)).
Qed.

Lemma working_directory_released_witness :
  fs (snd (post_sign Demo.E Demo.req Demo.w0)) !! "/tmp/ios_signer_abc12345" = None
  ∧ In (WARNING, "Failed to cleanup temporary directory: [Errno 13] Permission denied")
       (log (snd (post_sign Demo.E_stuck Demo.req Demo.w0)))
  ∧ fst (post_sign Demo.E_stuck Demo.req Demo.w0)
    = fst (post_sign Demo.E Demo.req Demo.w0).
Proof.
  pose proof (working_directory_released Demo.E Demo.req Demo.w0
                (mkFile "app.ipa" "PK-demo") (mkFile "cert.p12" "p12-bytes")
                (mkFile "dev.mobileprovision" "profile-bytes") "hunter2"
                "/tmp/ios_signer_abc12345" eq_refl eq_refl) as (Hgone & _ & Hsame).
  pose proof (working_directory_released Demo.E_stuck Demo.req Demo.w0
                (mkFile "app.ipa" "PK-demo") (mkFile "cert.p12" "p12-bytes")
                (mkFile "dev.mobileprovision" "profile-bytes") "hunter2"
                "/tmp/ios_signer_abc12345" eq_refl eq_refl) as (_ & Hwarn & _).
  split_and!.
  - apply Hgone; reflexivity.
  - apply (Hwarn (PyException "PermissionError" "[Errno 13] Permission denied")).
    reflexivity.
  - exact (Hsame (rmtree_fault Demo.E_stuck)).
Defined.

(** ** Several applications in one archive *)

(** C10 (amended): with more than one [.app] entry under Payload the extractor
    does not object to their number: it reads the first one in listing order
    and ignores the rest.  The call succeeds with the fields of that entry
    when its [Info.plist] is a well-formed dictionary and fails when it is
    not, and two archives whose listings agree on the first [.app] entry give
    the same outcome, whatever else they list. *)
Theorem extractor_reads_first_app (E : Env) (archive : string)
    (root entries : list (string * tree)) :
  unzip E archive = inr root →
  tree_child root "Payload" = Some (TDir entries) →
  (1 < length (List.filter (λ kv, Str.endswith (fst kv) ".app") entries))%nat →
  ∃ name t,
    first_app entries = Some (name, t)
    ∧ (∀ d, metadata_of E t = Some d →
         extract_from E archive = Ok (metadata_fields d))
    ∧ (metadata_of E t = None → ∃ e, extract_from E archive = Raise e)
    ∧ (∀ archive' root' entries',
         unzip E archive' = inr root' →
         tree_child root' "Payload" = Some (TDir entries') →
         first_app entries' = Some (name, t) →
         extract_from E archive' = extract_from E archive).
Proof.
  intros Hz Hp Hmany.
  destruct (first_app entries) as [[name t]|] eqn:Hfirst.
  2: { unfold first_app in Hfirst. exfalso.
       destruct (List.filter _ entries) as [|kv l] eqn:Hfilter;
         [simpl in Hmany; lia|].
       assert (Hin : In kv (List.filter (λ kv, Str.endswith (fst kv) ".app") entries))
         by (rewrite Hfilter; by left).
       apply List.filter_In in Hin as [Hin Hkv].
       eapply List.find_none in Hfirst; [|exact Hin]. simpl in *. congruence. }
  pose proof (extract_from_payload E archive root entries Hz Hp) as Hx.
  rewrite Hfirst in Hx.
  exists name, t. split; [done|]. split_and!.
  - intros d Hd. by rewrite Hd in Hx.
  - intros Hd. by rewrite Hd in Hx.
  - intros archive' root' entries' Hz' Hp' Hfirst'.
    pose proof (first_app_listing entries) as Hl.
    pose proof (first_app_listing entries') as Hl'.
    rewrite Hfirst in Hl. rewrite Hfirst' in Hl'.
    destruct Hl as (_ & _ & Hc & others & Ho).
    destruct Hl' as (_ & _ & Hc' & others' & Ho').
    unfold extract_from. rewrite Hz, Hp, Hz', Hp'. simpl.
    by rewrite Ho, Ho', Hc, Hc'.
Qed.

(** C10 as stated fails: of the two [.app] directories of this archive the
    first one has no [Info.plist], and the extractor fails on it although
    the second one is in order. *)
Lemma extractor_first_app_broken_counterexample :
  unzip Cases.E_first_app_broken "PK-broken"
  = inr [("Payload",
          TDir [("Broken.app", TDir [("README.txt", TFile "read me")]);
                ("Demo.app", TDir [("Info.plist", TFile "bplist-demo")])])]
  ∧ length (List.filter is_app_dir
              [("Broken.app", TDir [("README.txt", TFile "read me")]);
               ("Demo.app", TDir [("Info.plist", TFile "bplist-demo")])])
    = 2%nat
  ∧ metadata_of Cases.E_first_app_broken
      (TDir [("Info.plist", TFile "bplist-demo")])
    = Some Demo.info
  ∧ extract_from Cases.E_first_app_broken "PK-broken"
    = Raise (errno2 "/tmp/tmpq1w2e3r4/Payload/Broken.app/Info.plist").
Proof. split_and!; reflexivity. Qed.

Lemma extractor_reads_first_app_witness :
  extract_from Demo.E "PK-two"
  = Ok (PyStr "com.example.demo", PyStr "Demo")
  ∧ extract_from Demo.E "PK-demo" = extract_from Demo.E "PK-two".
Proof.
  destruct (extractor_reads_first_app Demo.E "PK-two"
              [("Payload",
                TDir [("README.txt", TFile "read me");
                      ("Demo.app", TDir [("Info.plist", TFile "bplist-demo")]);
                      ("Other.app", TDir [("Info.plist", TFile "bplist-other")])])]
              [("README.txt", TFile "read me");
               ("Demo.app", TDir [("Info.plist", TFile "bplist-demo")]);
               ("Other.app", TDir [("Info.plist", TFile "bplist-other")])]
              eq_refl eq_refl)
    as (name & t & Hfirst & Hfields & _ & Hsame).
  { vm_compute. lia. }
  injection Hfirst as <- <-. split.
  - rewrite (Hfields Demo.info eq_refl). reflexivity.
  - exact (Hsame "PK-demo" _ _ eq_refl eq_refl eq_refl).
Defined.

(** ** The links of a successful request *)

Lemma returns_ret {A} (a : A) (P : A → Prop) : P a → returns (mret a) P.
Proof. intros H w a' w' [= <- _]. done. Qed.

Lemma returns_true {A} (m : M A) : returns m (λ _, True).
Proof. done. Qed.

Lemma returns_bind {A B} (m : M A) (k : A → M B) (P : A → Prop) (Q : B → Prop) :
  returns m P → (∀ a, P a → returns (k a) Q) → returns (m ≫= k) Q.
Proof.
  intros Hm Hk w b w'. unfold_M.
  destruct (m w) as [[a|e] w1] eqn:Hmw; [|done].
  intros Hkw. eapply Hk; [|exact Hkw]. by eapply Hm.
Qed.

Lemma returns_try_except {A} (body : M A) (handler : exn → M A) (P : A → Prop) :
  returns body P → (∀ e, returns (handler e) P) →
  returns (try_except body handler) P.
Proof.
  intros Hm Hk w b w'. unfold_M.
  destruct (body w) as [[a|e] w1] eqn:Hmw.
  - intros [= <- <-]. by eapply Hm.
  - intros Hh. by eapply Hk.
Qed.

Lemma returns_jsonify_values (vs : list pyval) (r : Response)
    (P : Response → Prop) :
  P r → returns (jsonify_values vs r) P.
Proof.
  intros H. unfold jsonify_values. destruct (json_check vs); [done|].
  by apply returns_ret.
Qed.

Lemma publish_returns (E : Env) (req : Request) (bundle_id app_name : pyval)
    (output_path : string) :
  returns (publish E req bundle_id app_name output_path) (install_links req).
Proof.
  unfold publish.
  repeat (eapply returns_bind; [apply returns_true|]; intros ? _).
  apply returns_jsonify_values. eexists _, _. split_and!; reflexivity.
Qed.

Lemma staged_returns (E : Env) (req : Request) (ipa p12 provision : FileStorage)
    (password d : string) :
  returns (staged E req ipa p12 provision password d)
          (λ r, status r = 500 ∨ install_links req r).
Proof.
  unfold staged.
  eapply (returns_bind _ _ early_or_staged).
  { unfold stage_uploads.
    eapply returns_bind; [apply returns_true|]; intros ? _.
    apply returns_try_except.
    - repeat (eapply returns_bind; [apply returns_true|]; intros ? _).
      by apply returns_ret.
    - intros e. eapply returns_bind; [apply returns_true|]; intros ? _.
      by apply returns_ret. }
  intros [[]|r] Hr; [|apply returns_ret; by left].
  eapply (returns_bind _ _
            (λ x, match x with inl _ => True | inr r => status r = 500 end)).
  { unfold extract_stage. apply returns_try_except.
    - repeat (eapply returns_bind; [apply returns_true|]; intros ? _).
      by apply returns_ret.
    - intros e. by apply returns_ret. }
  intros [[bundle_id app_name]|r] Hr'; [|apply returns_ret; by left].
  eapply (returns_bind _ _ early_or_staged).
  { unfold sign_stage.
    eapply returns_bind; [apply returns_true|]; intros ? _.
    apply returns_try_except.
    - repeat (eapply returns_bind; [apply returns_true|]; intros ? _).
      by apply returns_ret.
    - intros [| |]; try done.
      eapply returns_bind; [apply returns_true|]; intros ? _.
      by apply returns_ret. }
  intros [[]|r] Hr''; [|apply returns_ret; by left].
  intros w r w' Hp. right. by eapply publish_returns.
Qed.

Lemma validate_early_status (req : Request) (r : Response) :
  validate req = Ok (inl r) → status r = 400.
Proof.
  unfold validate.
  destruct (files req); [by intros [= <-]|].
  repeat (case_match; try by intros [= <-]); done.
Qed.

Lemma sign_ipa_not_created (E : Env) (req : Request) (w : World)
    (ipa p12 provision : FileStorage) (password : string) (e : exn) :
  validate req = Ok (inr (ipa, p12, provision, password)) →
  fst (mkdtemp E "ios_signer_" w) = Raise e →
  fst (post_sign E req w)
  = jsonify 500 [("error", JStr "Unexpected error occurred");
                 ("details", JStr (exn_str e))].
Proof.
  intros Hv Hd. unfold post_sign, flask, sign_ipa.
  unfold mbind, M_bind, bind, logger. cbv beta iota. rewrite Hv.
  unfold try_except, try_finally, mret, M_ret, ret. cbv beta iota.
  rewrite (mkdtemp_fs E "ios_signer_" w), Hd.
  by destruct (unexpected_run E None e
                 (mkWorld (fs (snd (mkdtemp E "ios_signer_" w)))
                    (log w ++ [(DEBUG, "Received sign request")]) (ticks w)))
    as (w4 & -> & _).
Qed.

Lemma sign_ipa_validate_raises (E : Env) (req : Request) (w : World) (e : exn) :
  validate req = Raise e →
  fst (post_sign E req w)
  = jsonify 500 [("error", JStr "Unexpected error occurred");
                 ("details", JStr (exn_str e))].
Proof.
  intros Hv. unfold post_sign, flask, sign_ipa.
  unfold mbind, M_bind, bind, logger. cbv beta iota. rewrite Hv.
  by destruct (unexpected_run E None e
                 (mkWorld (fs w) (log w ++ [(DEBUG, "Received sign request")])
                    (ticks w))) as (w4 & -> & _).
Qed.

(** Every answer of [POST /sign] is a 400, a 500, or carries the links. *)
Lemma post_sign_answers (E : Env) (req : Request) (w : World) :
  let r := fst (post_sign E req w) in
  status r = 400 ∨ status r = 500 ∨ install_links req r.
Proof.
  destruct (validate req) as [[r|[[[f1 f2] f3] pw]]|e] eqn:Hv.
  - rewrite (sign_ipa_early_return E req r w Hv). left.
    by apply validate_early_status in Hv.
  - destruct (fst (mkdtemp E "ios_signer_" w)) as [d|e] eqn:Hd.
    + destruct (sign_ipa_created E req w f1 f2 f3 pw d Hv Hd)
        as (_ & _ & _ & ->).
      match goal with |- context [staged ?x1 ?x2 ?x3 ?x4 ?x5 ?x6 ?x7 ?x8] =>
        destruct (staged x1 x2 x3 x4 x5 x6 x7 x8) as [[r|e] w2] eqn:Hrun
      end; simpl.
      * right. by apply staged_returns in Hrun.
      * right; by left.
    + rewrite (sign_ipa_not_created E req w f1 f2 f3 pw e Hv Hd).
      right; by left.
  - rewrite (sign_ipa_validate_raises E req w e Hv). right; by left.
Qed.

(** The base URL: an [http://] prefix has become [https://] (and so has every
    later occurrence: [str.replace] rewrites them all); any other root is
    kept. *)
Lemma https_base_http (rest : string) :
  https_base ("http://" +:+ rest)
  = "https://" +:+ Str.replace rest "http://" "https://".
Proof.
  unfold https_base, Str.startswith, Str.replace.
  rewrite prefix_app. simpl. rewrite prefix_nil. reflexivity.
Qed.

Lemma https_base_other (url_root : string) :
  Str.startswith url_root "http://" = false → https_base url_root = url_root.
Proof. intros H. unfold https_base. by rewrite H. Qed.

(** C8: in a 200 answer of [POST /sign] the three URLs are built on the base
    URL of the request, in which a leading [http://] has been replaced by
    [https://] whatever the request, and the device-installation URL is the
    fixed itms-services prefix followed by the manifest URL. *)
Theorem success_links_use_https_base (E : Env) (req : Request) (w : World) :
  status (fst (post_sign E req w)) = 200 →
  install_links req (fst (post_sign E req w))
  ∧ (∀ rest, url_root req = "http://" +:+ rest →
       https_base (url_root req)
       = "https://" +:+ Str.replace rest "http://" "https://")
  ∧ (Str.startswith (url_root req) "http://" = false →
       https_base (url_root req) = url_root req).
Proof.
  intros H200. split_and!.
  - destruct (post_sign_answers E req w) as [H|[H|H]]; [congruence..|done].
  - intros rest ->. apply https_base_http.
  - apply https_base_other.
Qed.

Lemma success_links_use_https_base_witness :
  json_field "itms_services_url" (fst (post_sign Demo.E Demo.req Demo.w0))
  = Some (JStr "itms-services://?action=download-manifest&url=https://signer.example/download/manifest_com.example.demo_1700000001.plist")
  ∧ install_links Demo.req (fst (post_sign Demo.E Demo.req Demo.w0))
  ∧ https_base (url_root Demo.req) = "https://signer.example/".
Proof.
  split; [reflexivity|].
  destruct (success_links_use_https_base Demo.E Demo.req Demo.w0 eq_refl)
    as (Hlinks & Hbase & _).
  split; [exact Hlinks|].
  rewrite (Hbase "signer.example/" eq_refl). reflexivity.
Defined.

(** ** The manifest, read back *)

Module ReaderFacts.
Import PlistReader.

#[local] Arguments decode : simpl never.








End ReaderFacts.




(** * Further properties of the code *)

(** ** Validation, exactly *)

Lemma endswith_nonempty (s suf : string) :
  Str.endswith s suf = true → suf ≠ "" → String.eqb s "" = false.
Proof.
  intros H Hsuf. destruct s as [|c s]; [|done].
  destruct suf as [|c' suf]; [done|]. done.
Qed.

(** X1: [validate] lets a request through exactly when the four fields are
    there, the password is not empty and the three file names carry their
    suffixes; it never raises, and the three answers about a file that was
    not selected are never given: [all([...])] has refused those requests
    before. *)
Theorem validate_accepts_exactly (req : Request) :
  (∀ ipa p12 provision password,
     validate req = Ok (inr (ipa, p12, provision, password))
     ↔ multidict_get (files req) "ipa" = Some ipa
       ∧ multidict_get (files req) "p12" = Some p12
       ∧ multidict_get (files req) "provision" = Some provision
       ∧ multidict_get (form req) "password" = Some password
       ∧ password ≠ ""
       ∧ Str.endswith (filename ipa) ".ipa" = true
       ∧ Str.endswith (filename p12) ".p12" = true
       ∧ Str.endswith (filename provision) ".mobileprovision" = true)
  ∧ (∀ e, validate req ≠ Raise e)
  ∧ (∀ msg, validate req = Ok (inl (jsonify 400 [("error", JStr msg)])) →
       msg ≠ "No IPA file selected"
       ∧ msg ≠ "No P12 certificate selected"
       ∧ msg ≠ "No provisioning profile selected").
Proof.
  unfold validate.
  assert (Hnil : files req = [] → multidict_get (files req) "ipa" = None)
    by (by intros ->).
  revert Hnil.
  generalize (multidict_get (files req) "ipa")
             (multidict_get (files req) "p12")
             (multidict_get (files req) "provision")
             (multidict_get (form req) "password").
  intros oi op om opw Hnil.
  split_and!.
  - intros ipa p12 provision password. split.
    + destruct (files req) as [|? ?]; [done|].
      destruct oi as [i|], op as [c|], om as [m|], opw as [pw|]; simpl;
        rewrite ?andb_false_r; simpl; try done.
      destruct (String.eqb (filename i) ""), (String.eqb (filename c) ""),
               (String.eqb (filename m) ""), (String.eqb pw "") eqn:Hpw;
        simpl; try done.
      destruct (Str.endswith (filename i) ".ipa") eqn:Hi; simpl; [|done].
      destruct (Str.endswith (filename c) ".p12") eqn:Hc; simpl; [|done].
      destruct (Str.endswith (filename m) ".mobileprovision") eqn:Hm;
        simpl; [|done].
      intros [= <- <- <- <-]. split_and!; try done.
      by apply String.eqb_neq.
    + intros (-> & -> & -> & -> & Hpw & Hi & Hc & Hm).
      destruct (files req) as [|? ?]; [by specialize (Hnil eq_refl)|].
      simpl. rewrite Hi, Hc, Hm.
      rewrite (endswith_nonempty _ _ Hi), (endswith_nonempty _ _ Hc),
        (endswith_nonempty _ _ Hm) by done.
      apply String.eqb_neq in Hpw. rewrite Hpw. done.
  - intros e. destruct (files req) as [|? ?]; [done|].
    destruct oi as [i|], op as [c|], om as [m|], opw as [pw|]; simpl;
      rewrite ?andb_false_r; simpl; try done.
    destruct (String.eqb (filename i) ""), (String.eqb (filename c) ""),
             (String.eqb (filename m) ""), (String.eqb pw "");
      simpl; try done.
    repeat (case_match; try done).
  - intros msg. destruct (files req) as [|? ?]; [by intros [= <-]|].
    destruct oi as [i|], op as [c|], om as [m|], opw as [pw|]; simpl;
      rewrite ?andb_false_r; simpl; try by intros [= <-].
    destruct (String.eqb (filename i) ""), (String.eqb (filename c) ""),
             (String.eqb (filename m) ""), (String.eqb pw "");
      simpl; try by intros [= <-].
    repeat (case_match; try by intros [= <-]).
Qed.

Lemma validate_accepts_exactly_witness :
  validate Demo.req
  = Ok (inr (mkFile "app.ipa" "PK-demo", mkFile "cert.p12" "p12-bytes",
             mkFile "dev.mobileprovision" "profile-bytes", "hunter2")).
Proof.
  apply (proj1 (validate_accepts_exactly Demo.req)).
  split_and!; first [reflexivity | discriminate].
Defined.

(** ** Running the later stages *)

Lemma copy2_run (E : Env) (src dst c : string) (w : World) :
  fs w !! src = Some (File c) →
  fs w !! dst ≠ Some Dir →
  write_fault E dst = None →
  copy2 E src dst w
  = (Ok tt, mkWorld (<[dst := File c]> (fs w)) (log w) (ticks w)).
Proof.
  intros Hs Hdir Hd.
  assert (Hsel : match fs w !! dst with
                 | Some Dir => path_join dst (basename src)
                 | _ => dst
                 end = dst)
    by (by destruct (fs w !! dst) as [[?|]|]).
  unfold copy2. erewrite (bind_run get_fs); [|reflexivity].
  cbv zeta. rewrite Hsel.
  erewrite (bind_run (read_file src));
    [|unfold read_file; unfold_M; simpl; by rewrite Hs].
  by apply write_file_ok.
Qed.

Lemma getsize_run (p c : string) (w : World) :
  fs w !! p = Some (File c) → getsize p w = (Ok (String.length c), w).
Proof. intros H. unfold getsize. unfold_M. simpl. by rewrite H. Qed.

Lemma sign_stage_success (E : Env) (cmd : list string) (w : World) :
  zsign_installed E = true →
  returncode (zsign E cmd (fs w)) = 0 →
  let r := zsign E cmd (fs w) in
  sign_stage E cmd w
  = (match decode E (output r) with
     | inr _ => Ok (inl tt)
     | inl msg => Raise (PyException "UnicodeDecodeError" msg)
     end,
     mkWorld (after_zsign r (List.nth 8 cmd "") (fs w))
       (log w ++ (DEBUG, zsign_log_message cmd)
              :: match decode E (output r) with
                 | inr text => [(DEBUG, "zsign output: " +:+ text)]
                 | inl _ => []
                 end)
       (ticks w)).
Proof.
  intros Hi Hrc r. unfold sign_stage, check_output, after_zsign.
  unfold_M. simpl. rewrite Hi. simpl. fold r. fold r in Hrc.
  destruct (outfile r); simpl; destruct (decode E (output r)); simpl;
    rewrite ?Hrc; simpl; by rewrite <- ?app_assoc.
Qed.

Lemma write_file_run (E : Env) (p c : string) (w : World) :
  ∃ f',
    write_file E p c w
    = (match fst (write_outcome E p c (fs w !! p)) with
       | None => Ok tt
       | Some e => Raise e
       end, mkWorld f' (log w) (ticks w))
    ∧ f' !! p = snd (write_outcome E p c (fs w !! p))
    ∧ ∀ q, q ≠ p → f' !! q = fs w !! q.
Proof.
  destruct w as [f l t]. unfold write_file, write_outcome. unfold_M. simpl.
  destruct (f !! p) as [[c0|]|] eqn:Hp; simpl.
  2: { by exists f. }
  all: destruct (write_fault E p) as [e|]; [destruct (write_partial E p) as [k|]|];
    simpl; eexists; (split; [reflexivity|]); simpl;
    (split; [by rewrite ?lookup_insert_eq
            |intros q Hq; by rewrite ?lookup_insert_ne by done]).
Qed.

Lemma artifact_paths_distinct (b b' : pyval) (t t' : Z) :
  path_join "/tmp" (manifest_name b' t') ≠ path_join "/tmp" (signed_name b t).
Proof. intros H. unfold path_join, manifest_name, signed_name in H. simpl in H. done. Qed.

Lemma publish_run (E : Env) (req : Request) (bundle_id app_name : pyval)
    (out signed : string) (w : World) :
  fs w !! out = Some (File signed) →
  let t1 := clock E (ticks w) in
  let t2 := clock E (S (ticks w)) in
  let perm := path_join "/tmp" (signed_name bundle_id t1) in
  let manifest := path_join "/tmp" (manifest_name bundle_id t2) in
  fs w !! perm ≠ Some Dir →
  write_fault E perm = None →
  ∃ l f',
    publish E req bundle_id app_name out w
    = (publication E req bundle_id app_name t1 t2 (String.length signed)
         (fs w !! manifest),
       mkWorld f' l (S (S (ticks w))))
    ∧ f' !! perm = Some (File signed)
    ∧ f' !! manifest
      = snd (write_outcome E manifest
               (published_manifest req bundle_id app_name t1) (fs w !! manifest))
    ∧ ∀ p, p ≠ perm → p ≠ manifest → f' !! p = fs w !! p.
Proof.
  intros Hout t1 t2 perm manifest Hdir Hperm. unfold publish.
  rewrite (bind_run (time_now E) _ w _ _ eq_refl). cbv beta zeta.
  fold t1. fold (signed_name bundle_id t1). fold perm.
  erewrite bind_run; [|by apply copy2_run]. cbv beta.
  erewrite bind_run; [|reflexivity]. cbv beta.
  erewrite bind_run; [|apply (getsize_run perm signed); simpl;
                        by rewrite lookup_insert_eq].
  cbv beta.
  erewrite bind_run; [|reflexivity]. cbv beta.
  erewrite bind_run; [|reflexivity]. cbv beta. simpl ticks.
  fold t2. fold (manifest_name bundle_id t2). fold manifest.
  erewrite bind_run; [|reflexivity]. cbv beta.
  fold (published_manifest req bundle_id app_name t1).
  assert (Hne : manifest ≠ perm) by apply artifact_paths_distinct.
  match goal with |- context [(write_file E manifest ?c ≫= _) ?w1] =>
    destruct (write_file_run E manifest c w1) as (f' & Hw & Hm & Ho)
  end.
  cbn [fs log ticks] in Hw, Hm, Ho.
  rewrite lookup_insert_ne in Hw, Hm by done.
  unfold publication. fold manifest.
  destruct (fst (write_outcome E manifest _ _)) as [e|].
  { rewrite (bind_raise_run _ _ _ _ _ Hw).
    eexists _, f'. split; [reflexivity|]. split_and!.
    - rewrite Ho by done. apply lookup_insert_eq.
    - done.
    - intros p Hp1 Hp2. rewrite Ho by done. by rewrite lookup_insert_ne. }
  rewrite (bind_run _ _ _ _ _ Hw). unfold jsonify_values.
  destruct (json_check [bundle_id; app_name]) as [e|];
    unfold_M; simpl; eexists _, f'; (split; [reflexivity|]); split_and!;
    try done.
  all: try (rewrite Ho by done; apply lookup_insert_eq).
  all: intros p Hp1 Hp2; rewrite Ho by done; by rewrite lookup_insert_ne.
Qed.

Lemma decodes_text (E : Env) (bytes : string) :
  decodes E bytes = true → ∃ text, decode E bytes = inr text.
Proof. unfold decodes. destruct (decode E bytes); [done|eauto]. Qed.

Lemma staged_signed (E : Env) (req : Request)
    (ipa p12 provision : FileStorage) (password d : string)
    (bundle_id app_name : pyval) (signed : string) (w : World) :
  no_dir (fs w) d →
  write_fault E (path_join d "input.ipa") = None →
  write_fault E (path_join d "cert.p12") = None →
  write_fault E (path_join d "profile.mobileprovision") = None →
  extract_from E (stream ipa) = Ok (bundle_id, app_name) →
  zsign_installed E = true →
  returncode (zsign E (signing_cmd d password)
                (staged_fs d ipa p12 provision (fs w))) = 0 →
  decodes E (output (zsign E (signing_cmd d password)
                       (staged_fs d ipa p12 provision (fs w)))) = true →
  outfile (zsign E (signing_cmd d password)
             (staged_fs d ipa p12 provision (fs w))) = Some signed →
  ∃ l,
    staged E req ipa p12 provision password d w
    = publish E req bundle_id app_name (path_join d "signed.ipa")
        (mkWorld (signed_fs d ipa p12 provision signed (fs w)) l (ticks w)).
Proof.
  intros Hnd H1 H2 H3 He Hi Hrc [text Hdec]%decodes_text Hout. unfold staged.
  rewrite (bind_run _ _ _ _ _ (stage_uploads_ok E ipa p12 provision d w Hnd H1 H2 H3)).
  cbv beta iota.
  match goal with |- context [(extract_stage E ?p ≫= ?k) ?w1] =>
    pose proof (extract_stage_run E p (stream ipa) w1
                  (staged_fs_input d ipa p12 provision (fs w))) as Hx
  end.
  rewrite He in Hx. rewrite (bind_run _ _ _ _ _ Hx). cbv beta iota.
  fold (signing_cmd d password).
  erewrite bind_run;
    [|rewrite sign_stage_success by done; cbn [fs]; rewrite Hdec; reflexivity].
  cbv beta iota. simpl fs. unfold after_zsign. rewrite Hout.
  unfold signed_fs. simpl. eauto.
Qed.

(** [POST /sign] once the staged body has run from the world [w1] to the
    outcome [rs] and a file system of which [P] holds. *)
Lemma outcome_after_staging (E : Env) (req : Request) (w : World) (d : string)
    (ipa p12 provision : FileStorage) (password : string)
    (rs : result Response) (P : gmap string node → Prop) :
  validate req = Ok (inr (ipa, p12, provision, password)) →
  fst (mkdtemp E "ios_signer_" w) = Ok d →
  (∀ w1, fs w1 = <[d := Dir]> (fs w) → ticks w1 = ticks w →
     ∃ l t f2, staged E req ipa p12 provision password d w1
               = (rs, mkWorld f2 l t) ∧ P f2) →
  fst (post_sign E req w) = answer_of rs
  ∧ (∃ f2, P f2
           ∧ ∀ p, under d p = false → fs (snd (post_sign E req w)) !! p = f2 !! p)
  ∧ (rmtree_fault E d = None →
       ∀ p, under d p = true → fs (snd (post_sign E req w)) !! p = None)
  ∧ ∃ n, d = "/tmp/ios_signer_" +:+ n.
Proof.
  intros Hv Hd Hrun.
  destruct (sign_ipa_created E req w ipa p12 provision password d Hv Hd)
    as (Hne & _ & Hn & ->).
  match goal with |- context [staged ?x1 ?x2 ?x3 ?x4 ?x5 ?x6 ?x7 ?x8] =>
    pose proof (staged_grows x1 x2 x3 x4 x5 x6 x7 x8 d) as Hex;
    destruct (Hrun x8 eq_refl eq_refl) as (l & t & f2 & Heq & HP)
  end.
  rewrite Heq in *. cbn [fst snd fs] in *.
  rewrite lookup_insert_eq in Hex. specialize (Hex ltac:(eauto)).
  destruct (cleanup_run E d (mkWorld f2 l t) Hne)
    as (w3 & -> & Hframe & _ & Hrm & _).
  cbn [fst snd fs] in *. destruct rs as [r|e]; cbn [fst snd answer_of].
  - split_and!; eauto.
  - destruct (unexpected_run E (Some d) e w3) as (w4 & -> & Hframe' & Hshrink & _).
    cbn [fst snd]. split_and!; [done| | |done].
    + exists f2. split; [done|]. intros p Hp.
      rewrite Hframe' by (by intros ? [= <-]). auto.
    + intros Hok p Hp. destruct (Hshrink p) as [-> | ->]; auto.
Qed.

Lemma artifact_paths_distinct' (b b' : pyval) (t t' : Z) :
  path_join "/tmp" (signed_name b t) ≠ path_join "/tmp" (manifest_name b' t').
Proof. apply not_eq_sym, artifact_paths_distinct. Qed.

Lemma artifact_path_not_under (n : string) (b : pyval) (t : Z) :
  under ("/tmp/ios_signer_" +:+ n) (path_join "/tmp" (signed_name b t)) = false
  ∧ under ("/tmp/ios_signer_" +:+ n) (path_join "/tmp" (manifest_name b t)) = false.
Proof. split; by apply (outside_workdir n "x"). Qed.

Lemma signed_fs_outside (n p : string) (ipa p12 provision : FileStorage)
    (signed : string) (f : gmap string node) :
  Str.startswith p "/tmp/ios_signer_" = false →
  let d := "/tmp/ios_signer_" +:+ n in
  signed_fs d ipa p12 provision signed (<[d := Dir]> f) !! p = f !! p.
Proof.
  intros Hp d.
  by destruct (staged_fs_outside n p ipa p12 provision
                 (mkProc 0 "" (Some signed)) f Hp) as [_ H].
Qed.

(** The staged body of a request whose signing succeeds. *)
Lemma signed_run (E : Env) (req : Request) (w : World) (d : string)
    (ipa p12 provision : FileStorage) (password : string)
    (bundle_id app_name : pyval) (signed : string) :
  signed_ok E req w d ipa p12 provision password bundle_id app_name signed →
  let t1 := clock E (ticks w) in
  let t2 := clock E (S (ticks w)) in
  let perm := path_join "/tmp" (signed_name bundle_id t1) in
  let manifest := path_join "/tmp" (manifest_name bundle_id t2) in
  fs w !! perm ≠ Some Dir →
  write_fault E perm = None →
  ∀ w1, fs w1 = <[d := Dir]> (fs w) → ticks w1 = ticks w →
    ∃ l t f2,
      staged E req ipa p12 provision password d w1
      = (publication E req bundle_id app_name t1 t2 (String.length signed)
           (fs w !! manifest),
         mkWorld f2 l t)
      ∧ published E req w d ipa p12 provision bundle_id app_name signed f2.
Proof.
  intros ((Hv & Hd & H1 & H2 & H3) & He & Hi & Hrc & Hdec & Hout)
    t1 t2 perm manifest Hdir Hperm w1 Hfs Hticks.
  destruct (sign_ipa_created E req w ipa p12 provision password d Hv Hd)
    as (_ & _ & [n Hn] & _).
  destruct (staged_signed E req ipa p12 provision password d bundle_id
              app_name signed w1 (created_no_dir E d w w1 Hd Hfs)
              H1 H2 H3 He Hi) as [l ->];
    [by rewrite Hfs..|].
  destruct (artifact_paths_outside_workdirs bundle_id t1) as [Ho1 _].
  destruct (artifact_paths_outside_workdirs bundle_id t2) as [_ Ho2].
  fold (signed_name bundle_id t1) in Ho1. fold (manifest_name bundle_id t2) in Ho2.
  fold perm in Ho1. fold manifest in Ho2.
  edestruct (publish_run E req bundle_id app_name (path_join d "signed.ipa")
               signed) as (l' & f2 & -> & Hp & Hm & Ho).
  { cbn [fs]. unfold signed_fs. apply lookup_insert_eq. }
  { cbn [fs ticks]. rewrite Hticks, Hfs. fold t1 perm. subst d.
    by rewrite signed_fs_outside. }
  { cbn [ticks]. by rewrite Hticks. }
  cbn [fs ticks] in Hp, Hm, Ho |- *.
  rewrite Hticks in Hp, Hm, Ho |- *. rewrite Hfs in Hm, Ho |- *.
  subst t1 t2 perm manifest d.
  rewrite signed_fs_outside in Hm |- * by done.
  eexists _, _, f2. split; [reflexivity|]. by split_and!.
Qed.

(** [POST /sign] for a request whose signing succeeds. *)
Lemma published_outcome (E : Env) (req : Request) (w : World)
    (d : string) (ipa p12 provision : FileStorage) (password : string)
    (bundle_id app_name : pyval) (signed : string) :
  signed_ok E req w d ipa p12 provision password bundle_id app_name signed →
  let t1 := clock E (ticks w) in
  let t2 := clock E (S (ticks w)) in
  let perm := path_join "/tmp" (signed_name bundle_id t1) in
  let manifest := path_join "/tmp" (manifest_name bundle_id t2) in
  let w' := snd (post_sign E req w) in
  fs w !! perm ≠ Some Dir →
  write_fault E perm = None →
  fst (post_sign E req w)
  = answer_of (publication E req bundle_id app_name t1 t2 (String.length signed)
                 (fs w !! manifest))
  ∧ fs w' !! perm = Some (File signed)
  ∧ fs w' !! manifest
    = snd (write_outcome E manifest
             (published_manifest req bundle_id app_name t1) (fs w !! manifest))
  ∧ (∀ p, Str.startswith p "/tmp/ios_signer_" = false →
          p ≠ perm → p ≠ manifest → fs w' !! p = fs w !! p)
  ∧ (rmtree_fault E d = None → ∀ p, under d p = true → fs w' !! p = None).
Proof.
  intros Hok t1 t2 perm manifest w' Hdir Hperm.
  pose proof (signed_run E req w d ipa p12 provision password bundle_id
                app_name signed Hok Hdir Hperm) as Hrun.
  fold t1 t2 perm manifest in Hrun.
  destruct Hok as ((Hv & Hd & _) & _).
  destruct (outcome_after_staging E req w d ipa p12 provision password
              _ _ Hv Hd Hrun) as (Hr & (f2 & (Hp & Hm & Ho) & Hframe) & Hrm & n & ->).
  fold w' in Hframe, Hrm. fold t1 t2 perm manifest in Hp, Hm, Ho.
  destruct (artifact_path_not_under n bundle_id t1) as [Hu1 _].
  destruct (artifact_path_not_under n bundle_id t2) as [_ Hu2].
  split_and!; [done| | | |done].
  - by rewrite Hframe.
  - by rewrite Hframe.
  - intros p Hp0 Hp1 Hp2.
    rewrite Hframe by (by apply (outside_workdir n "x")).
    rewrite Ho by done. by apply signed_fs_outside.
Qed.

(** X2: A request whose every stage succeeds, whose bundle identifier names
    no directory and whose metadata the JSON serialiser accepts, is answered
    200 with the metadata of the archive and the size of the signed file; the
    signed archive and the manifest that points at it are then in [/tmp]
    under the names of the answer, the first named after the first clock
    reading and the second after the second; no other path outside the
    working directories has changed, and the working directory is gone unless
    [rmtree] fails. *)
Theorem signing_success_publishes (E : Env) (req : Request) (w : World)
    (d : string) (ipa p12 provision : FileStorage) (password : string)
    (bundle_id app_name : pyval) (signed : string) :
  signed_ok E req w d ipa p12 provision password bundle_id app_name signed →
  let t1 := clock E (ticks w) in
  let t2 := clock E (S (ticks w)) in
  let perm := path_join "/tmp" (signed_name bundle_id t1) in
  let manifest := path_join "/tmp" (manifest_name bundle_id t2) in
  let w' := snd (post_sign E req w) in
  Str.contains "/" (py_str bundle_id) = false →
  json_error bundle_id = None →
  json_error app_name = None →
  fs w !! perm ≠ Some Dir →
  fs w !! manifest ≠ Some Dir →
  write_fault E perm = None →
  write_fault E manifest = None →
  fst (post_sign E req w)
  = success_response req bundle_id app_name t1 t2 (String.length signed)
  ∧ fs w' !! perm = Some (File signed)
  ∧ fs w' !! manifest
    = Some (File (published_manifest req bundle_id app_name t1))
  ∧ (∀ p, Str.startswith p "/tmp/ios_signer_" = false →
          p ≠ perm → p ≠ manifest → fs w' !! p = fs w !! p)
  ∧ (rmtree_fault E d = None → ∀ p, under d p = true → fs w' !! p = None).
Proof.
  intros Hok t1 t2 perm manifest w' _ Hb Hn Hdp Hdm Hperm Hman.
  destruct (published_outcome E req w d ipa p12 provision password bundle_id
              app_name signed Hok Hdp Hperm) as (Hr & Hp & Hm & Ho & Hg).
  fold t1 t2 perm manifest w' in Hr, Hp, Hm, Ho, Hg.
  assert (Hw : write_outcome E manifest
                 (published_manifest req bundle_id app_name t1)
                 (fs w !! manifest)
               = (None, Some (File (published_manifest req bundle_id app_name t1)))).
  { unfold write_outcome. rewrite Hman.
    by destruct (fs w !! manifest) as [[]|]. }
  unfold publication in Hr. fold manifest in Hr. rewrite Hw in Hr, Hm.
  cbn [fst snd json_check] in Hr, Hm. rewrite Hb, Hn in Hr.
  by split_and!.
Qed.

Lemma signing_success_publishes_witness :
  fst (post_sign Demo.E Demo.req Demo.w0)
  = success_response Demo.req (PyStr "com.example.demo") (PyStr "Demo")
      1700000000 1700000001 9
  ∧ fs (snd (post_sign Demo.E Demo.req Demo.w0))
      !! "/tmp/signed_com.example.demo_1700000000.ipa"
    = Some (File "PK-signed")
  ∧ fs (snd (post_sign Demo.E Demo.req Demo.w0)) !! "/tmp/ios_signer_abc12345"
    = None.
Proof.
  assert (Hok : signed_ok Demo.E Demo.req Demo.w0 "/tmp/ios_signer_abc12345"
                  (mkFile "app.ipa" "PK-demo") (mkFile "cert.p12" "p12-bytes")
                  (mkFile "dev.mobileprovision" "profile-bytes") "hunter2"
                  (PyStr "com.example.demo") (PyStr "Demo") "PK-signed").
  { unfold signed_ok, uploads_staged. split_and!; reflexivity. }
  destruct (signing_success_publishes Demo.E Demo.req Demo.w0 _ _ _ _ _ _ _ _
              Hok eq_refl eq_refl eq_refl ltac:(vm_compute; discriminate)
              ltac:(vm_compute; discriminate) eq_refl eq_refl)
    as (Hr & Hs & _ & _ & Hgone).
  split_and!; [exact Hr | exact Hs | apply Hgone; reflexivity].
Defined.

(** X3: When the manifest cannot be written, the request is answered 500 as an
    unexpected error, yet the signed archive copied just before stays
    published in [/tmp]; the manifest path holds what it held when the file
    could not be opened, and otherwise the part of the manifest that was
    written before the failure, in place of what was there. *)
Theorem manifest_failure_leaves_signed_archive (E : Env) (req : Request)
    (w : World) (d : string) (ipa p12 provision : FileStorage)
    (password : string) (bundle_id app_name : pyval) (signed : string)
    (e : exn) :
  signed_ok E req w d ipa p12 provision password bundle_id app_name signed →
  let t1 := clock E (ticks w) in
  let perm := path_join "/tmp" (signed_name bundle_id t1) in
  let manifest :=
    path_join "/tmp" (manifest_name bundle_id (clock E (S (ticks w)))) in
  Str.contains "/" (py_str bundle_id) = false →
  fs w !! perm ≠ Some Dir →
  fs w !! manifest ≠ Some Dir →
  write_fault E perm = None →
  write_fault E manifest = Some e →
  fst (post_sign E req w)
  = jsonify 500 [("error", JStr "Unexpected error occurred");
                 ("details", JStr (exn_str e))]
  ∧ fs (snd (post_sign E req w)) !! perm = Some (File signed)
  ∧ fs (snd (post_sign E req w)) !! manifest
    = match write_partial E manifest with
      | Some k =>
          Some (File (String.substring 0 k
                        (published_manifest req bundle_id app_name t1)))
      | None => fs w !! manifest
      end.
Proof.
  intros Hok t1 perm manifest _ Hdp Hdm Hperm Hman.
  destruct (published_outcome E req w d ipa p12 provision password bundle_id
              app_name signed Hok Hdp Hperm) as (Hr & Hp & Hm & _).
  fold t1 perm manifest in Hr, Hp, Hm.
  assert (Hw : write_outcome E manifest
                 (published_manifest req bundle_id app_name t1)
                 (fs w !! manifest)
               = (Some e,
                  match write_partial E manifest with
                  | Some k =>
                      Some (File (String.substring 0 k
                                    (published_manifest req bundle_id app_name t1)))
                  | None => fs w !! manifest
                  end)).
  { unfold write_outcome. rewrite Hman.
    by destruct (fs w !! manifest) as [[]|]. }
  unfold publication in Hr. fold manifest in Hr. rewrite Hw in Hr, Hm.
  by split_and!.
Qed.

Lemma manifest_failure_leaves_signed_archive_witness :
  fst (post_sign Cases.E_manifest_fault Demo.req Demo.w0)
  = jsonify 500 [("error", JStr "Unexpected error occurred");
                 ("details", JStr "[Errno 28] No space left on device")]
  ∧ fs (snd (post_sign Cases.E_manifest_fault Demo.req Demo.w0))
      !! "/tmp/signed_com.example.demo_1700000000.ipa"
    = Some (File "PK-signed")
  ∧ fs (snd (post_sign Cases.E_manifest_fault Demo.req Demo.w0))
      !! "/tmp/manifest_com.example.demo_1700000001.plist"
    = Some (File EmptyString).
Proof.
  assert (Hok : signed_ok Cases.E_manifest_fault Demo.req Demo.w0 Cases.demo_dir
                  Cases.demo_ipa Cases.demo_p12 Cases.demo_provision "hunter2"
                  (PyStr "com.example.demo") (PyStr "Demo") "PK-signed").
  { unfold signed_ok, uploads_staged. split_and!; reflexivity. }
  exact (manifest_failure_leaves_signed_archive Cases.E_manifest_fault
           Demo.req Demo.w0 _ _ _ _ _ _ _ _ Cases.no_space
           Hok eq_refl ltac:(vm_compute; discriminate)
           ltac:(vm_compute; discriminate) eq_refl eq_refl).
Defined.

(** X17: When the bundle identifier read from the archive is a value that the
    JSON serialiser refuses (a [data] value of the property list, which
    Python holds as [bytes]), the request is answered 500 as an unexpected
    error that names the type, after the signed archive and the manifest
    were published: both stay in [/tmp]. *)
Theorem unserializable_metadata_answers_500 (E : Env) (req : Request)
    (w : World) (d : string) (ipa p12 provision : FileStorage)
    (password : string) (bundle_id app_name : pyval) (signed ty : string) :
  signed_ok E req w d ipa p12 provision password bundle_id app_name signed →
  let t1 := clock E (ticks w) in
  let perm := path_join "/tmp" (signed_name bundle_id t1) in
  let manifest :=
    path_join "/tmp" (manifest_name bundle_id (clock E (S (ticks w)))) in
  json_error bundle_id = Some ty →
  Str.contains "/" (py_str bundle_id) = false →
  fs w !! perm ≠ Some Dir →
  fs w !! manifest ≠ Some Dir →
  write_fault E perm = None →
  write_fault E manifest = None →
  fst (post_sign E req w)
  = jsonify 500 [("error", JStr "Unexpected error occurred");
                 ("details",
                  JStr ("Object of type " +:+ ty
                        +:+ " is not JSON serializable"))]
  ∧ fs (snd (post_sign E req w)) !! perm = Some (File signed)
  ∧ fs (snd (post_sign E req w)) !! manifest
    = Some (File (published_manifest req bundle_id app_name t1)).
Proof.
  intros Hok t1 perm manifest Hty _ Hdp Hdm Hperm Hman.
  destruct (published_outcome E req w d ipa p12 provision password bundle_id
              app_name signed Hok Hdp Hperm) as (Hr & Hp & Hm & _).
  fold t1 perm manifest in Hr, Hp, Hm.
  assert (Hw : write_outcome E manifest
                 (published_manifest req bundle_id app_name t1)
                 (fs w !! manifest)
               = (None, Some (File (published_manifest req bundle_id app_name t1)))).
  { unfold write_outcome. rewrite Hman.
    by destruct (fs w !! manifest) as [[]|]. }
  unfold publication in Hr. fold manifest in Hr. rewrite Hw in Hr, Hm.
  cbn [fst snd json_check] in Hr, Hm. rewrite Hty in Hr.
  by split_and!.
Qed.

Lemma unserializable_metadata_answers_500_witness :
  fst (post_sign Cases.E_bytes_id Demo.req Demo.w0)
  = jsonify 500 [("error", JStr "Unexpected error occurred");
                 ("details",
                  JStr "Object of type bytes is not JSON serializable")]
  ∧ fs (snd (post_sign Cases.E_bytes_id Demo.req Demo.w0))
      !! "/tmp/signed_b'com.example.demo'_1700000000.ipa"
    = Some (File "PK-signed")
  ∧ fs (snd (post_sign Cases.E_bytes_id Demo.req Demo.w0))
      !! "/tmp/manifest_b'com.example.demo'_1700000001.plist"
    = Some (File (published_manifest Demo.req Cases.bytes_id (PyStr "Demo")
                    1700000000)).
Proof.
  assert (Hok : signed_ok Cases.E_bytes_id Demo.req Demo.w0 Cases.demo_dir
                  Cases.demo_ipa Cases.demo_p12 Cases.demo_provision "hunter2"
                  Cases.bytes_id (PyStr "Demo") "PK-signed").
  { unfold signed_ok, uploads_staged. split_and!; reflexivity. }
  destruct (unserializable_metadata_answers_500 Cases.E_bytes_id
              Demo.req Demo.w0 _ _ _ _ _ _ _ _ "bytes"
              Hok eq_refl eq_refl ltac:(vm_compute; discriminate)
              ltac:(vm_compute; discriminate) eq_refl eq_refl)
    as (Hr & Hs & Hm).
  split_and!; [exact Hr | exact Hs | exact Hm].
Defined.

(** ** Stages that fail otherwise *)








Lemma staged_save_failure (E : Env) (req : Request)
    (ipa p12 provision : FileStorage) (password d : string) (e : exn)
    (w : World) :
  no_dir (fs w) d →
  first_save_fault E d = Some e →
  ∃ l, staged E req ipa p12 provision password d w
       = (Ok (jsonify 500 [("error", JStr "Failed to save uploaded files");
                           ("details", JStr (exn_str e))]),
          mkWorld (partly_staged_fs E d ipa p12 provision (fs w)) l (ticks w)).
Proof.
  intros Hnd Hf. unfold first_save_fault in Hf. unfold partly_staged_fs.
  pose proof (no_dir_insert _ _ (path_join d "input.ipa") (stream ipa) Hnd)
    as Hnd1.
  pose proof (no_dir_insert _ _ (path_join d "cert.p12") (stream p12) Hnd1)
    as Hnd2.
  destruct (write_fault E (path_join d "input.ipa")) as [e1|] eqn:E1;
    [|destruct (write_fault E (path_join d "cert.p12")) as [e2|] eqn:E2];
    simplify_eq; eexists; unfold staged, stage_uploads, save.
  - erewrite (bind_run (logger _ _ ≫= _)); cycle 1.
    { erewrite (bind_run (logger _ _)); [|reflexivity]. unfold try_except.
      erewrite bind_raise_run; [|apply write_file_fault; [by apply Hnd | done]].
      unfold failed_write. unfold_M. simpl. reflexivity. }
    reflexivity.
  - erewrite (bind_run (logger _ _ ≫= _)); cycle 1.
    { erewrite (bind_run (logger _ _)); [|reflexivity]. unfold try_except.
      erewrite bind_run; [|apply write_file_ok; [by apply Hnd | done]].
      erewrite bind_raise_run; [|apply write_file_fault; [by apply Hnd1 | done]].
      unfold failed_write. unfold_M. simpl. reflexivity. }
    reflexivity.
  - erewrite (bind_run (logger _ _ ≫= _)); cycle 1.
    { erewrite (bind_run (logger _ _)); [|reflexivity]. unfold try_except.
      erewrite bind_run; [|apply write_file_ok; [by apply Hnd | done]].
      erewrite bind_run; [|apply write_file_ok; [by apply Hnd1 | done]].
      erewrite bind_raise_run; [|apply write_file_fault; [by apply Hnd2 | done]].
      unfold failed_write. unfold_M. simpl. reflexivity. }
    reflexivity.
Qed.

(** X6: When one of the three uploads cannot be saved, the request is answered
    500 with the message of the save failure and the text of the first
    exception; the later stages do not run and nothing is published. *)
Theorem save_failure_answers_500 (E : Env) (req : Request) (w : World)
    (d : string) (ipa p12 provision : FileStorage) (password : string)
    (e : exn) :
  validate req = Ok (inr (ipa, p12, provision, password)) →
  fst (mkdtemp E "ios_signer_" w) = Ok d →
  first_save_fault E d = Some e →
  fst (post_sign E req w)
  = jsonify 500 [("error", JStr "Failed to save uploaded files");
                 ("details", JStr (exn_str e))]
  ∧ untouched_outside_workdirs (fs w) (fs (snd (post_sign E req w))).
Proof.
  intros Hv Hd Hfault.
  destruct (sign_ipa_created E req w ipa p12 provision password d Hv Hd)
    as (_ & _ & [n Hn] & _).
  apply (failure_after_staging E req w d ipa p12 provision password
           (Ok (jsonify 500 [("error", JStr "Failed to save uploaded files");
                             ("details", JStr (exn_str e))]))
           (partly_staged_fs E d ipa p12 provision (<[d := Dir]> (fs w)))
           Hv Hd).
  - intros w1 Hfs.
    destruct (staged_save_failure E req ipa p12 provision password d e
                w1 (created_no_dir E d w w1 Hd Hfs) Hfault) as [l ->].
    rewrite Hfs. eauto.
  - intros p Hp. subst d.
    destruct (outside_workdir n "input.ipa" p Hp eq_refl) as (Hd' & Hi & _).
    destruct (outside_workdir n "cert.p12" p Hp eq_refl) as (_ & Hc & _).
    destruct (outside_workdir n "profile.mobileprovision" p Hp eq_refl)
      as (_ & Hm & _).
    unfold partly_staged_fs, failed_write.
    repeat case_match; rewrite ?lookup_insert_ne by done; done.
Qed.

Lemma save_failure_answers_500_witness :
  fst (post_sign Cases.E_save_fault Demo.req Demo.w0)
  = jsonify 500 [("error", JStr "Failed to save uploaded files");
                 ("details", JStr "[Errno 28] No space left on device")]
  ∧ untouched_outside_workdirs (fs Demo.w0)
      (fs (snd (post_sign Cases.E_save_fault Demo.req Demo.w0))).
Proof.
  apply (save_failure_answers_500 Cases.E_save_fault Demo.req Demo.w0
           Cases.demo_dir Cases.demo_ipa Cases.demo_p12 Cases.demo_provision
           "hunter2" Cases.no_space); reflexivity.
Defined.

Lemma mkdtemp_raise_fs (E : Env) (pre : string) (w : World) (e : exn) :
  fst (mkdtemp E pre w) = Raise e → snd (mkdtemp E pre w) = w.
Proof.
  unfold mkdtemp. unfold_M. simpl.
  destruct (List.find _ (tmp_names E)); [|by destruct w].
  destruct (write_fault E _); [by destruct w | done].
Qed.

(** X7: When the working directory cannot be created, the request is answered
    500 as an unexpected error with the text of the exception, and the file
    system is left exactly as it was. *)
Theorem workdir_creation_failure_answers_500 (E : Env) (req : Request)
    (w : World) (ipa p12 provision : FileStorage) (password : string)
    (e : exn) :
  validate req = Ok (inr (ipa, p12, provision, password)) →
  fst (mkdtemp E "ios_signer_" w) = Raise e →
  fst (post_sign E req w)
  = jsonify 500 [("error", JStr "Unexpected error occurred");
                 ("details", JStr (exn_str e))]
  ∧ fs (snd (post_sign E req w)) = fs w.
Proof.
  intros Hv Hd.
  split; [by eapply sign_ipa_not_created|].
  unfold post_sign, flask, sign_ipa.
  unfold mbind, M_bind, bind, logger. cbv beta iota. rewrite Hv.
  unfold try_except, try_finally, mret, M_ret, ret. cbv beta iota.
  rewrite (mkdtemp_fs E "ios_signer_" w), Hd.
  rewrite (mkdtemp_raise_fs E "ios_signer_" w e Hd).
  unfold unexpected. unfold_M. simpl. done.
Qed.

Lemma workdir_creation_failure_answers_500_witness :
  fst (post_sign Cases.E_no_names Demo.req Demo.w0)
  = jsonify 500 [("error", JStr "Unexpected error occurred");
                 ("details",
                  JStr "[Errno 17] No usable temporary directory name found")]
  ∧ fs (snd (post_sign Cases.E_no_names Demo.req Demo.w0)) = fs Demo.w0.
Proof.
  apply (workdir_creation_failure_answers_500 Cases.E_no_names Demo.req
           Demo.w0 Cases.demo_ipa Cases.demo_p12 Cases.demo_provision
           "hunter2"
           (PyException "FileExistsError"
              "[Errno 17] No usable temporary directory name found"));
    reflexivity.
Defined.

(** ** No exception leaves [sign_ipa] *)

Lemma staged_status (E : Env) (req : Request) (ipa p12 provision : FileStorage)
    (password d : string) :
  returns (staged E req ipa p12 provision password d)
          (λ r, status r = 200 ∨ status r = 500).
Proof.
  unfold staged.
  eapply (returns_bind _ _ early_or_staged).
  { unfold stage_uploads.
    eapply returns_bind; [apply returns_true|]; intros ? _.
    apply returns_try_except.
    - repeat (eapply returns_bind; [apply returns_true|]; intros ? _).
      by apply returns_ret.
    - intros e. eapply returns_bind; [apply returns_true|]; intros ? _.
      by apply returns_ret. }
  intros [[]|r] Hr; [|apply returns_ret; by right].
  eapply (returns_bind _ _
            (λ x, match x with inl _ => True | inr r => status r = 500 end)).
  { unfold extract_stage. apply returns_try_except.
    - repeat (eapply returns_bind; [apply returns_true|]; intros ? _).
      by apply returns_ret.
    - intros e. by apply returns_ret. }
  intros [[bundle_id app_name]|r] Hr'; [|apply returns_ret; by right].
  eapply (returns_bind _ _ early_or_staged).
  { unfold sign_stage.
    eapply returns_bind; [apply returns_true|]; intros ? _.
    apply returns_try_except.
    - repeat (eapply returns_bind; [apply returns_true|]; intros ? _).
      by apply returns_ret.
    - intros [| |]; try done.
      eapply returns_bind; [apply returns_true|]; intros ? _.
      by apply returns_ret. }
  intros [[]|r] Hr''; [|apply returns_ret; by right].
  unfold publish.
  repeat (eapply returns_bind; [apply returns_true|]; intros ? _).
  apply returns_jsonify_values. by left.
Qed.

(** X8: Whatever the request, the file system and the collaborators do,
    [sign_ipa] returns a response: no exception escapes its two [try]
    blocks, so Flask's own error handlers are never called for [/sign]; and
    the status of that response is 200, 400 or 500. *)
Theorem sign_ipa_never_raises (E : Env) (req : Request) (w : World) :
  ∃ r w', sign_ipa E req w = (Ok r, w')
          ∧ (status r = 200 ∨ status r = 400 ∨ status r = 500).
Proof.
  unfold sign_ipa.
  unfold mbind, M_bind, bind, logger. cbv beta iota.
  destruct (validate req) as [[r|[[[f1 f2] f3] pw]]|e] eqn:Hv.
  - eexists _, _. split; [reflexivity|].
    right; left. by apply validate_early_status in Hv.
  - unfold try_except, try_finally, mret, M_ret, ret. cbv beta iota.
    match goal with |- context [mkdtemp E ?pre ?w0] =>
      destruct (mkdtemp E pre w0) as [[d|e] w1] eqn:Hmk
    end.
    + destruct (mkdtemp_inv _ _ _ _ _ Hmk) as ((n & _ & Hn) & _ & _ & ->).
      rewrite tmp_path in Hn by done.
      assert (Hne : d ≠ "") by (by subst d).
      match goal with |- context [staged ?x1 ?x2 ?x3 ?x4 ?x5 ?x6 ?x7 ?x8] =>
        destruct (staged x1 x2 x3 x4 x5 x6 x7 x8) as [[r|e] w2] eqn:Hrun
      end.
      * destruct (cleanup_run E d w2 Hne) as (w3 & -> & _).
        eexists _, _. split; [reflexivity|].
        apply staged_status in Hrun. tauto.
      * destruct (cleanup_run E d w2 Hne) as (w3 & -> & _).
        destruct (unexpected_run E (Some d) e w3) as (w4 & -> & _).
        eexists _, _. split; [reflexivity|]. right; by right.
    + destruct (unexpected_run E None e w1) as (w4 & -> & _).
      eexists _, _. split; [reflexivity|]. right; by right.
  - destruct (unexpected_run E None e
                (mkWorld (fs w) (log w ++ [(DEBUG, "Received sign request")])
                   (ticks w))) as (w4 & -> & _).
    eexists _, _. split; [reflexivity|]. right; by right.
Qed.

(** ** Downloads *)

Lemma contains_char_cons (c x : ascii) (s : string) :
  Str.contains (String c "") (String x s)
  = bool_decide (c = x) || Str.contains (String c "") s.
Proof.
  cbn [Str.contains]. rewrite prefix_cons, prefix_nil.
  destruct (ascii_dec c x);
    [by rewrite bool_decide_eq_true_2 | by rewrite bool_decide_eq_false_2].
Qed.

Lemma contains_char_app (c : ascii) (a b : string) :
  Str.contains (String c "") (a +:+ b)
  = Str.contains (String c "") a || Str.contains (String c "") b.
Proof.
  induction a as [|x a IH]; [done|].
  change (String x a +:+ b) with (String x (a +:+ b)).
  by rewrite !contains_char_cons, IH, orb_assoc.
Qed.

Lemma pretty_N_go_no_slash (x : N) (s : string) :
  Str.contains "/" s = false → Str.contains "/" (pretty_N_go x s) = false.
Proof.
  revert s. induction (N.lt_wf_0 x) as [x _ IH]. intros s Hs.
  destruct (decide (0 < x)%N) as [Hx|Hx].
  - rewrite pretty_N_go_step by done. apply IH.
    + apply N.div_lt; lia.
    + rewrite contains_char_cons, Hs, orb_false_r.
      apply bool_decide_eq_false_2. unfold pretty_N_char.
      repeat case_match; done.
  - assert (x = 0%N) as -> by lia. by rewrite pretty_N_go_0.
Qed.

Lemma pretty_Z_no_slash (t : Z) : Str.contains "/" (pretty t) = false.
Proof.
  assert (HN : ∀ p, Str.contains "/" (pretty (N.pos p)) = false).
  { intros p. unfold pretty, pretty_N. case_decide; [done|].
    by apply pretty_N_go_no_slash. }
  destruct t as [|p|p]; [done|apply HN|].
  change (pretty (Z.neg p)) with ("-" +:+ pretty (N.pos p)).
  by rewrite contains_char_app, HN.
Qed.

(** The names of the artifacts of a bundle identifier without a slash are
    path segments: the route of the downloads matches them. *)
Lemma artifact_names_routed (b : pyval) (t : Z) :
  Str.contains "/" (py_str b) = false →
  routed (signed_name b t) = true ∧ routed (manifest_name b t) = true.
Proof.
  intros Hb. unfold routed, signed_name, manifest_name.
  rewrite !contains_char_app, Hb, pretty_Z_no_slash. done.
Qed.

(** X10: A download changes nothing in the file system, and the status and the
    body of its answer depend on the name, on the way the conditional headers
    of the request resolve and on the file system alone: asking again in the
    same way, at once or after other downloads, gives them again. *)
Theorem download_is_repeatable (cond : conditional) (filename : string)
    (w : World) :
  fs (snd (get_download cond filename w)) = fs w
  ∧ (∀ w', fs w' = fs w →
       fst (get_download cond filename w') = fst (get_download cond filename w))
  ∧ (∀ cond' other,
       fst (get_download cond filename (snd (get_download cond' other w)))
       = fst (get_download cond filename w)).
Proof.
  split_and!.
  - apply get_download_run.
  - intros w' Hfs.
    destruct (get_download_run cond filename w') as [-> _].
    destruct (get_download_run cond filename w) as [-> _]. by rewrite Hfs.
  - intros cond' other.
    destruct (get_download_run cond filename
                (snd (get_download cond' other w))) as [-> _].
    destruct (get_download_run cond' other w) as [_ ->].
    by destruct (get_download_run cond filename w) as [-> _].
Qed.

(** X11: After a successful request whose bundle identifier holds no slash
    the two names of the answer can be downloaded: a plain request for the
    first is answered 200 with the signed archive as an attachment, the bytes
    the signing executable wrote, and one for the second 200 with the
    manifest inline as text/xml, the text that was generated; a conditional
    request is answered from the same bytes. *)
Theorem published_artifacts_download (E : Env) (req : Request) (w : World)
    (d : string) (ipa p12 provision : FileStorage) (password : string)
    (bundle_id app_name : pyval) (signed : string) (cond : conditional) :
  signed_ok E req w d ipa p12 provision password bundle_id app_name signed →
  let t1 := clock E (ticks w) in
  let t2 := clock E (S (ticks w)) in
  let w' := snd (post_sign E req w) in
  Str.contains "/" (py_str bundle_id) = false →
  fs w !! path_join "/tmp" (signed_name bundle_id t1) ≠ Some Dir →
  fs w !! path_join "/tmp" (manifest_name bundle_id t2) ≠ Some Dir →
  write_fault E (path_join "/tmp" (signed_name bundle_id t1)) = None →
  write_fault E (path_join "/tmp" (manifest_name bundle_id t2)) = None →
  fst (get_download cond (signed_name bundle_id t1) w')
  = file_response cond signed true None (signed_name bundle_id t1)
  ∧ fst (get_download cond (manifest_name bundle_id t2) w')
    = file_response cond (published_manifest req bundle_id app_name t1) false
        (Some "text/xml") (manifest_name bundle_id t2)
  ∧ file_response WholeFile signed true None (signed_name bundle_id t1)
    = mkResponse 200 (SendFile signed true None (signed_name bundle_id t1)).
Proof.
  intros Hok t1 t2 w' Hb Hdp Hdm Hperm Hman.
  destruct (published_outcome E req w d ipa p12 provision password bundle_id
              app_name signed Hok Hdp Hperm) as (_ & Hs & Hm & _).
  fold t1 t2 w' in Hs, Hm.
  assert (Hw : fs w' !! path_join "/tmp" (manifest_name bundle_id t2)
               = Some (File (published_manifest req bundle_id app_name t1))).
  { rewrite Hm. unfold write_outcome. rewrite Hman.
    by destruct (fs w !! path_join "/tmp" (manifest_name bundle_id t2))
      as [[]|]. }
  destruct (artifact_names_routed bundle_id t1 Hb) as [Hr1 _].
  destruct (artifact_names_routed bundle_id t2 Hb) as [_ Hr2].
  split_and!; [| |done].
  - destruct (get_download_run cond (signed_name bundle_id t1) w') as [-> _].
    unfold download_answer. rewrite Hr1, Hs. cbn [negb].
    unfold signed_name at 1 3. rewrite <- !append_assoc.
    by rewrite ipa_is_not_plist, endswith_app.
  - destruct (get_download_run cond (manifest_name bundle_id t2) w') as [-> _].
    unfold download_answer. rewrite Hr2, Hw. cbn [negb].
    unfold manifest_name at 1. rewrite <- !append_assoc.
    by rewrite endswith_app.
Qed.

Lemma published_artifacts_download_witness :
  fst (get_download WholeFile "signed_com.example.demo_1700000000.ipa"
         (snd (post_sign Demo.E Demo.req Demo.w0)))
  = mkResponse 200 (SendFile "PK-signed" true None
                      "signed_com.example.demo_1700000000.ipa")
  ∧ status (fst (get_download WholeFile
                   "manifest_com.example.demo_1700000001.plist"
                   (snd (post_sign Demo.E Demo.req Demo.w0)))) = 200.
Proof.
  assert (Hok : signed_ok Demo.E Demo.req Demo.w0 Cases.demo_dir
                  Cases.demo_ipa Cases.demo_p12 Cases.demo_provision "hunter2"
                  (PyStr "com.example.demo") (PyStr "Demo") "PK-signed").
  { unfold signed_ok, uploads_staged. split_and!; reflexivity. }
  destruct (published_artifacts_download Demo.E Demo.req Demo.w0 _ _ _ _ _ _ _ _
              WholeFile Hok eq_refl ltac:(vm_compute; discriminate)
              ltac:(vm_compute; discriminate) eq_refl eq_refl)
    as (Hs & Hm & _).
  split; [exact Hs|]. exact (f_equal status Hm).
Defined.

(** ** The name of the application *)

(** X12: Whenever the extractor returns, what it returns was read from the
    dictionary of the [Info.plist] of the first [.app] entry of Payload: the
    bundle identifier is whatever that dictionary holds under its key, [None]
    when the key is absent, with no fallback; the name is a true value, the
    display name of that dictionary when that is one, else its bundle name
    when that is one, else the text UnknownApp. *)
Theorem extracted_name_is_never_empty (E : Env) (archive : string)
    (bundle_id app_name : pyval) :
  extract_from E archive = Ok (bundle_id, app_name) →
  ∃ root entries name t d,
    unzip E archive = inr root
    ∧ tree_child root "Payload" = Some (TDir entries)
    ∧ first_app entries = Some (name, t)
    ∧ metadata_of E t = Some d
    ∧ bundle_id = default PyNone (d !! "CFBundleIdentifier")
    ∧ truthy app_name = true
    ∧ (if truthy (dict_get d "CFBundleDisplayName")
       then d !! "CFBundleDisplayName" = Some app_name
       else if truthy (dict_get d "CFBundleName")
       then d !! "CFBundleName" = Some app_name
       else app_name = PyStr "UnknownApp").
Proof.
  intros H.
  destruct (unzip E archive) as [e|root] eqn:Hz;
    [by unfold extract_from in H; rewrite Hz in H|].
  destruct (tree_child root "Payload") as [[c|entries]|] eqn:Hp;
    [by unfold extract_from in H; rewrite Hz, Hp in H|
    |by unfold extract_from in H; rewrite Hz, Hp in H].
  pose proof (extract_from_payload E archive root entries Hz Hp) as Hx.
  destruct (first_app entries) as [[name t]|] eqn:Hfirst; [|congruence].
  destruct (metadata_of E t) as [d|] eqn:Hd; [|destruct Hx; congruence].
  rewrite H in Hx. injection Hx as -> ->.
  exists root, entries, name, t, d. split_and!; try done.
  - unfold py_or. repeat case_match; done.
  - unfold py_or, dict_get.
    destruct (d !! "CFBundleDisplayName") as [v1|] eqn:Hdn; simpl.
    + destruct (truthy v1) eqn:Ht1; simpl; rewrite ?Ht1; [done|].
      destruct (d !! "CFBundleName") as [v2|] eqn:Hbn; simpl; [|done].
      destruct (truthy v2) eqn:Ht2; simpl; rewrite ?Ht2; done.
    + destruct (d !! "CFBundleName") as [v2|] eqn:Hbn; simpl; [|done].
      destruct (truthy v2) eqn:Ht2; simpl; rewrite ?Ht2; done.
Qed.

Lemma extracted_name_is_never_empty_witness :
  ∃ root entries name t d,
    unzip Demo.E "PK-demo" = inr root
    ∧ tree_child root "Payload" = Some (TDir entries)
    ∧ first_app entries = Some (name, t)
    ∧ metadata_of Demo.E t = Some d
    ∧ PyStr "com.example.demo" = default PyNone (d !! "CFBundleIdentifier")
    ∧ truthy (PyStr "Demo") = true
    ∧ (if truthy (dict_get d "CFBundleDisplayName")
       then d !! "CFBundleDisplayName" = Some (PyStr "Demo")
       else if truthy (dict_get d "CFBundleName")
       then d !! "CFBundleName" = Some (PyStr "Demo")
       else PyStr "Demo" = PyStr "UnknownApp").
Proof.
  apply (extracted_name_is_never_empty Demo.E "PK-demo").
  reflexivity.
Defined.

(** ** The upload to transfer.sh *)

(** X13: [upload_to_transfersh] never raises and changes no file: it returns a
    pair of which exactly one component is set.  The URL is set exactly when
    the path names a regular file and the service answers its PUT, made under
    the given name or else the last segment of the path, with status 200; it
    is then the stripped body of that answer.  A path that names nothing is
    reported in the error component. *)
Theorem upload_reports_url_or_error (N : Net) (file_path : string)
    (filename : option string) (w : World) :
  let name :=
    match filename with
    | Some n => if String.eqb n "" then basename file_path else n
    | None => basename file_path
    end in
  let timeout (c : string) : Z :=
    if 100 * 1024 * 1024 <? Z.of_nat (String.length c) then 300 else 120 in
  ∃ url err w',
    upload_to_transfersh N file_path filename w = (Ok (url, err), w')
    ∧ fs w' = fs w
    ∧ ticks w' = ticks w
    ∧ (is_Some url ↔ err = None)
    ∧ (∀ u, url = Some u ↔
         ∃ c text,
           fs w !! file_path = Some (File c)
           ∧ http_put N ("https://transfer.sh/" +:+ name) c (timeout c)
             = inr (200, text)
           ∧ u = str_strip N text)
    ∧ (fs w !! file_path = None →
       err = Some ("Upload error: " +:+ exn_str (errno2 file_path))).
Proof.
  intros name timeout.
  unfold upload_to_transfersh, try_except, getsize, read_file.
  unfold_M. unfold logger. cbv beta iota. cbn [fs log ticks].
  destruct (fs w !! file_path) as [[c|]|] eqn:Hf; cbn [fs log ticks fst snd];
    rewrite ?Hf.
  - fold name. fold (timeout c).
    destruct (http_put N ("https://transfer.sh/" +:+ name) c (timeout c))
      as [[[|] e]|[code text]] eqn:Hput; cbn [fs log ticks];
      [| |destruct (code =? 200) eqn:Hcode; cbn [negb fs log ticks]].
    3: { apply Z.eqb_eq in Hcode as ->.
         eexists _, _, _. split; [reflexivity|]. cbn [fs ticks].
         do 2 (split; [done|]). split; [split; [done|eauto]|].
         split; [|done].
         intros u. split.
         - intros [= <-]. eauto.
         - intros (c' & text' & ? & Hp & ->). simplify_eq. congruence. }
    all: eexists _, _, _; (split; [reflexivity|]); cbn [fs ticks];
      do 2 (split; [done|]);
      (split; [split; [intros [? ?]; done | done]|]);
      (split; [|done]);
      intros u; (split; [done|]); intros (c' & text' & ? & Hp & _);
      simplify_eq; try congruence.
    apply Z.eqb_neq in Hcode. congruence.
  - eexists _, _, _. split; [reflexivity|]. cbn [fs ticks].
    do 2 (split; [done|]).
    split; [split; [intros [? ?]; done | done]|].
    split; [|done].
    intros u. split; [done|]. intros (c' & text & ? & _). done.
  - eexists _, _, _. split; [reflexivity|]. cbn [fs ticks].
    do 2 (split; [done|]).
    split; [split; [intros [? ?]; done | done]|].
    split; [|done].
    intros u. split; [done|]. intros (c' & text & ? & _). done.
Qed.

(** ** The manifest that is served *)



(** ** Two requests, one name *)

Lemma append_inj_r (a b s : string) : a +:+ s = b +:+ s → a = b.
Proof.
  revert b. induction a as [|c a IH]; intros [|c' b] H.
  - done.
  - apply (f_equal String.length) in H.
    change (String c' b +:+ s) with (String c' (b +:+ s)) in H.
    simpl in H. rewrite length_append in H. lia.
  - apply (f_equal String.length) in H.
    change (String c a +:+ s) with (String c (a +:+ s)) in H.
    simpl in H. rewrite length_append in H. lia.
  - change (String c (a +:+ s) = String c' (b +:+ s)) in H.
    injection H as -> H. f_equal. by apply IH.
Qed.

Lemma signed_path_time (b b' : pyval) (t t' : Z) :
  py_str b' = py_str b →
  path_join "/tmp" (signed_name b' t') = path_join "/tmp" (signed_name b t) →
  t' = t.
Proof.
  intros Hb H. unfold path_join, signed_name in H. simpl in H.
  rewrite Hb in H. injection H as H.
  apply append_inj_l in H. injection H as H.
  apply append_inj_r in H. by apply (inj pretty) in H.
Qed.

(** X15: The name of a signed archive is made of the bundle identifier and the
    second in which it was stored, and nothing else.  So when a second
    request for the same bundle identifier, one without a slash, succeeds
    after a first one, the link of the first answer serves the archive of the
    second request if both were stored in the same second, and still the
    archive of the first request if not. *)
Theorem earlier_link_after_later_request (E : Env) (req1 req2 : Request)
    (w : World) (d1 d2 : string)
    (ipa1 p12_1 provision1 ipa2 p12_2 provision2 : FileStorage)
    (password1 password2 : string)
    (bundle_id1 app_name1 bundle_id2 app_name2 : pyval)
    (signed1 signed2 : string) :
  let w1 := snd (post_sign E req1 w) in
  let w2 := snd (post_sign E req2 w1) in
  let t1 := clock E (ticks w) in
  let t2 := clock E (S (ticks w)) in
  let u1 := clock E (ticks w1) in
  let u2 := clock E (S (ticks w1)) in
  signed_ok E req1 w d1 ipa1 p12_1 provision1 password1
            bundle_id1 app_name1 signed1 →
  write_fault E (path_join "/tmp" (signed_name bundle_id1 t1)) = None →
  write_fault E (path_join "/tmp" (manifest_name bundle_id1 t2)) = None →
  signed_ok E req2 w1 d2 ipa2 p12_2 provision2 password2
            bundle_id2 app_name2 signed2 →
  write_fault E (path_join "/tmp" (signed_name bundle_id2 u1)) = None →
  write_fault E (path_join "/tmp" (manifest_name bundle_id2 u2)) = None →
  py_str bundle_id2 = py_str bundle_id1 →
  Str.contains "/" (py_str bundle_id1) = false →
  fs w !! path_join "/tmp" (signed_name bundle_id1 t1) ≠ Some Dir →
  fs w !! path_join "/tmp" (signed_name bundle_id2 u1) ≠ Some Dir →
  fst (get_download WholeFile (signed_name bundle_id1 t1) w1)
  = mkResponse 200 (SendFile signed1 true None (signed_name bundle_id1 t1))
  ∧ fst (get_download WholeFile (signed_name bundle_id1 t1) w2)
    = mkResponse 200
        (SendFile (if bool_decide (u1 = t1) then signed2 else signed1)
                  true None (signed_name bundle_id1 t1)).
Proof.
  intros w1 w2 t1 t2 u1 u2 Hok1 Hp1 Hm1 Hok2 Hp2 Hm2 Hb Hslash Hd1 Hd2.
  destruct (published_outcome E req1 w d1 ipa1 p12_1 provision1 password1
              bundle_id1 app_name1 signed1 Hok1 Hd1 Hp1)
    as (_ & Hs1 & _ & Hframe1 & _).
  fold w1 t1 t2 in Hs1, Hframe1.
  assert (Hd2' : fs w1 !! path_join "/tmp" (signed_name bundle_id2 u1)
                 ≠ Some Dir).
  { destruct (decide (path_join "/tmp" (signed_name bundle_id2 u1)
                      = path_join "/tmp" (signed_name bundle_id1 t1)))
      as [->|Hne]; [by rewrite Hs1|].
    rewrite Hframe1; [done| |done|apply artifact_paths_distinct'].
    apply artifact_paths_outside_workdirs. }
  destruct (published_outcome E req2 w1 d2 ipa2 p12_2 provision2 password2
              bundle_id2 app_name2 signed2 Hok2 Hd2' Hp2)
    as (_ & Hs2 & _ & Hframe & _).
  fold w2 u1 u2 in Hs2, Hframe.
  assert (Hserved : ∀ c w',
            fs w' !! path_join "/tmp" (signed_name bundle_id1 t1)
            = Some (File c) →
            fst (get_download WholeFile (signed_name bundle_id1 t1) w')
            = mkResponse 200 (SendFile c true None (signed_name bundle_id1 t1))).
  { intros c w' Hw'.
    destruct (get_download_run WholeFile (signed_name bundle_id1 t1) w')
      as [-> _].
    destruct (artifact_names_routed bundle_id1 t1 Hslash) as [Hr1 _].
    unfold download_answer. rewrite Hr1, Hw'. cbn [negb].
    unfold signed_name at 1 3. rewrite <- !append_assoc.
    by rewrite ipa_is_not_plist, endswith_app. }
  split; [by apply Hserved|].
  apply Hserved. case_bool_decide as Ht.
  - replace (signed_name bundle_id1 t1) with (signed_name bundle_id2 u1);
      [done|].
    unfold signed_name. by rewrite Hb, Ht.
  - rewrite Hframe; [done| | |].
    + apply artifact_paths_outside_workdirs.
    + intros Heq. apply Ht. symmetry in Heq.
      by apply (signed_path_time bundle_id1 bundle_id2) in Heq.
    + intros Heq. symmetry in Heq. by apply artifact_paths_distinct in Heq.
Qed.

(** The clock stands still and the link of the first answer serves the second
    archive; the clock moves and it serves the first. *)
Lemma earlier_link_after_later_request_witness :
  (let w1 := snd (post_sign Cases.E_same_second (Demo.upload "PK-demo" "pw") Demo.w0) in
   let w2 := snd (post_sign Cases.E_same_second (Demo.upload "PK-two" "pw") w1) in
   fst (get_download WholeFile "signed_com.example.demo_1700000000.ipa" w1)
   = mkResponse 200 (SendFile "signed:PK-demo" true None
                       "signed_com.example.demo_1700000000.ipa")
   ∧ fst (get_download WholeFile "signed_com.example.demo_1700000000.ipa" w2)
     = mkResponse 200 (SendFile "signed:PK-two" true None
                         "signed_com.example.demo_1700000000.ipa"))
  ∧ (let w1 := snd (post_sign Cases.E_stamp (Demo.upload "PK-demo" "pw") Demo.w0) in
     let w2 := snd (post_sign Cases.E_stamp (Demo.upload "PK-two" "pw") w1) in
     fst (get_download WholeFile "signed_com.example.demo_1700000000.ipa" w1)
     = mkResponse 200 (SendFile "signed:PK-demo" true None
                         "signed_com.example.demo_1700000000.ipa")
     ∧ fst (get_download WholeFile "signed_com.example.demo_1700000000.ipa" w2)
       = mkResponse 200 (SendFile "signed:PK-demo" true None
                           "signed_com.example.demo_1700000000.ipa")).
Proof.
  split.
  - assert (Hok1 : signed_ok Cases.E_same_second (Demo.upload "PK-demo" "pw")
                     Demo.w0 Cases.demo_dir Cases.demo_ipa Cases.demo_p12
                     Cases.demo_provision "pw" (PyStr "com.example.demo")
                     (PyStr "Demo") "signed:PK-demo").
    { unfold signed_ok, uploads_staged. split_and!; reflexivity. }
    assert (Hok2 : signed_ok Cases.E_same_second (Demo.upload "PK-two" "pw")
                     (snd (post_sign Cases.E_same_second
                             (Demo.upload "PK-demo" "pw") Demo.w0))
                     Cases.demo_dir Cases.demo_ipa_two Cases.demo_p12
                     Cases.demo_provision "pw" (PyStr "com.example.demo")
                     (PyStr "Demo") "signed:PK-two").
    { unfold signed_ok, uploads_staged. split_and!; reflexivity. }
    exact (earlier_link_after_later_request Cases.E_same_second _ _ _ _ _
             _ _ _ _ _ _ _ _ _ _ _ _ _ _
             Hok1 eq_refl eq_refl Hok2 eq_refl eq_refl eq_refl eq_refl
             ltac:(vm_compute; discriminate) ltac:(vm_compute; discriminate)).
  - assert (Hok1 : signed_ok Cases.E_stamp (Demo.upload "PK-demo" "pw")
                     Demo.w0 Cases.demo_dir Cases.demo_ipa Cases.demo_p12
                     Cases.demo_provision "pw" (PyStr "com.example.demo")
                     (PyStr "Demo") "signed:PK-demo").
    { unfold signed_ok, uploads_staged. split_and!; reflexivity. }
    assert (Hok2 : signed_ok Cases.E_stamp (Demo.upload "PK-two" "pw")
                     (snd (post_sign Cases.E_stamp
                             (Demo.upload "PK-demo" "pw") Demo.w0))
                     Cases.demo_dir Cases.demo_ipa_two Cases.demo_p12
                     Cases.demo_provision "pw" (PyStr "com.example.demo")
                     (PyStr "Demo") "signed:PK-two").
    { unfold signed_ok, uploads_staged. split_and!; reflexivity. }
    exact (earlier_link_after_later_request Cases.E_stamp _ _ _ _ _
             _ _ _ _ _ _ _ _ _ _ _ _ _ _
             Hok1 eq_refl eq_refl Hok2 eq_refl eq_refl eq_refl eq_refl
             ltac:(vm_compute; discriminate) ltac:(vm_compute; discriminate)).
Defined.

(** ** The names of the uploads *)

(** X16: The file names the client sends are looked at for their suffixes and
    never again: the uploads are stored under the fixed names of the working
    directory.  Two requests that pass the checks and carry the same three
    contents, the same password and the same base URL get the same answer and
    leave the same file system, log and clock, whatever their file names. *)
Theorem upload_names_only_pass_the_checks (E : Env) (req req' : Request)
    (w : World) (ipa p12 provision ipa' p12' provision' : FileStorage)
    (password : string) :
  validate req = Ok (inr (ipa, p12, provision, password)) →
  validate req' = Ok (inr (ipa', p12', provision', password)) →
  stream ipa' = stream ipa →
  stream p12' = stream p12 →
  stream provision' = stream provision →
  url_root req' = url_root req →
  post_sign E req' w = post_sign E req w.
Proof.
  intros Hv Hv' Hi Hc Hp Hu.
  unfold post_sign, sign_ipa. rewrite Hv, Hv'. clear Hv Hv'.
  destruct req as [fl fm u], req' as [fl' fm' u'].
  destruct ipa as [n1 s1], p12 as [n2 s2], provision as [n3 s3].
  destruct ipa' as [n1' s1'], p12' as [n2' s2'], provision' as [n3' s3'].
  cbn [stream url_root] in Hi, Hc, Hp, Hu. subst.
  reflexivity.
Qed.

Lemma upload_names_only_pass_the_checks_witness :
  post_sign Demo.E
    (mkRequest [("ipa", mkFile "../../etc/cron.d/job.ipa" "PK-demo");
                ("p12", mkFile "/root/.ssh/id.p12" "p12-bytes");
                ("provision", mkFile "a b.mobileprovision" "profile-bytes")]
               [("password", "hunter2")] "http://signer.example/")
    Demo.w0
  = post_sign Demo.E Demo.req Demo.w0.
Proof.
  apply (upload_names_only_pass_the_checks Demo.E Demo.req _ Demo.w0
           Cases.demo_ipa Cases.demo_p12 Cases.demo_provision
           (mkFile "../../etc/cron.d/job.ipa" "PK-demo")
           (mkFile "/root/.ssh/id.p12" "p12-bytes")
           (mkFile "a b.mobileprovision" "profile-bytes") "hunter2");
    reflexivity.
Defined.
